(** * nbsynthetic.synthetic: data preparation, training orchestration and
      inverse transformation of the tabular GAN pipeline

    Shallow embedding of [src/nbsynthetic/synthetic.py].

    Conventions of the embedding.
    - Python floats and integers are exact rationals ([Q]); equality of
      numbers is [Qeq].  Rounding, [inf] and [nan] produced by arithmetic are
      outside the model; a missing cell of a data frame (what [pd.isnull]
      detects) is the explicit value [VNull].
    - A [pd.DataFrame] is the ordered list of its columns; a column carries
      its label, its dtype tag and its cells.  [len(df)] is the length of the
      first column.  The row index is not modelled: a frame without columns
      has no rows here, and the statements on frames without rows are about
      frames that have columns.
    - Where the scalers convert a column to floats they call [float] on
      each cell.  The model has this conversion raise on every [str] cell,
      which is what [float] does on text that is no numeral; the conversion
      of text that reads as a number is outside the model.
    - Python exceptions are the constructor [Raise] of [result].
    - numpy, pandas and scikit-learn are not part of the repository.  The
      few operations the module calls are written out below from their
      reference behaviour, each under the name the source uses.
    - The GAN class handed to [synthetic_data] is a parameter of the
      development: an abstract world state, a constructor, [train] and
      [create_fake_samples].  The model records every use of it in a trace. *)

From Stdlib Require Import List String Ascii Bool Arith ZArith QArith Qminmax Qround Qfield.
From Stdlib Require Import Lia Lqa Permutation Sorted.
Import ListNotations.

Local Open Scope Q_scope.

(** ** Exceptions and the error monad *)

Inductive exn : Type :=
| ValueError (msg : string)
| IndexError (msg : string)
| KeyError (key : string)
| NotFittedError.

Inductive result (A : Type) : Type :=
| Ok (a : A)
| Raise (e : exn).

Arguments Ok {A} a.
Arguments Raise {A} e.

Definition rbind {A B : Type} (m : result A) (k : A -> result B) : result B :=
  match m with
  | Ok a => k a
  | Raise e => Raise e
  end.

Declare Scope result_scope.
Delimit Scope result_scope with result.
Notation "x <- m ;; k" := (rbind m (fun x => k))
  (at level 61, m at next level, right associativity) : result_scope.
Notation "' pat <- m ;; k" := (rbind m (fun x => match x with pat => k end))
  (at level 61, pat pattern, m at next level, right associativity) : result_scope.
Local Open Scope result_scope.

(** [for x in xs: s = body(x, s)], stopping at the first exception. *)
Fixpoint for_each {A S : Type} (xs : list A) (body : A -> S -> result S) (s : S)
  : result S :=
  match xs with
  | [] => Ok s
  | x :: xs' => s' <- body x s ;; for_each xs' body s'
  end.

(** ** numpy *)

Module np.

Definition ltb (x y : Q) : bool := negb (Qle_bool y x).

(** [np.finfo(np.float64).eps] *)
Definition finfo_eps : Q := 1 # 4503599627370496.

(** [np.min] and [np.max] of a non-empty array. *)
Definition min (xs : list Q) : result Q :=
  match xs with
  | [] => Raise (ValueError "zero-size array to reduction operation minimum which has no identity")
  | x :: xs' => Ok (fold_left Qmin xs' x)
  end.

Definition max (xs : list Q) : result Q :=
  match xs with
  | [] => Raise (ValueError "zero-size array to reduction operation maximum which has no identity")
  | x :: xs' => Ok (fold_left Qmax xs' x)
  end.

(** [np.unique]: the sorted distinct values. *)
Fixpoint insert_unique (x : Q) (l : list Q) : list Q :=
  match l with
  | [] => [x]
  | y :: l' =>
      match x ?= y with
      | Lt => x :: l
      | Eq => l
      | Gt => y :: insert_unique x l'
      end
  end.

Definition unique (xs : list Q) : list Q := fold_right insert_unique [] xs.

(** [a[i]] on a 1-d array. *)
Definition getitem (a : list Q) (i : nat) : result Q :=
  match nth_error a i with
  | Some x => Ok x
  | None => Raise (IndexError "index out of bounds")
  end.

(** [np.clip(x, lo, hi)], that is [minimum(maximum(x, lo), hi)]. *)
Definition clip (x lo hi : Q) : Q := Qmin (Qmax x lo) hi.

(** [np.linspace(start, stop, num)], end point included. *)
Definition linspace (start stop : Q) (num : nat) : list Q :=
  match num with
  | O => []
  | S O => [start]
  | S div =>
      map (fun k => start + inject_Z (Z.of_nat k) * ((stop - start) / inject_Z (Z.of_nat div)))
          (seq 0 num)
  end.

(** [np.searchsorted(a, v, side='right')] on a sorted [a]: the number of
    entries of [a] that are [<= v]. *)
Definition searchsorted_right (a : list Q) (v : Q) : nat :=
  List.length (filter (fun e => Qle_bool e v) a).

(** Insertion sort, standing for [np.sort]. *)
Fixpoint insert (x : Q) (l : list Q) : list Q :=
  match l with
  | [] => [x]
  | y :: l' => if Qle_bool x y then x :: l else y :: insert x l'
  end.

Definition sort (xs : list Q) : list Q := fold_right insert [] xs.

(** [np.maximum.accumulate]. *)
Fixpoint maximum_accumulate_from (m : Q) (xs : list Q) : list Q :=
  match xs with
  | [] => []
  | x :: xs' => Qmax m x :: maximum_accumulate_from (Qmax m x) xs'
  end.

Definition maximum_accumulate (xs : list Q) : list Q :=
  match xs with
  | [] => []
  | x :: xs' => x :: maximum_accumulate_from x xs'
  end.

(** [np.percentile(a, 100 * p)] with linear interpolation, on the sorted
    array [s]: the virtual index is [p * (n - 1)]. *)
Definition percentile_sorted (s : list Q) (p : Q) : Q :=
  let vidx := p * inject_Z (Z.of_nat (List.length s - 1)) in
  let lo := Z.to_nat (Qfloor vidx) in
  let gamma := vidx - inject_Z (Qfloor vidx) in
  let a := nth lo s 0 in
  let b := nth (Nat.min (S lo) (List.length s - 1)) s 0 in
  a + (b - a) * gamma.

(** [np.interp(x, xp, fp)] for increasing [xp]: scan for the last sample
    point [xp[j] <= x]; the value is [fp[j]] at a sample point and at the
    right end, and the linear interpolant in between.  (numpy rejects an
    empty [xp]; the transformers below never pass one.) *)
Fixpoint interp_from (x x0 f0 : Q) (pts : list (Q * Q)) : Q :=
  match pts with
  | [] => f0
  | (x1, f1) :: pts' =>
      if Qle_bool x1 x then interp_from x x1 f1 pts'
      else if Qeq_bool x0 x then f0
      else (f1 - f0) / (x1 - x0) * (x - x0) + f0
  end.

Definition interp (x : Q) (xp fp : list Q) : Q :=
  match combine xp fp with
  | [] => 0
  | (x0, f0) :: pts => if ltb x x0 then f0 else interp_from x x0 f0 pts
  end.

End np.

(** ** scikit-learn *)

Module sklearn.

(** Input validation shared by the estimators: at least one sample. *)
Definition check_array (X : list Q) : result unit :=
  match X with
  | [] => Raise (ValueError "Found array with 0 sample(s) while a minimum of 1 is required.")
  | _ :: _ => Ok tt
  end.

(** *** MinMaxScaler *)

(** The constructor arguments and the fitted attributes [scale_] and
    [min_]; an estimator object is updated in place by each [fit]. *)
Record MinMaxScaler : Type := {
  feature_range : Q * Q;
  clip : bool;
  scale_min_ : option (Q * Q)
}.

(** [_handle_zeros_in_scale] on one entry of the data range: a range below
    ten machine epsilons counts as the range of a constant column and is
    replaced by 1. *)
Definition handle_zeros_in_scale (scale : Q) : Q :=
  if np.ltb scale (10 * np.finfo_eps) then 1 else scale.

Definition MinMaxScaler_fit (self : MinMaxScaler) (X : list Q) : result MinMaxScaler :=
  let (lo, hi) := feature_range self in
  if Qle_bool hi lo then
    Raise (ValueError "Minimum of desired feature range must be smaller than maximum.")
  else
    _ <- check_array X ;;
    data_min <- np.min X ;;
    data_max <- np.max X ;;
    let data_range := data_max - data_min in
    let scale_ := (hi - lo) / handle_zeros_in_scale data_range in
    let min_ := lo - data_min * scale_ in
    Ok {| feature_range := feature_range self;
          clip := clip self;
          scale_min_ := Some (scale_, min_) |}.

Definition MinMaxScaler_transform (self : MinMaxScaler) (X : list Q) : result (list Q) :=
  match scale_min_ self with
  | None => Raise NotFittedError
  | Some (scale_, min_) =>
      _ <- check_array X ;;
      let (lo, hi) := feature_range self in
      Ok (map (fun x => let y := x * scale_ + min_ in
                        if clip self then np.clip y lo hi else y) X)
  end.

Definition MinMaxScaler_inverse_transform (self : MinMaxScaler) (X : list Q)
  : result (list Q) :=
  match scale_min_ self with
  | None => Raise NotFittedError
  | Some (scale_, min_) =>
      _ <- check_array X ;;
      Ok (map (fun x => (x - min_) / scale_) X)
  end.

(** *** QuantileTransformer, [output_distribution='uniform']

    Fitted attributes: [references_] and [quantiles_].  The random
    subsampling of [fit] starts above [subsample] rows (10 000 or more,
    depending on the release) and is not modelled. *)
Record QuantileTransformer : Type := {
  n_quantiles : nat;
  references_quantiles_ : option (list Q * list Q)
}.

Definition QuantileTransformer_fit (self : QuantileTransformer) (X : list Q)
  : result QuantileTransformer :=
  if (n_quantiles self <? 1)%nat then
    Raise (ValueError "Invalid value for 'n_quantiles': expected a strictly positive integer.")
  else
    _ <- check_array X ;;
    let n_samples := List.length X in
    let n_quantiles_ := Nat.max 1 (Nat.min (n_quantiles self) n_samples) in
    let references_ := np.linspace 0 1 n_quantiles_ in
    let quantiles_ :=
      np.maximum_accumulate (map (np.percentile_sorted (np.sort X)) references_) in
    Ok {| n_quantiles := n_quantiles self;
          references_quantiles_ := Some (references_, quantiles_) |}.

(** [_transform_col], forward direction: the mean of the interpolation read
    from the left and of the one read from the right; the two ends of the
    fitted range are mapped to 0 and 1, the lower end last. *)
Definition transform_col (references_ quantiles_ : list Q) (x : Q) : Q :=
  let lower_bound_x := hd 0 quantiles_ in
  let upper_bound_x := last quantiles_ 0 in
  if Qeq_bool x lower_bound_x then 0
  else if Qeq_bool x upper_bound_x then 1
  else (1 # 2) * (np.interp x quantiles_ references_
                  - np.interp (- x) (map Qopp (rev quantiles_))
                                    (map Qopp (rev references_))).

(** [_transform_col], inverse direction. *)
Definition inverse_transform_col (references_ quantiles_ : list Q) (x : Q) : Q :=
  let lower_bound_y := hd 0 quantiles_ in
  let upper_bound_y := last quantiles_ 0 in
  if Qeq_bool x 0 then lower_bound_y
  else if Qeq_bool x 1 then upper_bound_y
  else np.interp x references_ quantiles_.

Definition QuantileTransformer_transform (self : QuantileTransformer) (X : list Q)
  : result (list Q) :=
  match references_quantiles_ self with
  | None => Raise NotFittedError
  | Some (references_, quantiles_) =>
      _ <- check_array X ;;
      Ok (map (transform_col references_ quantiles_) X)
  end.

Definition QuantileTransformer_inverse_transform (self : QuantileTransformer)
  (X : list Q) : result (list Q) :=
  match references_quantiles_ self with
  | None => Raise NotFittedError
  | Some (references_, quantiles_) =>
      _ <- check_array X ;;
      Ok (map (inverse_transform_col references_ quantiles_) X)
  end.

(** *** Pipelines *)

Inductive transformer : Type :=
| MinMax (t : MinMaxScaler)
| Quantile (t : QuantileTransformer).

Definition fit_transform (t : transformer) (X : list Q)
  : result (transformer * list Q) :=
  match t with
  | MinMax s =>
      s' <- MinMaxScaler_fit s X ;;
      Y <- MinMaxScaler_transform s' X ;;
      Ok (MinMax s', Y)
  | Quantile q =>
      q' <- QuantileTransformer_fit q X ;;
      Y <- QuantileTransformer_transform q' X ;;
      Ok (Quantile q', Y)
  end.

Definition inverse_transform (t : transformer) (X : list Q) : result (list Q) :=
  match t with
  | MinMax s => MinMaxScaler_inverse_transform s X
  | Quantile q => QuantileTransformer_inverse_transform q X
  end.

(** [make_pipeline(step, ...)]: the steps in order. *)
Definition Pipeline : Type := list transformer.

Definition make_pipeline (steps : list transformer) : Pipeline := steps.

(** [Pipeline.fit_transform]: fit and apply each step on the output of the
    previous one; the fitted steps replace the old ones. *)
Fixpoint Pipeline_fit_transform (self : Pipeline) (X : list Q)
  : result (Pipeline * list Q) :=
  match self with
  | [] => Ok ([], X)
  | t :: rest =>
      '(t', Y) <- fit_transform t X ;;
      '(rest', Z) <- Pipeline_fit_transform rest Y ;;
      Ok (t' :: rest', Z)
  end.

(** [Pipeline.inverse_transform]: the inverses, last step first. *)
Definition Pipeline_inverse_transform (self : Pipeline) (X : list Q)
  : result (list Q) :=
  for_each (rev self) inverse_transform X.

(** *** KBinsDiscretizer, [encode='ordinal'], [strategy='uniform']

    [fit_transform] on one feature: equal-width edges between the observed
    minimum and maximum; a constant feature gets the single bin 0. *)
Definition KBinsDiscretizer_fit_transform (n_bins : nat) (X : list Q)
  : result (list nat) :=
  if (n_bins <? 2)%nat then
    Raise (ValueError "KBinsDiscretizer received an invalid number of bins.")
  else
    _ <- check_array X ;;
    col_min <- np.min X ;;
    col_max <- np.max X ;;
    if Qeq_bool col_min col_max then
      Ok (map (fun _ => 0%nat) X)
    else
      let bin_edges := np.linspace col_min col_max (S n_bins) in
      Ok (map (np.searchsorted_right (removelast (tl bin_edges))) X).

End sklearn.

(** ** pandas *)

Module pd.

Inductive dtype : Type :=
| CategoricalDtype
| float64
| int64
| bool_
| object_.

Definition dtype_eqb (a b : dtype) : bool :=
  match a, b with
  | CategoricalDtype, CategoricalDtype
  | float64, float64
  | int64, int64
  | bool_, bool_
  | object_, object_ => true
  | _, _ => false
  end.

(** A cell: a number, a Python [str], or a missing value. *)
Inductive value : Type :=
| VNum (x : Q)
| VStr (s : string)
| VNull.

Record Series : Type := {
  name : string;
  dtype_of : dtype;
  values : list value
}.

Definition DataFrame : Type := list Series.

Definition columns (df : DataFrame) : list string := map name df.

(** [len(df)], for a frame with columns: the length of the first one. *)
Definition len (df : DataFrame) : nat :=
  match df with
  | [] => 0%nat
  | s :: _ => List.length (values s)
  end.

(** [df[c]] *)
Definition getitem (df : DataFrame) (c : string) : result Series :=
  match find (fun s => String.eqb (name s) c) df with
  | Some s => Ok s
  | None => Raise (KeyError c)
  end.

(** [df[c] = array]: the column labelled [c] is replaced; an unknown label
    adds a column at the end. *)
Definition setitem (df : DataFrame) (c : string) (dt : dtype) (vs : list value)
  : DataFrame :=
  if existsb (fun s => String.eqb (name s) c) df then
    map (fun s => if String.eqb (name s) c
                  then {| name := c; dtype_of := dt; values := vs |}
                  else s) df
  else df ++ [{| name := c; dtype_of := dt; values := vs |}].

Definition isnull (v : value) : bool :=
  match v with
  | VNull => true
  | _ => false
  end.

(** [pd.isnull(df).sum()]: the number of missing cells of each column. *)
Definition isnull_sum (df : DataFrame) : list nat :=
  map (fun s => List.length (filter isnull (values s))) df.

(** [df.iloc[0][c]] *)
Definition iloc0 (df : DataFrame) (c : string) : result value :=
  match df with
  | [] => Raise (KeyError c)
  | s0 :: _ =>
      match values s0 with
      | [] => Raise (IndexError "single positional indexer is out-of-bounds")
      | _ :: _ =>
          s <- getitem df c ;;
          match values s with
          | [] => Raise (IndexError "single positional indexer is out-of-bounds")
          | v :: _ => Ok v
          end
      end
  end.

(** [np.array(series)] as the float array the scalers make of it.  The
    conversion calls [float] on a [str] cell, which raises on text that is
    no numeral; the model raises on every [str] cell and so covers such
    text only.  A missing cell would be [nan], which the model does not
    carry. *)
Fixpoint to_numpy (vs : list value) : result (list Q) :=
  match vs with
  | [] => Ok []
  | VNum x :: vs' => xs <- to_numpy vs' ;; Ok (x :: xs)
  | VStr _ :: _ => Raise (ValueError "could not convert string to float")
  | VNull :: _ => Raise (ValueError "Input contains NaN")
  end.

Definition of_numpy (xs : list Q) : list value := map VNum xs.

Definition of_int_array (ks : list nat) : list value :=
  map (fun k => VNum (inject_Z (Z.of_nat k))) ks.

(** [np.array(df)]: the rows of a numeric frame. *)
Fixpoint columns_to_numpy (df : DataFrame) : result (list (list Q)) :=
  match df with
  | [] => Ok []
  | s :: df' =>
      xs <- to_numpy (values s) ;;
      cols <- columns_to_numpy df' ;;
      Ok (xs :: cols)
  end.

Definition to_matrix (df : DataFrame) : result (list (list Q)) :=
  cols <- columns_to_numpy df ;;
  Ok (map (fun i => map (fun col => nth i col 0) cols) (seq 0 (len df))).

(** [pd.DataFrame(matrix, columns=labels)] *)
Definition DataFrame_of_matrix (m : list (list Q)) (labels : list string)
  : result DataFrame :=
  if forallb (fun row => Nat.eqb (List.length row) (List.length labels)) m then
    Ok (map (fun jc => {| name := snd jc;
                          dtype_of := float64;
                          values := map (fun row => VNum (nth (fst jc) row 0)) m |})
            (combine (seq 0 (List.length labels)) labels))
  else Raise (ValueError "Shape of passed values does not match the columns.").

(** [select_dtypes] on the column labels, as [make_column_selector] uses
    it: labels of the columns whose dtype is (or is not) categorical, in
    the frame's order. *)
Definition select_dtypes_include_categorical (df : DataFrame) : list string :=
  map name (filter (fun s => dtype_eqb (dtype_of s) CategoricalDtype) df).

Definition select_dtypes_exclude_categorical (df : DataFrame) : list string :=
  map name (filter (fun s => negb (dtype_eqb (dtype_of s) CategoricalDtype)) df).

(** [series.replace(a, b)] on one cell. *)
Definition replace1 (a b : Q) (v : value) : value :=
  match v with
  | VNum x => if Qeq_bool x a then VNum b else v
  | _ => v
  end.

(** [series.replace([a0, a1], [b0, b1])] on one cell.  On a category column
    the pairs are applied one after the other, each to the result of the one
    before, so that a cell that the first pair has turned into [a1] is
    replaced again by the second pair.  On any other column the cells to
    replace are located before the first replacement, and each listed value
    is replaced by its counterpart. *)
Definition replace2 (dt : dtype) (a0 a1 b0 b1 : Q) (v : value) : value :=
  if dtype_eqb dt CategoricalDtype then replace1 a1 b1 (replace1 a0 b0 v)
  else
    match v with
    | VNum x => if Qeq_bool x a0 then VNum b0
                else if Qeq_bool x a1 then VNum b1
                else v
    | _ => v
    end.

End pd.

(** ** The module [nbsynthetic.synthetic] *)

Import sklearn.

Definition columns_type (df : pd.DataFrame) : list string * list string :=
  let numerical_columns_selector := pd.select_dtypes_exclude_categorical in
  let categorical_columns_selector := pd.select_dtypes_include_categorical in
  let numerical_columns := numerical_columns_selector df in
  let categorical_columns := categorical_columns_selector df in
  (numerical_columns, categorical_columns).

(** One pass of the loops of [data_transformation]: the shared scaler object
    is refitted on the column and the column of [scaled_X] is overwritten. *)
Definition scale_column (df : pd.DataFrame) (c : string)
  (st : pd.DataFrame * Pipeline) : result (pd.DataFrame * Pipeline) :=
  let (scaled_X, scaler) := st in
  col <- pd.getitem df c ;;
  X <- pd.to_numpy (pd.values col) ;;
  '(scaler', Y) <- Pipeline_fit_transform scaler X ;;
  Ok (pd.setitem scaled_X c pd.float64 (pd.of_numpy Y), scaler').

Definition data_transformation (df : pd.DataFrame)
  (numerical_columns categorical_columns : list string)
  : result (list (list Q) * Pipeline * Pipeline) :=
  let categorical_scaler :=
    make_pipeline
      [MinMax {| feature_range := (- (1), 1); clip := true; scale_min_ := None |}] in
  let n_quantiles := if (99 <? pd.len df)%nat then 100%nat else pd.len df in
  let numerical_scaler :=
    make_pipeline
      [Quantile {| n_quantiles := n_quantiles; references_quantiles_ := None |};
       MinMax {| feature_range := (- (1), 1); clip := true; scale_min_ := None |}] in
  let scaled_X := df in
  '(scaled_X, categorical_scaler) <-
    for_each categorical_columns (scale_column df) (scaled_X, categorical_scaler) ;;
  '(scaled_X, numerical_scaler) <-
    for_each numerical_columns (scale_column df) (scaled_X, numerical_scaler) ;;
  m <- pd.to_matrix scaled_X ;;
  Ok (m, categorical_scaler, numerical_scaler).

(** First loop of [generate_data]: inverse scaling, binning and the cast to
    a category column, for a categorical column with more than one value. *)
Definition decode_categorical (df : pd.DataFrame) (categorical_scaler : Pipeline)
  (cat_c : string) (newdf : pd.DataFrame) : result pd.DataFrame :=
  col <- pd.getitem df cat_c ;;
  orig <- pd.to_numpy (pd.values col) ;;
  if (1 <? List.length (np.unique orig))%nat then
    ncol <- pd.getitem newdf cat_c ;;
    X <- pd.to_numpy (pd.values ncol) ;;
    Y <- Pipeline_inverse_transform categorical_scaler X ;;
    let newdf := pd.setitem newdf cat_c pd.float64 (pd.of_numpy Y) in
    ncol <- pd.getitem newdf cat_c ;;
    X <- pd.to_numpy (pd.values ncol) ;;
    codes <- KBinsDiscretizer_fit_transform (List.length (np.unique orig)) X ;;
    let newdf := pd.setitem newdf cat_c pd.int64 (pd.of_int_array codes) in
    ncol <- pd.getitem newdf cat_c ;;
    Ok (pd.setitem newdf cat_c pd.CategoricalDtype (pd.values ncol))
  else Ok newdf.

(** Second loop: the inverse of the numerical scaler. *)
Definition decode_numerical (numerical_scaler : Pipeline)
  (num_c : string) (newdf : pd.DataFrame) : result pd.DataFrame :=
  ncol <- pd.getitem newdf num_c ;;
  X <- pd.to_numpy (pd.values ncol) ;;
  Y <- Pipeline_inverse_transform numerical_scaler X ;;
  Ok (pd.setitem newdf num_c pd.float64 (pd.of_numpy Y)).

(** Third loop: the two codes of a binary column are replaced, in place, by
    the two values of the original column. *)
Definition remap_binary (df : pd.DataFrame)
  (cat_c : string) (newdf : pd.DataFrame) : result pd.DataFrame :=
  col <- pd.getitem df cat_c ;;
  orig <- pd.to_numpy (pd.values col) ;;
  if (List.length (np.unique orig) =? 2)%nat then
    ncol <- pd.getitem newdf cat_c ;;
    X <- pd.to_numpy (pd.values ncol) ;;
    a0 <- np.getitem (np.unique X) 0 ;;
    a1 <- np.getitem (np.unique X) 1 ;;
    b0 <- np.getitem (np.unique orig) 0 ;;
    b1 <- np.getitem (np.unique orig) 1 ;;
    Ok (pd.setitem newdf cat_c (pd.dtype_of ncol)
          (map (pd.replace2 (pd.dtype_of ncol) a0 a1 b0 b1) (pd.values ncol)))
  else Ok newdf.

Definition generate_data (df : pd.DataFrame) (x_synthetic : list (list Q))
  (categorical_columns numerical_columns : list string)
  (categorical_scaler numerical_scaler : Pipeline) : result pd.DataFrame :=
  newdf <- pd.DataFrame_of_matrix x_synthetic (pd.columns df) ;;
  newdf <- for_each categorical_columns (decode_categorical df categorical_scaler) newdf ;;
  newdf <- for_each numerical_columns (decode_numerical numerical_scaler) newdf ;;
  newdf <- for_each categorical_columns (remap_binary df) newdf ;;
  Ok newdf.

(** *** The generator class

    [synthetic_data] receives the class [GAN] and uses three things of it:
    the constructor, [train] and [create_fake_samples].  Training is
    stateful and random, so each operation reads and writes a hidden state
    [world]; each may raise. *)
Record GAN_class : Type := {
  world : Type;
  gan : Type;
  GAN_init : nat -> Q -> Q -> world -> result gan * world;
  GAN_train : gan -> list (list Q) -> nat -> nat -> world -> result (Q * Q) * world;
  GAN_create_fake_samples : gan -> nat -> world -> result (list (list Q) * list Q) * world
}.

(** What the run did with the generator class, in order. *)
Inductive event : Type :=
| Construct (number_of_features : nat) (learning_rate dropout : Q)
| Train (epochs batch_size : nat)
| Sample (batch_size : nat).

(** State and error monad of a run: the hidden state and the trace. *)
Definition run (W A : Type) : Type := W * list event -> result A * (W * list event).

Definition ret {W A : Type} (a : A) : run W A := fun s => (Ok a, s).

Definition raise {W A : Type} (e : exn) : run W A := fun s => (Raise e, s).

Definition bind {W A B : Type} (m : run W A) (k : A -> run W B) : run W B :=
  fun s => match m s with
           | (Ok a, s') => k a s'
           | (Raise e, s') => (Raise e, s')
           end.

Definition lift {W A : Type} (r : result A) : run W A := fun s => (r, s).

(** A call into the generator class, recorded in the trace. *)
Definition call {W A : Type} (ev : event) (op : W -> result A * W) : run W A :=
  fun s => let (r, w') := op (fst s) in (r, (w', snd s ++ [ev])).

Declare Scope run_scope.
Delimit Scope run_scope with run.
Notation "x <~ m ;; k" := (bind m (fun x => k))
  (at level 61, m at next level, right associativity) : run_scope.
Notation "' pat <~ m ;; k" := (bind m (fun x => match x with pat => k end))
  (at level 61, pat pattern, m at next level, right associativity) : run_scope.

Fixpoint for_each_run {W A : Type} (xs : list A) (body : A -> run W unit) : run W unit :=
  match xs with
  | [] => ret tt
  | x :: xs' => bind (body x) (fun _ => for_each_run xs' body)
  end.

Definition nan_message : string :=
  "There are nan values in your dataset. You have to remove or replace them.".

Definition string_message (c : string) : string :=
  "Column '" ++ c ++ "' contains strings. We suggest to encode it. ".

Definition is_str (v : pd.value) : bool :=
  match v with
  | pd.VStr _ => true
  | _ => false
  end.

Section Orchestrator.

Variable GAN : GAN_class.

Let W : Type := world GAN.

Variables epochs batch_size : nat.

Definition train_gan (scaled_X : list (list Q)) (n_features : nat)
  (initial_lr dropout : Q) : run W (Q * Q * gan GAN) :=
  let arrays := scaled_X in
  match arrays with
  | [] => raise (ValueError "`arrays` must not be empty.")
  | a0 :: arrays' =>
      let data_length := List.length a0 in
      if negb (forallb (fun a => Nat.eqb (List.length a) data_length) arrays') then
        raise (ValueError "`arrays` must have the same data length.")
      else
        (g <~ call (Construct n_features initial_lr dropout)
                   (GAN_init GAN n_features initial_lr dropout) ;;
         ' (G_loss, D_loss) <~ call (Train epochs batch_size)
                                   (GAN_train GAN g scaled_X epochs batch_size) ;;
         ret (G_loss, D_loss, g))%run
  end.

(** Last loop of [synthetic_data]: a fresh range scaler per numerical
    column, fitted on the synthetic column, with the bounds of the
    original column as its target range. *)
Definition rescale_numerical (df : pd.DataFrame)
  (c : string) (newdf : pd.DataFrame) : result pd.DataFrame :=
  col <- pd.getitem df c ;;
  orig <- pd.to_numpy (pd.values col) ;;
  lo <- np.min orig ;;
  hi <- np.max orig ;;
  let scaler := {| feature_range := (lo, hi); clip := true; scale_min_ := None |} in
  ncol <- pd.getitem newdf c ;;
  X <- pd.to_numpy (pd.values ncol) ;;
  '(_, Y) <- fit_transform (MinMax scaler) X ;;
  Ok (pd.setitem newdf c pd.float64 (pd.of_numpy Y)).

Definition synthetic_data (df : pd.DataFrame) (samples : nat)
  (initial_lr dropout : Q) : run W pd.DataFrame :=
  (if (0 <? list_sum (pd.isnull_sum df))%nat then raise (ValueError nan_message)
   else
     _ <~ for_each_run (pd.columns df)
            (fun c => v <~ lift (pd.iloc0 df c) ;;
                      if is_str v then raise (ValueError (string_message c))
                      else ret tt) ;;
     let n_features := List.length (pd.columns df) in
     let (numerical_columns, categorical_columns) := columns_type df in
     ' (scaled_X, categorical_scaler, numerical_scaler) <~
       lift (data_transformation df numerical_columns categorical_columns) ;;
     ' (G_loss, D_loss, g) <~ train_gan scaled_X n_features initial_lr dropout ;;
     ' (G_loss, D_loss, g) <~
       (if np.ltb 1 G_loss then
          train_gan scaled_X n_features (initial_lr / 10) dropout
        else if np.ltb 1 G_loss then
          train_gan scaled_X n_features (initial_lr / 100) dropout
        else ret (G_loss, D_loss, g)) ;;
     ' (x_synthetic, y_synthetic) <~
       call (Sample samples) (GAN_create_fake_samples GAN g samples) ;;
     newdf <~ lift (generate_data df x_synthetic categorical_columns numerical_columns
                      categorical_scaler numerical_scaler) ;;
     newdf <~ lift (for_each numerical_columns (rescale_numerical df) newdf) ;;
     ret newdf)%run.

End Orchestrator.

(** * Vocabulary of the statements *)

(** ** Traces *)

(** The learning rates of the generators constructed along a trace, in
    order. *)
Definition learning_rates (tr : list event) : list Q :=
  flat_map (fun ev => match ev with
                      | Construct _ lr _ => [lr]
                      | _ => []
                      end) tr.

(** The learning rates a run of [synthetic_data] can have used. *)
Definition rates_of_run (initial_lr : Q) (lrs : list Q) : Prop :=
  lrs = [] \/ lrs = [initial_lr] \/ lrs = [initial_lr; initial_lr / 10].

(** The text an exception carries. *)
Definition error_message {A : Type} (r : result A) : string :=
  match r with
  | Raise (ValueError msg) => msg
  | Raise (IndexError msg) => msg
  | Raise (KeyError k) => k
  | Raise NotFittedError => ""
  | Ok _ => ""
  end.

(** A generator whose training always ends with generator loss [loss] and
    whose samples are the first rows of [out]. *)
Definition constant_GAN (loss : Q) (out : list (list Q)) : GAN_class :=
  {| world := unit;
     gan := unit;
     GAN_init := fun _ _ _ w => (Ok tt, w);
     GAN_train := fun _ _ _ _ w => (Ok (loss, loss), w);
     GAN_create_fake_samples := fun _ n w => (Ok (firstn n out, []), w) |}.

(** A computation that only appends to the trace. *)
Definition trace_grows {W A : Type} (m : run W A) : Prop :=
  forall s, exists t, snd (snd (m s)) = snd s ++ t.

(** ** Frames and columns *)

(** [same_column c a b]: the frames [a] and [b] hold the same column [c]. *)
Definition same_column (c : string) (a b : pd.DataFrame) : Prop :=
  pd.getitem b c = pd.getitem a c.

(** A loop body that rewrites only the column it is called for. *)
Definition column_local (body : string -> pd.DataFrame -> result pd.DataFrame) : Prop :=
  forall c nd nd', body c nd = Ok nd' ->
    pd.columns nd' = pd.columns nd
    /\ forall c', c' <> c -> same_column c' nd nd'.

(** A cell that holds a number of the closed interval [[lo, hi]]. *)
Definition within (lo hi : Q) (v : pd.value) : Prop :=
  exists x, v = pd.VNum x /\ lo <= x <= hi.

(** The column [c] of the frame holds numbers only, and at least one. *)
Definition numeric_column (nd : pd.DataFrame) (c : string) : Prop :=
  exists col X, pd.getitem nd c = Ok col /\ pd.values col = pd.of_numpy X /\ X <> [].

Definition numeric_frame (nd : pd.DataFrame) (labels : list string) : Prop :=
  forall c, In c labels -> numeric_column nd c.

(** All entries equal. *)
Definition constant (X : list Q) : Prop := forall x y, In x X -> In y X -> x == y.


(** ** Scalers *)

(** Has the transformer been fitted? *)
Definition transformer_fitted (t : transformer) : bool :=
  match t with
  | MinMax s => match scale_min_ s with Some _ => true | None => false end
  | Quantile q => match references_quantiles_ q with Some _ => true | None => false end
  end.

Definition Pipeline_fitted (p : Pipeline) : bool := forallb transformer_fitted p.

(** The constructor arguments of a transformer, fitted state dropped. *)
Definition unfit (t : transformer) : transformer :=
  match t with
  | MinMax s =>
      MinMax {| feature_range := feature_range s; clip := clip s; scale_min_ := None |}
  | Quantile q =>
      Quantile {| n_quantiles := n_quantiles q; references_quantiles_ := None |}
  end.

(** The two pipelines as [data_transformation] constructs them, not yet
    fitted. *)
Definition initial_categorical_scaler : Pipeline :=
  [MinMax {| feature_range := (- (1), 1); clip := true; scale_min_ := None |}].

Definition initial_numerical_scaler (n_quantiles : nat) : Pipeline :=
  [Quantile {| n_quantiles := n_quantiles; references_quantiles_ := None |};
   MinMax {| feature_range := (- (1), 1); clip := true; scale_min_ := None |}].


(** ** Interpolation nodes *)

(** Sample points in increasing position. *)
Definition increasing (l : list Q) : Prop := StronglySorted Qlt l.
Definition nondecreasing (l : list Q) : Prop := StronglySorted Qle l.


(** ** The round trip *)


(** ** Example frames *)

(** C8: two numerical columns around a categorical one. *)
Definition frame_C8 : pd.DataFrame :=
  [ {| pd.name := "age"; pd.dtype_of := pd.int64; pd.values := [pd.VNum 31; pd.VNum 58] |};
    {| pd.name := "sex"; pd.dtype_of := pd.CategoricalDtype; pd.values := [pd.VNum 0; pd.VNum 1] |};
    {| pd.name := "bmi"; pd.dtype_of := pd.float64; pd.values := [pd.VNum 22; pd.VNum 27] |} ]%string.

(** C8: two columns with the same label, one of floats and one
    categorical. *)
Definition frame_C8_duplicate : pd.DataFrame :=
  [ {| pd.name := "a"; pd.dtype_of := pd.float64; pd.values := [pd.VNum 1; pd.VNum 2] |};
    {| pd.name := "a"; pd.dtype_of := pd.CategoricalDtype;
       pd.values := [pd.VNum 0; pd.VNum 1] |} ]%string.

(** C1, C2, C4, C10: a numerical and a binary categorical column. *)
Definition frame_C1 : pd.DataFrame :=
  [ {| pd.name := "x"; pd.dtype_of := pd.float64;
       pd.values := [pd.VNum 0; pd.VNum 10; pd.VNum 5; pd.VNum 2] |};
    {| pd.name := "c"; pd.dtype_of := pd.CategoricalDtype;
       pd.values := [pd.VNum 5; pd.VNum 3; pd.VNum 3; pd.VNum 5] |} ]%string.

(** What [data_transformation] returns on [frame_C1]. *)
Definition fitted_C1 : list (list Q) * Pipeline * Pipeline :=
  match data_transformation frame_C1 ["x"%string] ["c"%string] with
  | Ok r => r
  | Raise _ => ([], [], [])
  end.

(** C3: a numerical column, a binary and a three-valued categorical column. *)
Definition frame_C3 : pd.DataFrame :=
  [ {| pd.name := "x"; pd.dtype_of := pd.float64;
       pd.values := [pd.VNum 10; pd.VNum 30; pd.VNum 20] |};
    {| pd.name := "b"; pd.dtype_of := pd.CategoricalDtype;
       pd.values := [pd.VNum 5; pd.VNum 3; pd.VNum 5] |};
    {| pd.name := "k"; pd.dtype_of := pd.CategoricalDtype;
       pd.values := [pd.VNum 1; pd.VNum 2; pd.VNum 4] |} ]%string.

(** What [data_transformation] returns on [frame_C3]. *)
Definition fitted_C3 : list (list Q) * Pipeline * Pipeline :=
  match data_transformation frame_C3 ["x"%string] ["b"%string; "k"%string] with
  | Ok r => r
  | Raise _ => ([], [], [])
  end.

(** Three synthetic rows for [frame_C3]. *)
Definition samples_C3 : list (list Q) :=
  [[0; -(1); -(1)]; [1 # 2; 1; 0]; [1; 1; 1]].

(** A column without rows. *)
Definition frame_without_rows : pd.DataFrame :=
  [ {| pd.name := "x"; pd.dtype_of := pd.float64; pd.values := [] |} ]%string.

(** A numerical column that holds one value only. *)
Definition frame_constant : pd.DataFrame :=
  [ {| pd.name := "x"; pd.dtype_of := pd.float64;
       pd.values := [pd.VNum 4; pd.VNum 4; pd.VNum 4] |} ]%string.

(** C3: two numerical columns, which share the numerical scaler, and a
    three-valued categorical column. *)
Definition frame_C3_shared : pd.DataFrame :=
  [ {| pd.name := "a"; pd.dtype_of := pd.float64;
       pd.values := [pd.VNum 0; pd.VNum 1; pd.VNum 2] |};
    {| pd.name := "b"; pd.dtype_of := pd.float64;
       pd.values := [pd.VNum 100; pd.VNum 200; pd.VNum 400] |};
    {| pd.name := "k"; pd.dtype_of := pd.CategoricalDtype;
       pd.values := [pd.VNum 1; pd.VNum 2; pd.VNum 4] |} ]%string.

(** What [data_transformation] returns on [frame_C3_shared], and three
    synthetic rows for it, some entries outside the scaled range. *)
Definition fitted_C3_shared : list (list Q) * Pipeline * Pipeline :=
  match data_transformation frame_C3_shared ["a"%string; "b"%string] ["k"%string] with
  | Ok r => r
  | Raise _ => ([], [], [])
  end.

Definition samples_C3_shared : list (list Q) :=
  [[5; -(3); 0]; [0; 0; 1]; [-(2); 7; -(1)]].


(** C5: a binary categorical column whose first cell is the larger value. *)
Definition frame_C5 : pd.DataFrame :=
  [ {| pd.name := "c"; pd.dtype_of := pd.CategoricalDtype;
       pd.values := [pd.VNum 5; pd.VNum 3; pd.VNum 3; pd.VNum 5] |} ]%string.

(** The scalers [data_transformation] leaves behind on [frame_C5]. *)
Definition scalers_C5 : Pipeline * Pipeline :=
  match data_transformation frame_C5 [] ["c"%string] with
  | Ok (_, categorical_scaler, numerical_scaler) => (categorical_scaler, numerical_scaler)
  | Raise _ => ([], [])
  end.

(** C7: two columns of strings after a numerical one. *)
Definition frame_C7 : pd.DataFrame :=
  [ {| pd.name := "age"; pd.dtype_of := pd.int64;
       pd.values := [pd.VNum 31; pd.VNum 58] |};
    {| pd.name := "city"; pd.dtype_of := pd.object_;
       pd.values := [pd.VStr "Paris"; pd.VStr "Lyon"] |};
    {| pd.name := "job"; pd.dtype_of := pd.object_;
       pd.values := [pd.VStr "cook"; pd.VStr "nurse"] |} ]%string.

(** C7: a column of strings with a missing cell. *)
Definition frame_C7_missing : pd.DataFrame :=
  [ {| pd.name := "city"; pd.dtype_of := pd.object_;
       pd.values := [pd.VStr "Paris"; pd.VNull] |} ]%string.

(** C7: a string below the first row. *)
Definition frame_C7_below : pd.DataFrame :=
  [ {| pd.name := "zip"; pd.dtype_of := pd.object_;
       pd.values := [pd.VNum 75001; pd.VStr "n/k"] |} ]%string.

(** C9: the categorical column [k] has a single value. *)
Definition frame_C9 : pd.DataFrame :=
  [ {| pd.name := "x"; pd.dtype_of := pd.float64;
       pd.values := [pd.VNum 1; pd.VNum 2; pd.VNum 4] |};
    {| pd.name := "k"; pd.dtype_of := pd.CategoricalDtype;
       pd.values := [pd.VNum 7; pd.VNum 7; pd.VNum 7] |} ]%string.

(** The scalers [data_transformation] leaves behind on [frame_C9]. *)
Definition scalers_C9 : Pipeline * Pipeline :=
  match data_transformation frame_C9 ["x"%string] ["k"%string] with
  | Ok (_, categorical_scaler, numerical_scaler) => (categorical_scaler, numerical_scaler)
  | Raise _ => ([], [])
  end.

(** ** Proof automation *)

(** Inversion of a successful monadic computation, one step at a time. *)
Ltac bind_inv H :=
  repeat match type of H with
         | rbind ?m _ = Ok _ =>
             let E := fresh "E" in
             destruct m eqn:E; cbn [rbind] in H; [|discriminate H]
         | (let (_, _) := ?p in _) = Ok _ => destruct p
         | (if ?b then _ else _) = Ok _ =>
             let E := fresh "E" in destruct b eqn:E
         | Ok _ = Ok _ => injection H as H
         | Raise _ = Ok _ => discriminate H
         end.

(** * Properties *)

(** ** Column classifier *)

Lemma filter_split_Permutation {A : Type} (p : A -> bool) (l : list A) :
  Permutation (filter (fun a => negb (p a)) l ++ filter p l) l.
Proof.
  induction l as [|a l IH]; simpl; [constructor|].
  destruct (p a); simpl.
  - apply Permutation_sym, Permutation_cons_app, Permutation_sym, IH.
  - now constructor.
Qed.

Lemma NoDup_app_disjoint {A : Type} (l1 l2 : list A) :
  NoDup (l1 ++ l2) -> forall a, In a l1 -> In a l2 -> False.
Proof.
  induction l1 as [|x l1 IH]; simpl; [tauto|].
  intros H a [->|H1] H2; inversion H as [|? ? Hn Hd]; subst.
  - apply Hn, in_or_app; now right.
  - eapply IH; eauto.
Qed.

Lemma dtype_eqb_spec (a b : pd.dtype) : pd.dtype_eqb a b = true <-> a = b.
Proof. destruct a, b; simpl; split; congruence. Qed.

Lemma NoDup_map_inj_In {A B : Type} (f : A -> B) (l : list A) (x y : A) :
  NoDup (map f l) -> In x l -> In y l -> f x = f y -> x = y.
Proof.
  induction l as [|a l IH]; simpl; [tauto|].
  intros H Hx Hy E; inversion H as [|? ? Hn Hd]; subst.
  destruct Hx as [->|Hx], Hy as [->|Hy]; auto.
  - exfalso; apply Hn; rewrite E; now apply in_map.
  - exfalso; apply Hn; rewrite <- E; now apply in_map.
Qed.

Lemma columns_type_spec (df : pd.DataFrame) :
  NoDup (pd.columns df) ->
  let (numerical_columns, categorical_columns) := columns_type df in
  Permutation (numerical_columns ++ categorical_columns) (pd.columns df)
  /\ NoDup (numerical_columns ++ categorical_columns)
  /\ (forall c, In c numerical_columns -> In c categorical_columns -> False)
  /\ (forall s, In s df ->
        (In (pd.name s) categorical_columns <-> pd.dtype_of s = pd.CategoricalDtype)
        /\ (In (pd.name s) numerical_columns <-> pd.dtype_of s <> pd.CategoricalDtype)).
Proof.
  intros Hnd. unfold columns_type.
  unfold pd.select_dtypes_exclude_categorical, pd.select_dtypes_include_categorical.
  set (p := fun s => pd.dtype_eqb (pd.dtype_of s) pd.CategoricalDtype).
  assert (Hperm : Permutation
            (map pd.name (filter (fun s => negb (p s)) df) ++ map pd.name (filter p df))
            (pd.columns df)).
  { rewrite <- map_app. apply Permutation_map, filter_split_Permutation. }
  assert (Hnd' : NoDup (map pd.name (filter (fun s => negb (p s)) df)
                        ++ map pd.name (filter p df))).
  { eapply Permutation_NoDup; [apply Permutation_sym, Hperm | exact Hnd]. }
  assert (Hmem : forall (q : pd.Series -> bool) s, In s df ->
            (In (pd.name s) (map pd.name (filter q df)) <-> q s = true)).
  { intros q s Hs; split.
    - intros Hin. apply in_map_iff in Hin as (s' & E & Hin).
      apply filter_In in Hin as [Hin Hq].
      now rewrite <- (NoDup_map_inj_In pd.name df s' s Hnd Hin Hs E).
    - intros Hq. apply in_map. apply filter_In; auto. }
  split; [exact Hperm|]. split; [exact Hnd'|]. split.
  - intros c H1 H2. exact (NoDup_app_disjoint _ _ Hnd' c H1 H2).
  - intros s Hs. split.
    + rewrite (Hmem p s Hs). unfold p. apply dtype_eqb_spec.
    + pose proof (Hmem (fun s => negb (p s)) s Hs) as Hn. cbv beta in Hn.
      unfold p in Hn.
      rewrite negb_true_iff, <- not_true_iff_false, dtype_eqb_spec in Hn.
      exact Hn.
Qed.

(** The columns behind the two lists. *)
Lemma columns_type_columns (df : pd.DataFrame) :
  let (numerical_columns, categorical_columns) := columns_type df in
  exists numerical categorical : list pd.Series,
    numerical_columns = map pd.name numerical
    /\ categorical_columns = map pd.name categorical
    /\ Permutation (numerical ++ categorical) df
    /\ (forall s, In s categorical -> pd.dtype_of s = pd.CategoricalDtype)
    /\ (forall s, In s numerical -> pd.dtype_of s <> pd.CategoricalDtype).
Proof.
  unfold columns_type.
  unfold pd.select_dtypes_exclude_categorical, pd.select_dtypes_include_categorical.
  set (p := fun s => pd.dtype_eqb (pd.dtype_of s) pd.CategoricalDtype).
  exists (filter (fun s => negb (p s)) df), (filter p df).
  split; [reflexivity|]. split; [reflexivity|].
  split; [apply filter_split_Permutation|]. split.
  - intros s Hs. apply filter_In in Hs as [_ Hs]. now apply dtype_eqb_spec.
  - intros s Hs. apply filter_In in Hs as [_ Hs]. unfold p in Hs.
    rewrite negb_true_iff, <- not_true_iff_false, dtype_eqb_spec in Hs. exact Hs.
Qed.

(** C8, as the code has it.  [columns_type] splits the columns of a frame
    in two.  The labels it returns are those of a list of non-categorical
    columns and of a list of categorical columns, and the two lists of
    columns together hold the columns of the frame, each one once.  On a
    frame with distinct column labels the two lists of labels have no label
    in common and together hold every label exactly once; a column is in
    the categorical list exactly when its dtype is categorical, and in the
    numerical list exactly when it is not. *)
Theorem columns_type_partition (df : pd.DataFrame) :
  let (numerical_columns, categorical_columns) := columns_type df in
  (exists numerical categorical : list pd.Series,
      numerical_columns = map pd.name numerical
      /\ categorical_columns = map pd.name categorical
      /\ Permutation (numerical ++ categorical) df
      /\ (forall s, In s categorical -> pd.dtype_of s = pd.CategoricalDtype)
      /\ (forall s, In s numerical -> pd.dtype_of s <> pd.CategoricalDtype))
  /\ (NoDup (pd.columns df) ->
      Permutation (numerical_columns ++ categorical_columns) (pd.columns df)
      /\ NoDup (numerical_columns ++ categorical_columns)
      /\ (forall c, In c numerical_columns -> In c categorical_columns -> False)
      /\ (forall s, In s df ->
            (In (pd.name s) categorical_columns <-> pd.dtype_of s = pd.CategoricalDtype)
            /\ (In (pd.name s) numerical_columns
                <-> pd.dtype_of s <> pd.CategoricalDtype))).
Proof.
  pose proof (columns_type_columns df) as Hcolumns.
  pose proof (columns_type_spec df) as Hlabels.
  destruct (columns_type df) as [numerical_columns categorical_columns].
  split; [exact Hcolumns|exact Hlabels].
Qed.

(** The classifier on [frame_C8]. *)
Lemma columns_type_partition_witness :
  columns_type frame_C8 = (["age"; "bmi"], ["sex"])%string
  /\ Permutation (["age"; "bmi"]%string ++ ["sex"%string]) (pd.columns frame_C8)
  /\ NoDup (["age"; "bmi"]%string ++ ["sex"%string])
  /\ (forall c, In c ["age"; "bmi"]%string -> In c ["sex"%string] -> False)
  /\ (forall s, In s frame_C8 ->
        (In (pd.name s) ["sex"%string] <-> pd.dtype_of s = pd.CategoricalDtype)
        /\ (In (pd.name s) ["age"; "bmi"]%string
            <-> pd.dtype_of s <> pd.CategoricalDtype)).
Proof.
  split; [reflexivity|].
  apply (proj2 (columns_type_partition frame_C8)).
  repeat constructor; simpl; intuition discriminate.
Defined.

(** In [frame_C8_duplicate] two columns carry the label [a], one of floats
    and one categorical: the label [a] is in both lists, which are not
    disjoint. *)
Lemma duplicate_label_in_both_lists :
  columns_type frame_C8_duplicate = (["a"], ["a"])%string
  /\ In "a"%string (fst (columns_type frame_C8_duplicate))
  /\ In "a"%string (snd (columns_type frame_C8_duplicate))
  /\ ~ (forall c, In c (fst (columns_type frame_C8_duplicate)) ->
                  In c (snd (columns_type frame_C8_duplicate)) -> False).
Proof.
  split; [reflexivity|]. split; [now left|]. split; [now left|].
  intros H. apply (H "a"%string); now left.
Qed.

(** ** Runs: how the trace grows *)

Lemma learning_rates_app (t1 t2 : list event) :
  learning_rates (t1 ++ t2) = learning_rates t1 ++ learning_rates t2.
Proof. unfold learning_rates. now rewrite flat_map_app. Qed.

(** The string test of [synthetic_data] neither reads nor writes the hidden
    state. *)
Lemma string_check_state (W : Type) (df : pd.DataFrame) (cols : list string)
  (s : W * list event) :
  exists r,
    for_each_run cols
      (fun c => (v <~ lift (pd.iloc0 df c) ;;
                 if is_str v then raise (ValueError (string_message c))
                 else ret tt)%run) s = (r, s).
Proof.
  induction cols as [|c cols IH]; simpl.
  - now exists (Ok tt).
  - unfold bind at 1. unfold bind at 1. unfold lift at 1.
    destruct (pd.iloc0 df c) as [v|e]; [|now eexists].
    destruct (is_str v); unfold raise, ret; [now eexists|].
    exact IH.
Qed.

Lemma train_gan_trace (G : GAN_class) (epochs batch_size : nat)
  (X : list (list Q)) (n : nat) (lr d : Q) (w : world G) (tr : list event) :
  exists r w' t,
    train_gan G epochs batch_size X n lr d (w, tr) = (r, (w', tr ++ t))
    /\ (t = [] \/ t = [Construct n lr d]
        \/ t = [Construct n lr d; Train epochs batch_size])
    /\ (forall x, r = Ok x -> t = [Construct n lr d; Train epochs batch_size]).
Proof.
  unfold train_gan.
  destruct X as [|a0 X'].
  - exists (Raise (ValueError "`arrays` must not be empty.")), w, [].
    rewrite app_nil_r. repeat split; auto; discriminate.
  - destruct (negb _).
    + eexists _, w, []. rewrite app_nil_r. unfold raise.
      repeat split; auto; discriminate.
    + unfold bind, call; simpl.
      destruct (GAN_init G n lr d w) as [[g|e] w1].
      * destruct (GAN_train G g (a0 :: X') epochs batch_size w1) as [[[gl dl]|e] w2] eqn:E;
          simpl; rewrite E, <- app_assoc; simpl; eexists _, w2, _;
          (split; [reflexivity|split; [auto|]]); auto; discriminate.
      * eexists _, w1, _; (split; [reflexivity|split; [auto|]]); discriminate.
Qed.

(** Sampling adds one event; what follows it is pure. *)
Lemma sample_then_pure (G : GAN_class) (A B : Type) (n : nat) (g : gan G)
  (K : A -> run (world G) B) (op : world G -> result A * world G)
  (w : world G) (tr : list event) :
  (forall x s, snd (K x s) = s) ->
  snd (snd (bind (call (Sample n) op) K (w, tr))) = tr ++ [Sample n].
Proof.
  intros HK. unfold bind, call; simpl.
  destruct (op w) as [[x|e] w']; simpl; [|reflexivity].
  now rewrite HK.
Qed.

(** ** Input validation *)

Lemma isnull_sum_pos (df : pd.DataFrame) (s : pd.Series) (v : pd.value) :
  In s df -> In v (pd.values s) -> pd.isnull v = true ->
  (0 <? list_sum (pd.isnull_sum df))%nat = true.
Proof.
  intros Hs Hv Hn. apply Nat.ltb_lt.
  induction df as [|s' df IH]; simpl in *; [tauto|].
  destruct Hs as [->|Hs]; [|specialize (IH Hs); lia].
  assert (0 < List.length (filter pd.isnull (pd.values s)))%nat; [|lia].
  assert (Hin : In v (filter pd.isnull (pd.values s))) by (apply filter_In; auto).
  destruct (filter pd.isnull (pd.values s)); simpl in *; [tauto|lia].
Qed.

(** C6.  If some cell of the input frame is missing, [synthetic_data] raises
    the [ValueError] about nan values and leaves the hidden state and the
    trace as they were: no generator was constructed, nothing was trained
    and nothing was sampled. *)
Theorem missing_value_rejected (G : GAN_class) (epochs batch_size : nat)
  (df : pd.DataFrame) (samples : nat) (initial_lr dropout : Q)
  (w : world G) (tr : list event) (s : pd.Series) (v : pd.value) :
  In s df -> In v (pd.values s) -> pd.isnull v = true ->
  synthetic_data G epochs batch_size df samples initial_lr dropout (w, tr)
  = (Raise (ValueError nan_message), (w, tr)).
Proof.
  intros Hs Hv Hn. unfold synthetic_data.
  now rewrite (isnull_sum_pos df s v Hs Hv Hn).
Qed.

(** ** Retry policy *)

Lemma learning_rates_Sample (initial_lr : Q) (tr : list event) (n : nat) :
  rates_of_run initial_lr (learning_rates tr) ->
  rates_of_run initial_lr (learning_rates (tr ++ [Sample n])).
Proof. rewrite learning_rates_app; simpl; now rewrite app_nil_r. Qed.

Lemma learning_rates_cases (G : GAN_class) (epochs batch_size : nat)
  (df : pd.DataFrame) (samples : nat) (initial_lr dropout : Q) (w : world G) :
  rates_of_run initial_lr
    (learning_rates (snd (snd (synthetic_data G epochs batch_size df samples
                                 initial_lr dropout (w, []))))).
Proof.
  assert (Hpure : forall (k1 : list (list Q) -> result pd.DataFrame)
                         (k2 : pd.DataFrame -> result pd.DataFrame)
                         (x : list (list Q) * list Q) (s : world G * list event),
             snd ((let (x_synthetic, _) return run (world G) pd.DataFrame := x in
                   (newdf <~ lift (k1 x_synthetic) ;;
                    newdf <~ lift (k2 newdf) ;;
                    ret newdf)%run) s) = s).
  { intros k1 k2 [xs ys] s. unfold bind, lift, ret.
    destruct (k1 xs) as [nd|e]; [|reflexivity].
    now destruct (k2 nd). }
  unfold synthetic_data.
  destruct (0 <? list_sum (pd.isnull_sum df))%nat; [left; reflexivity|].
  unfold bind at 1.
  destruct (string_check_state (world G) df (pd.columns df) (w, [])) as [r0 ->].
  destruct r0 as [[]|e]; [|left; reflexivity].
  unfold columns_type. cbv zeta. cbv iota.
  unfold bind at 1. unfold lift at 1.
  destruct (data_transformation _ _ _) as [[[X cs] ns]|e]; [|left; reflexivity].
  unfold bind at 1.
  destruct (train_gan_trace G epochs batch_size X (List.length (pd.columns df))
              initial_lr dropout w []) as (r1 & w1 & t1 & -> & Ht1 & Hok1).
  simpl app.
  destruct r1 as [[[gl dl] g]|e].
  2:{ simpl. destruct Ht1 as [->| [->| ->]]; unfold rates_of_run; simpl; auto. }
  rewrite (Hok1 _ eq_refl). clear Ht1 Hok1.
  unfold bind at 1.
  destruct (np.ltb 1 gl).
  - destruct (train_gan_trace G epochs batch_size X (List.length (pd.columns df))
                (initial_lr / 10) dropout w1
                [Construct (List.length (pd.columns df)) initial_lr dropout;
                 Train epochs batch_size]) as (r2 & w2 & t2 & -> & Ht2 & _).
    destruct r2 as [[[gl2 dl2] g2]|e2].
    + rewrite sample_then_pure by (assumption || apply Hpure).
      apply learning_rates_Sample. rewrite learning_rates_app.
      destruct Ht2 as [->| [->| ->]]; unfold rates_of_run; simpl; auto.
    + destruct Ht2 as [->| [->| ->]]; unfold rates_of_run; simpl; auto.
  - unfold ret at 1.
    rewrite sample_then_pure by (assumption || apply Hpure).
    apply learning_rates_Sample. unfold rates_of_run; simpl; auto.
Qed.

(** C1.  A run constructs the generator at most twice: with the initial
    learning rate and, when the first generator loss is above 1, with a
    tenth of it.  The branch that would train with a hundredth of the rate
    sits under the [else] of the test [G_loss > 1] and repeats that test, so
    it is never taken: with a generator whose loss is 2 after every
    training, the run trains twice and samples from the second model. *)
Theorem retry_stops_after_second_attempt :
  (forall (G : GAN_class) (epochs batch_size : nat) (df : pd.DataFrame)
          (samples : nat) (initial_lr dropout : Q) (w : world G),
      let tr := snd (snd (synthetic_data G epochs batch_size df samples
                            initial_lr dropout (w, []))) in
      learning_rates tr = []
      \/ learning_rates tr = [initial_lr]
      \/ learning_rates tr = [initial_lr; initial_lr / 10])
  /\ (let G := constant_GAN 2 [[1; -(1)]; [-(1); 1]; [0; 1]] in
      exists newdf,
        synthetic_data G 10 48 frame_C1 3 (2 # 10000) (1 # 2) (tt, [])
        = (Ok newdf,
           (tt, [Construct 2 (2 # 10000) (1 # 2); Train 10 48;
                 Construct 2 ((2 # 10000) / 10) (1 # 2); Train 10 48;
                 Sample 3]))).
Proof.
  split.
  - intros. apply learning_rates_cases.
  - eexists. vm_compute. reflexivity.
Qed.

(** A frame with one missing cell. *)
Lemma missing_value_rejected_witness :
  synthetic_data (constant_GAN (1 # 2) []) 10 48
    [ {| pd.name := "x"; pd.dtype_of := pd.float64;
         pd.values := [pd.VNum 1; pd.VNull; pd.VNum 3] |} ]%string
    5 (2 # 10000) (1 # 2) (tt, [])
  = (Raise (ValueError nan_message), (tt, [])).
Proof.
  apply (missing_value_rejected (constant_GAN (1 # 2) []) 10 48 _ 5 (2 # 10000) (1 # 2)
           tt []
           {| pd.name := "x"%string; pd.dtype_of := pd.float64;
              pd.values := [pd.VNum 1; pd.VNull; pd.VNum 3] |}
           pd.VNull).
  - simpl; auto.
  - simpl; auto.
  - reflexivity.
Defined.

(** What a successful run went through. *)
Lemma synthetic_data_Ok_inv (G : GAN_class) (epochs batch_size : nat)
  (df : pd.DataFrame) (samples : nat) (initial_lr dropout : Q)
  (s s' : world G * list event) (newdf : pd.DataFrame) :
  synthetic_data G epochs batch_size df samples initial_lr dropout s = (Ok newdf, s') ->
  exists scaled_X categorical_scaler numerical_scaler x_synthetic newdf0,
    data_transformation df (fst (columns_type df)) (snd (columns_type df))
    = Ok (scaled_X, categorical_scaler, numerical_scaler)
    /\ generate_data df x_synthetic (snd (columns_type df)) (fst (columns_type df))
         categorical_scaler numerical_scaler = Ok newdf0
    /\ for_each (fst (columns_type df)) (rescale_numerical df) newdf0 = Ok newdf.
Proof.
  unfold synthetic_data.
  destruct (0 <? list_sum (pd.isnull_sum df))%nat; [discriminate|].
  unfold bind at 1.
  destruct s as [w tr].
  destruct (string_check_state (world G) df (pd.columns df) (w, tr)) as [r0 ->].
  destruct r0 as [[]|e]; [|discriminate].
  unfold columns_type. cbv zeta. cbv iota. simpl fst. simpl snd.
  unfold bind at 1. unfold lift at 1.
  destruct (data_transformation _ _ _) as [[[X cs] ns]|e]; [|discriminate].
  unfold bind at 1.
  destruct (train_gan _ _ _ _ _ _ _ _) as [[[[gl dl] g]|e] s1]; [|discriminate].
  unfold bind at 1.
  match goal with
  | |- context [(if np.ltb 1 gl then ?a else ?b) s1] =>
      destruct ((if np.ltb 1 gl then a else b) s1) as [[[[gl2 dl2] g2]|e] s2]
  end; [|discriminate].
  unfold bind at 1.
  destruct (call _ _ s2) as [[[xs ys]|e] s3]; [|discriminate].
  unfold bind, lift, ret.
  destruct (generate_data _ _ _ _ _ _) as [nd|e] eqn:Eg; [|discriminate].
  destruct (for_each _ _ nd) as [nd'|e] eqn:Er; [|discriminate].
  intros H; injection H as <- <-.
  now exists X, cs, ns, xs, nd.
Qed.

(** ** Data frames: reading and writing columns *)

Lemma getitem_Ok (df : pd.DataFrame) (c : string) (s : pd.Series) :
  pd.getitem df c = Ok s -> In s df /\ pd.name s = c.
Proof.
  unfold pd.getitem. destruct (find _ df) as [s0|] eqn:E; [|discriminate].
  intros H; injection H as ->. apply find_some in E as [Hin Hn].
  split; [exact Hin|]. now apply String.eqb_eq.
Qed.

Lemma getitem_exists (df : pd.DataFrame) (c : string) (s : pd.Series) :
  pd.getitem df c = Ok s -> existsb (fun s => String.eqb (pd.name s) c) df = true.
Proof.
  intros H. apply getitem_Ok in H as [Hin Hn].
  apply existsb_exists. exists s. split; [exact Hin|]. now apply String.eqb_eq.
Qed.

Lemma getitem_In (df : pd.DataFrame) (s : pd.Series) :
  NoDup (pd.columns df) -> In s df -> pd.getitem df (pd.name s) = Ok s.
Proof.
  intros Hnd Hin. unfold pd.getitem.
  destruct (find _ df) as [s0|] eqn:E.
  - apply find_some in E as [Hin0 Hn]. apply String.eqb_eq in Hn.
    now rewrite (NoDup_map_inj_In pd.name df s0 s Hnd Hin0 Hin Hn).
  - exfalso. apply (find_none _ _ E) in Hin. now rewrite String.eqb_refl in Hin.
Qed.

Lemma setitem_columns (df : pd.DataFrame) (c : string) (dt : pd.dtype)
  (vs : list pd.value) (s : pd.Series) :
  pd.getitem df c = Ok s -> pd.columns (pd.setitem df c dt vs) = pd.columns df.
Proof.
  intros H. unfold pd.setitem. rewrite (getitem_exists _ _ _ H).
  unfold pd.columns. rewrite map_map. apply map_ext_in.
  intros a _. destruct (String.eqb (pd.name a) c) eqn:E; [|reflexivity].
  simpl. symmetry. now apply String.eqb_eq.
Qed.

Lemma getitem_setitem_same (df : pd.DataFrame) (c : string) (dt : pd.dtype)
  (vs : list pd.value) :
  pd.getitem (pd.setitem df c dt vs) c
  = Ok {| pd.name := c; pd.dtype_of := dt; pd.values := vs |}.
Proof.
  unfold pd.setitem, pd.getitem.
  destruct (existsb _ df) eqn:E.
  - induction df as [|a df IH]; simpl in *; [discriminate|].
    destruct (String.eqb (pd.name a) c) eqn:Ea; simpl.
    + now rewrite String.eqb_refl.
    + rewrite Ea. apply IH. exact E.
  - induction df as [|a df IH]; simpl in *.
    + now rewrite String.eqb_refl.
    + apply orb_false_iff in E as [Ea E]. rewrite Ea. now apply IH.
Qed.

Lemma getitem_setitem_other (df : pd.DataFrame) (c c' : string) (dt : pd.dtype)
  (vs : list pd.value) :
  c' <> c -> pd.getitem (pd.setitem df c dt vs) c' = pd.getitem df c'.
Proof.
  intros Hne. unfold pd.setitem, pd.getitem.
  assert (Hc : String.eqb c c' = false) by (apply String.eqb_neq; congruence).
  destruct (existsb _ df).
  - induction df as [|a df IH]; simpl; [reflexivity|].
    destruct (String.eqb (pd.name a) c) eqn:Ea; simpl.
    + apply String.eqb_eq in Ea. rewrite Ea, Hc. exact IH.
    + destruct (String.eqb (pd.name a) c'); [reflexivity|exact IH].
  - induction df as [|a df IH]; simpl.
    + now rewrite Hc.
    + destruct (String.eqb (pd.name a) c'); [reflexivity|exact IH].
Qed.

Lemma to_numpy_of_numpy (xs : list Q) : pd.to_numpy (pd.of_numpy xs) = Ok xs.
Proof. induction xs as [|x xs IH]; simpl; [reflexivity|now rewrite IH]. Qed.

Lemma to_numpy_of_int_array (ks : list nat) :
  pd.to_numpy (pd.of_int_array ks) = Ok (map (fun k => inject_Z (Z.of_nat k)) ks).
Proof. induction ks as [|k ks IH]; simpl; [reflexivity|now rewrite IH]. Qed.

Lemma to_numpy_values (vs : list pd.value) (xs : list Q) :
  pd.to_numpy vs = Ok xs -> vs = pd.of_numpy xs.
Proof.
  revert xs. induction vs as [|v vs IH]; simpl; intros xs H.
  - now injection H as <-.
  - destruct v; try discriminate.
    destruct (pd.to_numpy vs) as [ys|]; [|discriminate].
    injection H as <-. simpl. now rewrite (IH ys eq_refl).
Qed.

Lemma DataFrame_of_matrix_columns (m : list (list Q)) (labels : list string)
  (df : pd.DataFrame) :
  pd.DataFrame_of_matrix m labels = Ok df -> pd.columns df = labels.
Proof.
  unfold pd.DataFrame_of_matrix. destruct (forallb _ m); [|discriminate].
  intros H; injection H as <-. unfold pd.columns. rewrite map_map. simpl.
  change (map (fun x : nat * string => snd x)
            (combine (seq 0 (List.length labels)) labels) = labels).
  generalize 0%nat. induction labels as [|l labels IH]; intros n; simpl;
    [reflexivity|now rewrite IH].
Qed.

(** ** Loops over columns *)

Lemma for_each_invariant {A S : Type} (P : S -> Prop) (body : A -> S -> result S)
  (xs : list A) :
  (forall x s s', In x xs -> body x s = Ok s' -> P s -> P s') ->
  forall s s', for_each xs body s = Ok s' -> P s -> P s'.
Proof.
  induction xs as [|x xs IH]; simpl; intros Hb s s' H Hs.
  - now injection H as <-.
  - destruct (body x s) as [s1|e] eqn:E; simpl in H; [|discriminate].
    apply (IH (fun y a b Hy => Hb y a b (or_intror Hy)) s1 s' H).
    apply (Hb x s s1); auto.
Qed.

Lemma for_each_columns (body : string -> pd.DataFrame -> result pd.DataFrame)
  (cs : list string) (nd nd' : pd.DataFrame) :
  column_local body -> for_each cs body nd = Ok nd' ->
  pd.columns nd' = pd.columns nd.
Proof.
  intros Hl H.
  apply (for_each_invariant (fun d => pd.columns d = pd.columns nd) body cs) with (s := nd);
    auto.
  intros x s s' _ Hb Hs. destruct (Hl x s s' Hb) as [E _]. congruence.
Qed.

Lemma for_each_untouched (body : string -> pd.DataFrame -> result pd.DataFrame)
  (cs : list string) (c : string) (nd nd' : pd.DataFrame) :
  column_local body -> ~ In c cs -> for_each cs body nd = Ok nd' ->
  same_column c nd nd'.
Proof.
  intros Hl Hn H.
  apply (for_each_invariant (fun d => same_column c nd d) body cs) with (s := nd);
    auto; [|reflexivity].
  intros x s s' Hx Hb Hs. destruct (Hl x s s' Hb) as [_ E].
  unfold same_column in *. rewrite <- Hs. apply E. congruence.
Qed.

(** In a loop over distinct labels the body runs once for [c], on a frame
    that still holds the column [c] it started with, and what it writes is
    what the loop returns for [c]. *)
Lemma for_each_once (body : string -> pd.DataFrame -> result pd.DataFrame)
  (cs : list string) (c : string) (nd nd' : pd.DataFrame) :
  column_local body -> NoDup cs -> In c cs -> for_each cs body nd = Ok nd' ->
  exists nd1 nd2,
    same_column c nd nd1 /\ body c nd1 = Ok nd2 /\ same_column c nd2 nd'
    /\ pd.columns nd1 = pd.columns nd.
Proof.
  intros Hl. revert nd. induction cs as [|x cs IH]; simpl; intros nd Hnd Hin H; [tauto|].
  inversion Hnd as [|? ? Hx Hnd']; subst.
  destruct (body x nd) as [nd1|e] eqn:E; simpl in H; [|discriminate].
  destruct Hin as [->|Hin].
  - exists nd, nd1. repeat split; auto; try reflexivity.
    apply (for_each_untouched body cs c nd1 nd'); auto.
  - destruct (IH nd1 Hnd' Hin H) as (a & b & Ha & Hb & Hc & Hcols).
    destruct (Hl x nd nd1 E) as [Ecols Eo].
    exists a, b. repeat split; auto.
    + unfold same_column in *. rewrite Ha. apply Eo. intros ->. tauto.
    + congruence.
Qed.

Lemma setitem_local (nd : pd.DataFrame) (c : string) (dt : pd.dtype)
  (vs : list pd.value) (s : pd.Series) :
  pd.getitem nd c = Ok s ->
  pd.columns (pd.setitem nd c dt vs) = pd.columns nd
  /\ forall c', c' <> c -> same_column c' nd (pd.setitem nd c dt vs).
Proof.
  intros H. split; [now apply setitem_columns with s|].
  intros c' Hne. now apply getitem_setitem_other.
Qed.

Lemma decode_categorical_local (df : pd.DataFrame) (categorical_scaler : Pipeline) :
  column_local (decode_categorical df categorical_scaler).
Proof.
  intros c nd nd' H. unfold decode_categorical in H. bind_inv H.
  - subst nd'.
    match goal with
    | |- context [pd.setitem (pd.setitem (pd.setitem nd c ?d1 ?v1) c ?d2 ?v2) c ?d3 ?v3] =>
        destruct (setitem_local nd c d1 v1 _ E2) as [C1 O1];
        destruct (setitem_local (pd.setitem nd c d1 v1) c d2 v2 _
                    (getitem_setitem_same nd c d1 v1)) as [C2 O2];
        destruct (setitem_local (pd.setitem (pd.setitem nd c d1 v1) c d2 v2) c d3 v3 _
                    (getitem_setitem_same _ c d2 v2)) as [C3 O3]
    end.
    split; [congruence|].
    intros c' Hne. unfold same_column in *.
    rewrite O3, O2, O1; auto.
  - subst nd'. split; [reflexivity|intros; reflexivity].
Qed.

Lemma decode_numerical_local (numerical_scaler : Pipeline) :
  column_local (decode_numerical numerical_scaler).
Proof.
  intros c nd nd' H. unfold decode_numerical in H. bind_inv H.
  subst nd'. eapply setitem_local; eauto.
Qed.

Lemma remap_binary_local (df : pd.DataFrame) : column_local (remap_binary df).
Proof.
  intros c nd nd' H. unfold remap_binary in H. bind_inv H.
  - subst nd'. eapply setitem_local; eauto.
  - subst nd'. split; [reflexivity|intros; reflexivity].
Qed.

Lemma rescale_numerical_local (df : pd.DataFrame) : column_local (rescale_numerical df).
Proof.
  intros c nd nd' H. unfold rescale_numerical in H. bind_inv H.
  subst nd'. eapply setitem_local; eauto.
Qed.

(** What a successful [generate_data] went through. *)
Lemma generate_data_Ok_inv (df : pd.DataFrame) (x_synthetic : list (list Q))
  (categorical_columns numerical_columns : list string)
  (categorical_scaler numerical_scaler : Pipeline) (newdf : pd.DataFrame) :
  generate_data df x_synthetic categorical_columns numerical_columns
    categorical_scaler numerical_scaler = Ok newdf ->
  exists nd0 nd1 nd2,
    pd.DataFrame_of_matrix x_synthetic (pd.columns df) = Ok nd0
    /\ for_each categorical_columns (decode_categorical df categorical_scaler) nd0 = Ok nd1
    /\ for_each numerical_columns (decode_numerical numerical_scaler) nd1 = Ok nd2
    /\ for_each categorical_columns (remap_binary df) nd2 = Ok newdf.
Proof.
  unfold generate_data. intros H. bind_inv H. subst.
  eexists _, _, _. repeat split; eauto.
Qed.

(** ** Column names and order *)

Lemma generate_data_columns (df : pd.DataFrame) (x_synthetic : list (list Q))
  (categorical_columns numerical_columns : list string)
  (categorical_scaler numerical_scaler : Pipeline) (newdf : pd.DataFrame) :
  generate_data df x_synthetic categorical_columns numerical_columns
    categorical_scaler numerical_scaler = Ok newdf ->
  pd.columns newdf = pd.columns df.
Proof.
  intros H. apply generate_data_Ok_inv in H as (nd0 & nd1 & nd2 & H0 & H1 & H2 & H3).
  apply DataFrame_of_matrix_columns in H0.
  apply for_each_columns in H1; [|apply decode_categorical_local].
  apply for_each_columns in H2; [|apply decode_numerical_local].
  apply for_each_columns in H3; [|apply remap_binary_local].
  congruence.
Qed.

(** C4.  Whenever [synthetic_data] returns a frame, its column labels are
    those of the input frame, in the same order. *)
Theorem synthetic_data_columns (G : GAN_class) (epochs batch_size : nat)
  (df : pd.DataFrame) (samples : nat) (initial_lr dropout : Q)
  (s s' : world G * list event) (newdf : pd.DataFrame) :
  synthetic_data G epochs batch_size df samples initial_lr dropout s = (Ok newdf, s') ->
  pd.columns newdf = pd.columns df.
Proof.
  intros H.
  apply synthetic_data_Ok_inv in H as (X & cs & ns & xs & nd & _ & Hg & Hr).
  apply generate_data_columns in Hg.
  apply for_each_columns in Hr; [|apply rescale_numerical_local].
  congruence.
Qed.

(** A run on [frame_C1] that returns a frame. *)
Lemma synthetic_data_columns_witness :
  exists newdf s',
    synthetic_data (constant_GAN (1 # 2) [[1; -(1)]; [-(1); 1]; [0; 1]]) 10 48
      frame_C1 3 (2 # 10000) (1 # 2) (tt, []) = (Ok newdf, s')
    /\ pd.columns newdf = ["x"; "c"]%string.
Proof.
  eexists _, _. split.
  - vm_compute. reflexivity.
  - eapply (synthetic_data_columns
              (constant_GAN (1 # 2) [[1; -(1)]; [-(1); 1]; [0; 1]]) 10 48
              frame_C1 3 (2 # 10000) (1 # 2) (tt, [])).
    vm_compute. reflexivity.
Defined.

(** ** The no-op branch for single-valued categorical columns *)

Lemma decode_categorical_single (df : pd.DataFrame) (categorical_scaler : Pipeline)
  (c : string) (col : pd.Series) (orig : list Q) (nd nd' : pd.DataFrame) :
  pd.getitem df c = Ok col -> pd.to_numpy (pd.values col) = Ok orig ->
  List.length (np.unique orig) = 1%nat ->
  decode_categorical df categorical_scaler c nd = Ok nd' -> nd' = nd.
Proof.
  intros Hc Ho Hu. unfold decode_categorical. rewrite Hc; simpl. rewrite Ho; simpl.
  rewrite Hu. simpl. congruence.
Qed.

Lemma remap_binary_single (df : pd.DataFrame)
  (c : string) (col : pd.Series) (orig : list Q) (nd nd' : pd.DataFrame) :
  pd.getitem df c = Ok col -> pd.to_numpy (pd.values col) = Ok orig ->
  List.length (np.unique orig) = 1%nat ->
  remap_binary df c nd = Ok nd' -> nd' = nd.
Proof.
  intros Hc Ho Hu. unfold remap_binary. rewrite Hc; simpl. rewrite Ho; simpl.
  rewrite Hu. simpl. congruence.
Qed.

(** C9.  Let [c] be a categorical column of the original frame with exactly
    one distinct value (and not also listed as numerical).  In the frame
    that [generate_data] returns, the column [c] is the column [c] of the
    frame built from the synthetic matrix: same cells, same dtype. *)
Theorem single_valued_column_untouched (df : pd.DataFrame)
  (x_synthetic : list (list Q)) (categorical_columns numerical_columns : list string)
  (categorical_scaler numerical_scaler : Pipeline) (newdf : pd.DataFrame)
  (c : string) (col : pd.Series) (orig : list Q) :
  generate_data df x_synthetic categorical_columns numerical_columns
    categorical_scaler numerical_scaler = Ok newdf ->
  In c categorical_columns -> ~ In c numerical_columns ->
  pd.getitem df c = Ok col -> pd.to_numpy (pd.values col) = Ok orig ->
  List.length (np.unique orig) = 1%nat ->
  exists generated,
    pd.DataFrame_of_matrix x_synthetic (pd.columns df) = Ok generated
    /\ pd.getitem newdf c = pd.getitem generated c.
Proof.
  intros H _ Hnum Hc Ho Hu.
  apply generate_data_Ok_inv in H as (nd0 & nd1 & nd2 & H0 & H1 & H2 & H3).
  exists nd0. split; [exact H0|].
  assert (S1 : same_column c nd0 nd1).
  { apply (for_each_invariant (fun d => same_column c nd0 d)
             (decode_categorical df categorical_scaler) categorical_columns)
        with (s := nd0); [|exact H1|reflexivity].
    intros x s s' _ Hb Hs. destruct (string_dec x c) as [->|Hne].
    - now rewrite (decode_categorical_single df categorical_scaler c col orig s s').
    - destruct (decode_categorical_local df categorical_scaler x s s' Hb) as [_ E].
      unfold same_column in *. rewrite <- Hs. apply E. congruence. }
  assert (S2 : same_column c nd1 nd2).
  { apply (for_each_untouched (decode_numerical numerical_scaler) numerical_columns);
      auto using decode_numerical_local. }
  assert (S3 : same_column c nd2 newdf).
  { apply (for_each_invariant (fun d => same_column c nd2 d)
             (remap_binary df) categorical_columns)
        with (s := nd2); [|exact H3|reflexivity].
    intros x s s' _ Hb Hs. destruct (string_dec x c) as [->|Hne].
    - now rewrite (remap_binary_single df c col orig s s').
    - destruct (remap_binary_local df x s s' Hb) as [_ E].
      unfold same_column in *. rewrite <- Hs. apply E. congruence. }
  unfold same_column in *. congruence.
Qed.

(** The single-valued column [k] of [frame_C9]. *)
Lemma single_valued_column_untouched_witness :
  exists newdf,
    generate_data frame_C9 [[0; 3 # 10]; [1; -(2 # 10)]] ["k"%string] ["x"%string]
      (fst scalers_C9) (snd scalers_C9) = Ok newdf
    /\ exists generated,
         pd.DataFrame_of_matrix [[0; 3 # 10]; [1; -(2 # 10)]] (pd.columns frame_C9)
         = Ok generated
         /\ pd.getitem newdf "k" = pd.getitem generated "k".
Proof.
  eexists. split.
  - vm_compute. reflexivity.
  - apply (single_valued_column_untouched frame_C9 [[0; 3 # 10]; [1; -(2 # 10)]]
             ["k"%string] ["x"%string] (fst scalers_C9) (snd scalers_C9) _
             "k"%string
             {| pd.name := "k"; pd.dtype_of := pd.CategoricalDtype;
                pd.values := [pd.VNum 7; pd.VNum 7; pd.VNum 7] |}
             [7; 7; 7]).
    + vm_compute. reflexivity.
    + simpl; auto.
    + simpl; intros [H|[]]; discriminate H.
    + reflexivity.
    + reflexivity.
    + reflexivity.
Defined.

(** ** The string test *)

Lemma isnull_sum_zero (df : pd.DataFrame) :
  (forall s v, In s df -> In v (pd.values s) -> pd.isnull v = false) ->
  (0 <? list_sum (pd.isnull_sum df))%nat = false.
Proof.
  intros H. apply Nat.ltb_ge.
  induction df as [|s df IH]; simpl; [lia|].
  assert (E : filter pd.isnull (pd.values s) = []).
  { assert (Hs : forall v, In v (pd.values s) -> pd.isnull v = false)
      by (intros v Hv; apply (H s v); simpl; auto).
    induction (pd.values s) as [|v vs IHv]; simpl; [reflexivity|].
    rewrite (Hs v) by (simpl; auto). apply IHv. intros; apply Hs; simpl; auto. }
  rewrite E. simpl.
  apply IH. intros s' v Hs' Hv. apply (H s' v); simpl; auto.
Qed.

Lemma iloc0_In (df : pd.DataFrame) (s : pd.Series) (v : pd.value) (vs : list pd.value) :
  NoDup (pd.columns df) -> In s df -> pd.values s = v :: vs ->
  (forall s0, hd_error df = Some s0 -> pd.values s0 <> []) ->
  pd.iloc0 df (pd.name s) = Ok v.
Proof.
  intros Hnd Hin Hv Hfirst. unfold pd.iloc0.
  destruct df as [|s0 df']; [destruct Hin|].
  specialize (Hfirst s0 eq_refl).
  destruct (pd.values s0) as [|v0 vs0] eqn:E0; [congruence|].
  rewrite (getitem_In (s0 :: df') s Hnd Hin). simpl. now rewrite Hv.
Qed.

Lemma string_check_raises (W : Type) (df : pd.DataFrame)
  (before : list string) (c : string) (after : list string) (t : string)
  (s : W * list event) :
  (forall c', In c' before -> exists v, pd.iloc0 df c' = Ok v /\ is_str v = false) ->
  pd.iloc0 df c = Ok (pd.VStr t) ->
  for_each_run (before ++ c :: after)
    (fun c => (v <~ lift (pd.iloc0 df c) ;;
               if is_str v then raise (ValueError (string_message c))
               else ret tt)%run) s
  = (Raise (ValueError (string_message c)), s).
Proof.
  intros Hb Hc. induction before as [|c0 before IH]; simpl.
  - unfold bind, lift. now rewrite Hc.
  - destruct (Hb c0 (or_introl eq_refl)) as (v & Hv & Hs).
    unfold bind at 1. unfold bind at 1. unfold lift at 1. rewrite Hv, Hs.
    unfold ret at 1. apply IH. intros c' Hc'. apply Hb. now right.
Qed.

(** C7, as the code has it.  Let the frame have distinct labels and no
    missing cell, and let [s] be the first column, in column order, whose
    first-row cell is a string.  Then [synthetic_data] raises the
    [ValueError] whose message names [s], and leaves the hidden state and the
    trace as they were. *)
Theorem first_string_column_rejected (G : GAN_class) (epochs batch_size : nat)
  (samples : nat) (initial_lr dropout : Q) (w : world G) (tr : list event)
  (before : list pd.Series) (s : pd.Series) (after : list pd.Series)
  (t : string) (rest : list pd.value) :
  let df := before ++ s :: after in
  NoDup (pd.columns df) ->
  (forall s' v, In s' df -> In v (pd.values s') -> pd.isnull v = false) ->
  pd.values s = pd.VStr t :: rest ->
  (forall s', In s' before ->
     exists v vs, pd.values s' = v :: vs /\ is_str v = false) ->
  synthetic_data G epochs batch_size df samples initial_lr dropout (w, tr)
  = (Raise (ValueError (string_message (pd.name s))), (w, tr)).
Proof.
  intros df Hnd Hnull Hs Hbefore. unfold synthetic_data.
  rewrite (isnull_sum_zero df Hnull).
  assert (Hfirst : forall s0, hd_error df = Some s0 -> pd.values s0 <> []).
  { intros s0 E. subst df. destruct before as [|b before]; simpl in E; injection E as <-.
    - now rewrite Hs.
    - destruct (Hbefore b (or_introl eq_refl)) as (v & vs & -> & _). discriminate. }
  unfold bind at 1.
  replace (pd.columns df) with (map pd.name before ++ pd.name s :: map pd.name after)
    by (subst df; unfold pd.columns; now rewrite map_app).
  rewrite (string_check_raises (world G) df (map pd.name before) (pd.name s)
             (map pd.name after) t (w, tr)); [reflexivity| |].
  - intros c' Hc'. apply in_map_iff in Hc' as (s' & <- & Hs').
    destruct (Hbefore s' Hs') as (v & vs & Hv & Hstr).
    exists v. split; [|exact Hstr].
    apply (iloc0_In df s' v vs); auto.
    subst df. apply in_or_app. now left.
  - apply (iloc0_In df s (pd.VStr t) rest); auto.
    subst df. apply in_or_app. right. now left.
Qed.

(** On [frame_C7] the column [city] is named. *)
Lemma first_string_column_rejected_witness :
  synthetic_data (constant_GAN (1 # 2) []) 10 48 frame_C7 5 (2 # 10000) (1 # 2) (tt, [])
  = (Raise (ValueError "Column 'city' contains strings. We suggest to encode it. "),
     (tt, [])).
Proof.
  apply (first_string_column_rejected (constant_GAN (1 # 2) []) 10 48 5 (2 # 10000) (1 # 2)
           tt []
           [ {| pd.name := "age"%string; pd.dtype_of := pd.int64;
                pd.values := [pd.VNum 31; pd.VNum 58] |} ]
           {| pd.name := "city"%string; pd.dtype_of := pd.object_;
              pd.values := [pd.VStr "Paris"; pd.VStr "Lyon"] |}
           [ {| pd.name := "job"%string; pd.dtype_of := pd.object_;
                pd.values := [pd.VStr "cook"; pd.VStr "nurse"] |} ]
           "Paris"%string [pd.VStr "Lyon"]).
  - repeat constructor; simpl; intuition discriminate.
  - simpl. intros s' v [<-|[<-|[<-|[]]]]; simpl; intros Hv;
      repeat (destruct Hv as [<-|Hv]; [reflexivity|]); destruct Hv.
  - reflexivity.
  - simpl. intros s' [<-|[]]. now exists (pd.VNum 31), [pd.VNum 58].
Defined.

(** Columns with strings that the error does not name.  In
    [frame_C7_missing] the missing cell is reported, and no column is named;
    in [frame_C7_below] the string sits below the first row, the test passes
    and the scaler raises; in [frame_C7] the column [city] is named and the
    column [job], which holds strings as well, is not. *)
Lemma string_column_not_named :
  let run_on df :=
    fst (synthetic_data (constant_GAN (1 # 2) []) 10 48 df 5 (2 # 10000) (1 # 2) (tt, [])) in
  (run_on frame_C7_missing = Raise (ValueError nan_message)
   /\ String.index 0 "city" (error_message (run_on frame_C7_missing)) = None)
  /\ (run_on frame_C7_below = Raise (ValueError "could not convert string to float")
      /\ String.index 0 "zip" (error_message (run_on frame_C7_below)) = None)
  /\ (run_on frame_C7 = Raise (ValueError (string_message "city"))
      /\ String.index 0 "job" (error_message (run_on frame_C7)) = None).
Proof. vm_compute. repeat split. Qed.

(** ** Range of the numerical columns *)

Lemma clip_bounds (x lo hi : Q) : lo <= hi -> lo <= np.clip x lo hi <= hi.
Proof.
  intros H. unfold np.clip. split.
  - apply Q.min_glb; [apply Q.le_max_r|exact H].
  - apply Q.le_min_r.
Qed.

Lemma Qle_bool_false (x y : Q) : Qle_bool x y = false -> y < x.
Proof.
  intros H. apply Qnot_le_lt. intros Hle. apply Qle_bool_iff in Hle. congruence.
Qed.

Lemma MinMaxScaler_fit_inv (self self' : MinMaxScaler) (X : list Q) :
  MinMaxScaler_fit self X = Ok self' ->
  fst (feature_range self) < snd (feature_range self)
  /\ X <> []
  /\ exists data_min data_max,
       np.min X = Ok data_min /\ np.max X = Ok data_max
       /\ self' = {| feature_range := feature_range self;
                     clip := clip self;
                     scale_min_ :=
                       Some ((snd (feature_range self) - fst (feature_range self))
                             / handle_zeros_in_scale (data_max - data_min),
                             fst (feature_range self)
                             - data_min
                               * ((snd (feature_range self) - fst (feature_range self))
                                  / handle_zeros_in_scale (data_max - data_min))) |}.
Proof.
  unfold MinMaxScaler_fit. destruct (feature_range self) as [lo hi] eqn:Er. simpl.
  destruct (Qle_bool hi lo) eqn:Ehl; [discriminate|].
  apply Qle_bool_false in Ehl.
  destruct X as [|x X]; [discriminate|]. simpl.
  intros H; injection H as <-.
  split; [exact Ehl|]. split; [discriminate|].
  eexists _, _. repeat split.
Qed.

(** A clipping range scaler, freshly fitted: every output lies in its
    feature range. *)
Lemma MinMax_fit_transform_range (lo hi : Q) (X : list Q) (t' : transformer) (Y : list Q) :
  fit_transform (MinMax {| feature_range := (lo, hi); clip := true; scale_min_ := None |}) X
  = Ok (t', Y) ->
  lo < hi /\ List.length Y = List.length X /\ forall y, In y Y -> lo <= y <= hi.
Proof.
  unfold fit_transform. intros H.
  destruct (MinMaxScaler_fit _ X) as [s'|] eqn:Ef; simpl in H; [|discriminate].
  apply MinMaxScaler_fit_inv in Ef as (Hlt & HX & dmin & dmax & _ & _ & ->).
  simpl in Hlt.
  unfold MinMaxScaler_transform in H. simpl in H.
  destruct X as [|x0 X]; [congruence|]. simpl in H. injection H as _ <-.
  split; [exact Hlt|]. split; [simpl; now rewrite length_map|].
  intros y Hy. apply Qlt_le_weak in Hlt.
  destruct Hy as [<-|Hy]; [now apply clip_bounds|].
  apply in_map_iff in Hy as (x & <- & _). now apply clip_bounds.
Qed.

(** If every run of the body for [c] establishes a property of the column
    [c], the loop establishes it for every label it visits. *)
Lemma for_each_establishes (P : result pd.Series -> Prop)
  (body : string -> pd.DataFrame -> result pd.DataFrame)
  (cs : list string) (c : string) :
  column_local body ->
  (forall d d', body c d = Ok d' -> P (pd.getitem d' c)) ->
  In c cs ->
  forall nd nd', for_each cs body nd = Ok nd' -> P (pd.getitem nd' c).
Proof.
  intros Hl Hb. induction cs as [|x cs IH]; simpl; intros Hin nd nd' H; [tauto|].
  destruct (body x nd) as [nd1|e] eqn:E; simpl in H; [|discriminate].
  destruct (in_dec string_dec c cs) as [Hc|Hc]; [now apply (IH Hc nd1)|].
  destruct Hin as [->|Hin]; [|tauto].
  rewrite (for_each_untouched body cs c nd1 nd' Hl Hc H).
  now apply (Hb nd).
Qed.

Lemma rescale_numerical_range (df : pd.DataFrame) (c : string) (col : pd.Series)
  (orig : list Q) (lo hi : Q) (d d' : pd.DataFrame) :
  pd.getitem df c = Ok col -> pd.to_numpy (pd.values col) = Ok orig ->
  np.min orig = Ok lo -> np.max orig = Ok hi ->
  rescale_numerical df c d = Ok d' ->
  exists ncol, pd.getitem d' c = Ok ncol
               /\ pd.dtype_of ncol = pd.float64
               /\ Forall (within lo hi) (pd.values ncol).
Proof.
  intros Hc Ho Hlo Hhi. unfold rescale_numerical.
  rewrite Hc; cbn [rbind]. rewrite Ho; cbn [rbind].
  rewrite Hlo; cbn [rbind]. rewrite Hhi; cbn [rbind].
  intros H. bind_inv H. subst d'.
  rewrite getitem_setitem_same. eexists. split; [reflexivity|]. split; [reflexivity|].
  simpl.
  match goal with
  | E : fit_transform _ _ = Ok _ |- _ =>
      apply MinMax_fit_transform_range in E as (_ & _ & HY)
  end.
  apply Forall_forall. intros v Hv.
  apply in_map_iff in Hv as (y & <- & Hy). exists y. split; [reflexivity|now apply HY].
Qed.

(** C2.  Let [c] be a numerical column of the input and [lo], [hi] the
    least and the greatest of its values.  Whenever [synthetic_data] returns
    a frame, every cell of its column [c] is a number between [lo] and [hi],
    both included. *)
Theorem numerical_output_within_input_range (G : GAN_class) (epochs batch_size : nat)
  (df : pd.DataFrame) (samples : nat) (initial_lr dropout : Q)
  (s s' : world G * list event) (newdf : pd.DataFrame)
  (c : string) (col : pd.Series) (orig : list Q) (lo hi : Q) :
  synthetic_data G epochs batch_size df samples initial_lr dropout s = (Ok newdf, s') ->
  In c (fst (columns_type df)) ->
  pd.getitem df c = Ok col -> pd.to_numpy (pd.values col) = Ok orig ->
  np.min orig = Ok lo -> np.max orig = Ok hi ->
  exists ncol,
    pd.getitem newdf c = Ok ncol
    /\ forall v, In v (pd.values ncol) -> exists x, v = pd.VNum x /\ lo <= x <= hi.
Proof.
  intros H Hin Hc Ho Hlo Hhi.
  apply synthetic_data_Ok_inv in H as (X & cs & ns & xs & nd & _ & _ & Hr).
  destruct (for_each_establishes
              (fun r => exists ncol, r = Ok ncol /\ pd.dtype_of ncol = pd.float64
                                     /\ Forall (within lo hi) (pd.values ncol))
              (rescale_numerical df) (fst (columns_type df)) c
              (rescale_numerical_local df)
              (fun d d' => rescale_numerical_range df c col orig lo hi d d' Hc Ho Hlo Hhi)
              Hin nd newdf Hr) as (ncol & Hn & _ & Hall).
  exists ncol. split; [exact Hn|].
  intros v Hv. exact (proj1 (Forall_forall _ _) Hall v Hv).
Qed.

(** The numerical column [x] of [frame_C1]: all cells between 0 and 10. *)
Lemma numerical_output_within_input_range_witness :
  exists newdf s',
    synthetic_data (constant_GAN (1 # 2) [[1; -(1)]; [-(1); 1]; [3; 1]]) 10 48
      frame_C1 3 (2 # 10000) (1 # 2) (tt, []) = (Ok newdf, s')
    /\ exists ncol,
         pd.getitem newdf "x" = Ok ncol
         /\ forall v, In v (pd.values ncol) -> exists x, v = pd.VNum x /\ 0 <= x <= 10.
Proof.
  eexists _, _. split.
  - vm_compute. reflexivity.
  - eapply (numerical_output_within_input_range
              (constant_GAN (1 # 2) [[1; -(1)]; [-(1); 1]; [3; 1]]) 10 48
              frame_C1 3 (2 # 10000) (1 # 2) (tt, []) _ _ "x"%string
              {| pd.name := "x"; pd.dtype_of := pd.float64;
                 pd.values := [pd.VNum 0; pd.VNum 10; pd.VNum 5; pd.VNum 2] |}
              [0; 10; 5; 2] 0 10).
    + vm_compute. reflexivity.
    + simpl; auto.
    + reflexivity.
    + reflexivity.
    + reflexivity.
    + reflexivity.
Defined.

(** ** [np.unique] *)

Lemma insert_unique_In (x y : Q) (l : list Q) :
  In y (np.insert_unique x l) -> y = x \/ In y l.
Proof.
  induction l as [|a l IH]; simpl.
  - intros [<-|[]]; auto.
  - destruct (x ?= a); simpl.
    + auto.
    + intros [<-|H]; auto.
    + intros [<-|H]; auto. destruct (IH H); auto.
Qed.

Lemma unique_In (xs : list Q) (y : Q) : In y (np.unique xs) -> In y xs.
Proof.
  induction xs as [|x xs IH]; simpl; [tauto|].
  intros H. apply insert_unique_In in H as [->|H]; auto.
Qed.

Lemma insert_unique_Sorted (x : Q) (l : list Q) :
  Sorted Qlt l -> Sorted Qlt (np.insert_unique x l).
Proof.
  induction l as [|a l IH]; simpl; intros Hs.
  - repeat constructor.
  - destruct (x ?= a) eqn:E.
    + exact Hs.
    + constructor; [exact Hs|]. constructor. now apply Qlt_alt.
    + inversion Hs as [|? ? Hs' Hhd]; subst.
      constructor; [now apply IH|].
      apply Qgt_alt in E.
      destruct l as [|b l]; simpl.
      * constructor. exact E.
      * inversion Hhd; subst.
        destruct (x ?= b); constructor; auto.
Qed.

Lemma unique_Sorted (xs : list Q) : Sorted Qlt (np.unique xs).
Proof.
  induction xs as [|x xs IH]; simpl; [constructor|now apply insert_unique_Sorted].
Qed.

Lemma unique_two_lt (xs : list Q) (a b : Q) (l : list Q) :
  np.unique xs = a :: b :: l -> a < b.
Proof.
  intros E. pose proof (unique_Sorted xs) as H. rewrite E in H.
  inversion H as [|? ? _ Hhd]; subst. now inversion Hhd.
Qed.



(** ** Categorical columns through [generate_data] *)

(** The first loop on a column with more than one original value: the
    column becomes the bin codes of its inverse-scaled cells. *)
Lemma decode_categorical_multi (df : pd.DataFrame) (categorical_scaler : Pipeline)
  (c : string) (col : pd.Series) (orig : list Q) (nd nd' : pd.DataFrame) :
  pd.getitem df c = Ok col -> pd.to_numpy (pd.values col) = Ok orig ->
  (1 < List.length (np.unique orig))%nat ->
  decode_categorical df categorical_scaler c nd = Ok nd' ->
  exists gcol X Y codes,
    pd.getitem nd c = Ok gcol
    /\ pd.to_numpy (pd.values gcol) = Ok X
    /\ Pipeline_inverse_transform categorical_scaler X = Ok Y
    /\ KBinsDiscretizer_fit_transform (List.length (np.unique orig)) Y = Ok codes
    /\ pd.getitem nd' c
       = Ok {| pd.name := c; pd.dtype_of := pd.CategoricalDtype;
               pd.values := pd.of_int_array codes |}.
Proof.
  intros Hc Ho Hn. unfold decode_categorical.
  rewrite Hc; cbn [rbind]. rewrite Ho; cbn [rbind].
  apply Nat.ltb_lt in Hn. rewrite Hn.
  destruct (pd.getitem nd c) as [gcol|] eqn:Eg; cbn [rbind]; [|discriminate].
  destruct (pd.to_numpy (pd.values gcol)) as [X|] eqn:EX; cbn [rbind]; [|discriminate].
  destruct (Pipeline_inverse_transform categorical_scaler X) as [Y|] eqn:EY;
    cbn [rbind]; [|discriminate].
  rewrite getitem_setitem_same; cbn [rbind pd.values].
  rewrite to_numpy_of_numpy; cbn [rbind].
  destruct (KBinsDiscretizer_fit_transform _ Y) as [codes|] eqn:EK;
    cbn [rbind]; [|discriminate].
  rewrite getitem_setitem_same; cbn [rbind pd.values].
  intros H; injection H as <-.
  exists gcol, X, Y, codes. repeat split; auto.
  now rewrite getitem_setitem_same.
Qed.

(** The third loop on a binary column. *)
Lemma remap_binary_two (df : pd.DataFrame)
  (c : string) (col : pd.Series) (orig : list Q) (b0 b1 : Q) (nd nd' : pd.DataFrame) :
  pd.getitem df c = Ok col -> pd.to_numpy (pd.values col) = Ok orig ->
  np.unique orig = [b0; b1] ->
  remap_binary df c nd = Ok nd' ->
  exists ccol X a0 a1 rest,
    pd.getitem nd c = Ok ccol
    /\ pd.to_numpy (pd.values ccol) = Ok X
    /\ np.unique X = a0 :: a1 :: rest
    /\ pd.getitem nd' c
       = Ok {| pd.name := c; pd.dtype_of := pd.dtype_of ccol;
               pd.values := map (pd.replace2 (pd.dtype_of ccol) a0 a1 b0 b1)
                                (pd.values ccol) |}.
Proof.
  intros Hc Ho Hu. unfold remap_binary.
  rewrite Hc; cbn [rbind]. rewrite Ho; cbn [rbind]. rewrite Hu.
  cbn [List.length Nat.eqb].
  destruct (pd.getitem nd c) as [ccol|] eqn:Eg; cbn [rbind]; [|discriminate].
  destruct (pd.to_numpy (pd.values ccol)) as [X|] eqn:EX; cbn [rbind]; [|discriminate].
  unfold np.getitem.
  destruct (np.unique X) as [|a0 [|a1 rest]] eqn:EU; simpl; try discriminate.
  intros H; injection H as <-.
  exists ccol, X, a0, a1, rest. repeat split; auto.
  now rewrite getitem_setitem_same.
Qed.

(** With two bins, [KBinsDiscretizer] returns codes 0 and 1 only. *)
Lemma KBins_two_codes (Y : list Q) (codes : list nat) :
  KBinsDiscretizer_fit_transform 2 Y = Ok codes ->
  List.length codes = List.length Y /\ Forall (fun k => k = 0 \/ k = 1)%nat codes.
Proof.
  unfold KBinsDiscretizer_fit_transform. simpl Nat.ltb. cbv iota.
  intros H. bind_inv H; subst codes.
  - split; [apply length_map|]. apply Forall_forall. intros k Hk.
    apply in_map_iff in Hk as (y & <- & _). now left.
  - split; [apply length_map|]. apply Forall_forall. intros k Hk.
    apply in_map_iff in Hk as (y & <- & _).
    simpl. unfold np.searchsorted_right. simpl.
    match goal with |- context [Qle_bool ?e y] => destruct (Qle_bool e y) end;
      simpl; auto.
Qed.

(** On a category column of codes 0 and 1 the two replacements, one after
    the other, send the code 1 to [b1], and the code 0 to [b0] and, where
    [b0] is the code 1 itself, on to [b1]. *)
Lemma replace2_code (a0 a1 b0 b1 : Q) (X : list Q) (rest : list Q) (codes : list nat) :
  X = map (fun k => inject_Z (Z.of_nat k)) codes ->
  Forall (fun k => k = 0 \/ k = 1)%nat codes ->
  np.unique X = a0 :: a1 :: rest ->
  map (pd.replace2 pd.CategoricalDtype a0 a1 b0 b1) (pd.of_int_array codes)
  = map (fun k => pd.VNum (if (k =? 0)%nat
                            then if Qeq_bool b0 1 then b1 else b0
                            else b1)) codes.
Proof.
  intros HX Hcodes Hu.
  assert (Hin : forall a, In a (np.unique X) -> a = inject_Z 0 \/ a = inject_Z 1).
  { intros a Ha. apply unique_In in Ha. subst X.
    apply in_map_iff in Ha as (k & <- & Hk).
    destruct (proj1 (Forall_forall _ _) Hcodes k Hk) as [-> | ->]; auto. }
  pose proof (unique_two_lt X a0 a1 rest Hu) as Hlt.
  rewrite Hu in Hin.
  assert (E0 : a0 = inject_Z 0 /\ a1 = inject_Z 1).
  { destruct (Hin a0 (or_introl eq_refl)) as [-> | ->],
             (Hin a1 (or_intror (or_introl eq_refl))) as [-> | ->];
      auto; exfalso; revert Hlt; unfold Qlt; simpl; lia. }
  destruct E0 as [-> ->].
  unfold pd.of_int_array. rewrite map_map. apply map_ext_in.
  intros k Hk.
  destruct (proj1 (Forall_forall _ _) Hcodes k Hk) as [-> | ->].
  - cbv [pd.replace2 pd.dtype_eqb pd.replace1 Nat.eqb Z.of_nat].
    change (Qeq_bool (inject_Z 0) (inject_Z 0)) with true. cbv iota.
    change (inject_Z 1) with 1. now destruct (Qeq_bool b0 1).
  - reflexivity.
Qed.

(** The path of a binary categorical column through the three loops. *)
Lemma binary_column_chain (df : pd.DataFrame) (x_synthetic : list (list Q))
  (categorical_columns numerical_columns : list string)
  (categorical_scaler numerical_scaler : Pipeline) (newdf : pd.DataFrame)
  (c : string) (col : pd.Series) (orig : list Q) (b0 b1 : Q) :
  generate_data df x_synthetic categorical_columns numerical_columns
    categorical_scaler numerical_scaler = Ok newdf ->
  NoDup categorical_columns -> In c categorical_columns -> ~ In c numerical_columns ->
  pd.getitem df c = Ok col -> pd.to_numpy (pd.values col) = Ok orig ->
  np.unique orig = [b0; b1] ->
  exists generated gcol X Y codes a0 a1 rest,
    pd.DataFrame_of_matrix x_synthetic (pd.columns df) = Ok generated
    /\ pd.getitem generated c = Ok gcol
    /\ pd.to_numpy (pd.values gcol) = Ok X
    /\ Pipeline_inverse_transform categorical_scaler X = Ok Y
    /\ KBinsDiscretizer_fit_transform 2 Y = Ok codes
    /\ np.unique (map (fun k => inject_Z (Z.of_nat k)) codes) = a0 :: a1 :: rest
    /\ pd.getitem newdf c
       = Ok {| pd.name := c; pd.dtype_of := pd.CategoricalDtype;
               pd.values := map (pd.replace2 pd.CategoricalDtype a0 a1 b0 b1)
                                (pd.of_int_array codes) |}.
Proof.
  intros H Hnd Hin Hnum Hc Ho Hu.
  apply generate_data_Ok_inv in H as (nd0 & nd1 & nd2 & H0 & H1 & H2 & H3).
  destruct (for_each_once _ categorical_columns c nd0 nd1
              (decode_categorical_local df categorical_scaler) Hnd Hin H1)
    as (p & q & Sp & Hpq & Sq & _).
  assert (Hlen : (1 < List.length (np.unique orig))%nat) by (rewrite Hu; simpl; lia).
  destruct (decode_categorical_multi df categorical_scaler c col orig p q Hc Ho Hlen Hpq)
    as (gcol & X & Y & codes & Hg & HX & HY & HK & Hq).
  rewrite Hu in HK. simpl List.length in HK.
  pose proof (for_each_untouched _ numerical_columns c nd1 nd2
                (decode_numerical_local numerical_scaler) Hnum H2) as S2.
  destruct (for_each_once _ categorical_columns c nd2 newdf
              (remap_binary_local df) Hnd Hin H3)
    as (p' & q' & Sp' & Hpq' & Sq' & _).
  destruct (remap_binary_two df c col orig b0 b1 p' q' Hc Ho Hu Hpq')
    as (ccol & X' & a0 & a1 & rest & Hcc & HX' & HU & Hq').
  unfold same_column in *.
  assert (Ecc : ccol = {| pd.name := c; pd.dtype_of := pd.CategoricalDtype;
                          pd.values := pd.of_int_array codes |}) by congruence.
  subst ccol. simpl in *.
  rewrite to_numpy_of_int_array in HX'. injection HX' as <-.
  exists nd0, gcol, X, Y, codes, a0, a1, rest.
  repeat split; auto; congruence.
Qed.

(** C5, as the code has it.  Let [c] be a categorical column of the input
    with exactly two distinct values, [b0 < b1], its label listed once among
    the categorical columns and not among the numerical ones.  In every
    frame that [generate_data] returns, each cell of the column [c] is [b0]
    or [b1]: it is the larger value [b1] where the bin code of the synthetic
    cell is 1, and, when [b0] is not 1, the smaller value [b0] where the
    code is 0, the first bin.  When [b0] is 1 the second replacement takes
    the cells of code 0 on to [b1] as well.  The order in which the two
    values first occur in the input plays no part. *)
Theorem binary_column_values (df : pd.DataFrame) (x_synthetic : list (list Q))
  (categorical_columns numerical_columns : list string)
  (categorical_scaler numerical_scaler : Pipeline) (newdf : pd.DataFrame)
  (c : string) (col : pd.Series) (orig : list Q) (b0 b1 : Q) :
  generate_data df x_synthetic categorical_columns numerical_columns
    categorical_scaler numerical_scaler = Ok newdf ->
  NoDup categorical_columns -> In c categorical_columns -> ~ In c numerical_columns ->
  pd.getitem df c = Ok col -> pd.to_numpy (pd.values col) = Ok orig ->
  np.unique orig = [b0; b1] ->
  b0 < b1
  /\ exists generated gcol X Y codes ncol,
       pd.DataFrame_of_matrix x_synthetic (pd.columns df) = Ok generated
       /\ pd.getitem generated c = Ok gcol
       /\ pd.to_numpy (pd.values gcol) = Ok X
       /\ Pipeline_inverse_transform categorical_scaler X = Ok Y
       /\ KBinsDiscretizer_fit_transform 2 Y = Ok codes
       /\ pd.getitem newdf c = Ok ncol
       /\ pd.values ncol
          = map (fun k => pd.VNum (if (k =? 0)%nat
                                    then if Qeq_bool b0 1 then b1 else b0
                                    else b1)) codes
       /\ (forall v, In v (pd.values ncol) -> v = pd.VNum b0 \/ v = pd.VNum b1)
       /\ (~ b0 == 1 ->
           pd.values ncol
           = map (fun k => pd.VNum (if (k =? 0)%nat then b0 else b1)) codes).
Proof.
  intros H Hnd Hin Hnum Hc Ho Hu.
  split; [exact (unique_two_lt orig b0 b1 [] Hu)|].
  destruct (binary_column_chain df x_synthetic categorical_columns numerical_columns
              categorical_scaler numerical_scaler newdf c col orig b0 b1
              H Hnd Hin Hnum Hc Ho Hu)
    as (generated & gcol & X & Y & codes & a0 & a1 & rest & H0 & Hg & HX & HY & HK & HU & Hn).
  exists generated, gcol, X, Y, codes.
  eexists. do 6 (split; [eassumption|]).
  cbn [pd.values].
  rewrite (replace2_code a0 a1 b0 b1 _ rest codes eq_refl)
    by (auto; now apply KBins_two_codes in HK).
  split; [reflexivity|]. split.
  - intros v Hv. apply in_map_iff in Hv as (k & <- & _).
    destruct (k =? 0)%nat, (Qeq_bool b0 1); auto.
  - intros Hb. apply map_ext. intros k.
    destruct (Qeq_bool b0 1) eqn:E; [|reflexivity].
    apply Qeq_bool_iff in E. contradiction.
Qed.

(** The binary column [c] of [frame_C5]. *)
Lemma binary_column_values_witness :
  exists newdf,
    generate_data frame_C5 [[-(1)]; [1]; [1 # 3]] ["c"%string] []
      (fst scalers_C5) (snd scalers_C5) = Ok newdf
    /\ 3 < 5
    /\ exists generated gcol X Y codes ncol,
         pd.DataFrame_of_matrix [[-(1)]; [1]; [1 # 3]] (pd.columns frame_C5) = Ok generated
         /\ pd.getitem generated "c" = Ok gcol
         /\ pd.to_numpy (pd.values gcol) = Ok X
         /\ Pipeline_inverse_transform (fst scalers_C5) X = Ok Y
         /\ KBinsDiscretizer_fit_transform 2 Y = Ok codes
         /\ pd.getitem newdf "c" = Ok ncol
         /\ pd.values ncol
            = map (fun k => pd.VNum (if (k =? 0)%nat
                                      then if Qeq_bool 3 1 then 5 else 3
                                      else 5)) codes
         /\ (forall v, In v (pd.values ncol) -> v = pd.VNum 3 \/ v = pd.VNum 5)
         /\ (~ 3 == 1 ->
             pd.values ncol
             = map (fun k => pd.VNum (if (k =? 0)%nat then 3 else 5)) codes).
Proof.
  eexists. split.
  - vm_compute. reflexivity.
  - apply (binary_column_values frame_C5 [[-(1)]; [1]; [1 # 3]] ["c"%string] []
             (fst scalers_C5) (snd scalers_C5) _ "c"%string
             {| pd.name := "c"; pd.dtype_of := pd.CategoricalDtype;
                pd.values := [pd.VNum 5; pd.VNum 3; pd.VNum 3; pd.VNum 5] |}
             [5; 3; 3; 5] 3 5).
    + vm_compute. reflexivity.
    + repeat constructor; simpl; tauto.
    + simpl; auto.
    + simpl; tauto.
    + reflexivity.
    + reflexivity.
    + reflexivity.
Defined.

(** The first value seen in the column [c] of [frame_C5] is 5.  The first
    synthetic row falls into the first bin, code 0, and is decoded as 3. *)
Lemma first_seen_is_not_first_bin :
  pd.iloc0 frame_C5 "c" = Ok (pd.VNum 5)
  /\ (Y <- Pipeline_inverse_transform (fst scalers_C5) [-(1); 1; 1 # 3] ;;
      KBinsDiscretizer_fit_transform 2 Y) = Ok [0; 1; 1]%nat
  /\ generate_data frame_C5 [[-(1)]; [1]; [1 # 3]] ["c"%string] []
       (fst scalers_C5) (snd scalers_C5)
     = Ok [ {| pd.name := "c"; pd.dtype_of := pd.CategoricalDtype;
               pd.values := [pd.VNum 3; pd.VNum 5; pd.VNum 5] |} ]
  /\ ~ 3 == 5.
Proof. repeat split; try (vm_compute; reflexivity). intros H; discriminate H. Qed.

(** ** Fitted scalers *)

Lemma fit_transform_unfit (t : transformer) (X : list Q) :
  fit_transform t X = fit_transform (unfit t) X.
Proof. destruct t as [[fr cl sm]|[n rq]]; reflexivity. Qed.

Lemma fit_transform_fitted (t t' : transformer) (X Y : list Q) :
  fit_transform t X = Ok (t', Y) ->
  transformer_fitted t' = true /\ unfit t' = unfit t /\ List.length Y = List.length X.
Proof.
  destruct t as [s|q]; simpl; intros H.
  - destruct (MinMaxScaler_fit s X) as [s'|] eqn:Ef; cbn [rbind] in H; [|discriminate].
    apply MinMaxScaler_fit_inv in Ef as (_ & _ & dmin & dmax & _ & _ & ->).
    unfold MinMaxScaler_transform in H. simpl in H.
    destruct (check_array X); cbn [rbind] in H; [|discriminate].
    destruct (feature_range s). injection H as <- <-.
    repeat split. simpl. now rewrite length_map.
  - unfold QuantileTransformer_fit in H.
    destruct (n_quantiles q <? 1)%nat; [discriminate|].
    destruct (check_array X) eqn:Ec; cbn [rbind] in H; [|discriminate].
    unfold QuantileTransformer_transform in H. simpl in H. rewrite Ec in H.
    cbn [rbind] in H. injection H as <- <-.
    repeat split. now rewrite length_map.
Qed.

Lemma Pipeline_fit_transform_unfit (p : Pipeline) (X : list Q) :
  Pipeline_fit_transform p X = Pipeline_fit_transform (map unfit p) X.
Proof.
  revert X. induction p as [|t p IH]; intros X; simpl; [reflexivity|].
  rewrite <- fit_transform_unfit.
  destruct (fit_transform t X) as [[t' Y]|]; cbn [rbind]; [|reflexivity].
  now rewrite IH.
Qed.

Lemma Pipeline_fit_transform_fitted (p p' : Pipeline) (X Y : list Q) :
  Pipeline_fit_transform p X = Ok (p', Y) ->
  Pipeline_fitted p' = true /\ map unfit p' = map unfit p
  /\ List.length Y = List.length X.
Proof.
  revert p' X Y. induction p as [|t p IH]; intros p' X Y; simpl; intros H.
  - injection H as <- <-. auto.
  - destruct (fit_transform t X) as [[t' Y1]|] eqn:Et; cbn [rbind] in H; [|discriminate].
    destruct (Pipeline_fit_transform p Y1) as [[p1 Z]|] eqn:Ep; cbn [rbind] in H;
      [|discriminate].
    injection H as <- <-.
    apply fit_transform_fitted in Et as (F1 & U1 & L1).
    apply IH in Ep as (F2 & U2 & L2).
    simpl. rewrite F1, F2, U1, U2. repeat split. congruence.
Qed.

Lemma check_array_Ok (X : list Q) : X <> [] -> check_array X = Ok tt.
Proof. destruct X; [congruence|reflexivity]. Qed.

Lemma inverse_transform_fitted (t : transformer) (X : list Q) :
  transformer_fitted t = true -> X <> [] ->
  exists Y, inverse_transform t X = Ok Y /\ List.length Y = List.length X.
Proof.
  intros Hf HX. destruct t as [s|q]; simpl in *.
  - unfold MinMaxScaler_inverse_transform.
    destruct (scale_min_ s) as [[sc mn]|]; [|discriminate].
    rewrite (check_array_Ok X HX). cbn [rbind].
    eexists. split; [reflexivity|apply length_map].
  - unfold QuantileTransformer_inverse_transform.
    destruct (references_quantiles_ q) as [[r qs]|]; [|discriminate].
    rewrite (check_array_Ok X HX). cbn [rbind].
    eexists. split; [reflexivity|apply length_map].
Qed.

Lemma nonempty_length {A B : Type} (X : list A) (Y : list B) :
  List.length Y = List.length X -> X <> [] -> Y <> [].
Proof. destruct X, Y; simpl; congruence. Qed.

Lemma Pipeline_inverse_transform_fitted (p : Pipeline) (X : list Q) :
  Pipeline_fitted p = true -> X <> [] ->
  exists Y, Pipeline_inverse_transform p X = Ok Y /\ List.length Y = List.length X.
Proof.
  unfold Pipeline_inverse_transform, Pipeline_fitted. intros Hf.
  assert (Hr : forall t, In t (rev p) -> transformer_fitted t = true).
  { intros t Ht. apply in_rev in Ht. exact (proj1 (forallb_forall _ _) Hf t Ht). }
  clear Hf. revert X. induction (rev p) as [|t l IH]; intros X HX; simpl.
  - now exists X.
  - destruct (inverse_transform_fitted t X (Hr t (or_introl eq_refl)) HX) as (Y & -> & HL).
    cbn [rbind].
    destruct (IH (fun t' Ht' => Hr t' (or_intror Ht')) Y (nonempty_length X Y HL HX))
      as (Z & -> & HL').
    exists Z. split; [reflexivity|congruence].
Qed.

(** The loops of [data_transformation]: every column they visit is a
    numeric column of the frame, and the scaler they leave is fitted. *)
Lemma scale_loop_fitted (df : pd.DataFrame) (cs : list string)
  (sx sx' : pd.DataFrame) (sc sc' : Pipeline) :
  for_each cs (scale_column df) (sx, sc) = Ok (sx', sc') ->
  (cs <> [] -> Pipeline_fitted sc' = true)
  /\ map unfit sc' = map unfit sc
  /\ forall c, In c cs ->
       exists col X, pd.getitem df c = Ok col /\ pd.to_numpy (pd.values col) = Ok X.
Proof.
  revert sx sc. induction cs as [|c cs IH]; intros sx sc; simpl; intros H.
  - injection H as <- <-. repeat split; [congruence|tauto].
  - destruct (pd.getitem df c) as [col|] eqn:Ec; cbn [rbind] in H; [|discriminate].
    destruct (pd.to_numpy (pd.values col)) as [X|] eqn:EX; cbn [rbind] in H; [|discriminate].
    destruct (Pipeline_fit_transform sc X) as [[sc1 Y]|] eqn:Ef; cbn [rbind] in H;
      [|discriminate].
    apply Pipeline_fit_transform_fitted in Ef as (F1 & U1 & _).
    destruct (IH _ _ H) as (F2 & U2 & N2).
    split; [|split].
    + intros _. destruct cs as [|c' cs'].
      * simpl in H. injection H as _ <-. exact F1.
      * apply F2. discriminate.
    + congruence.
    + intros c0 [<-|Hc0]; [now exists col, X|now apply N2].
Qed.

Lemma data_transformation_inv (df : pd.DataFrame)
  (numerical_columns categorical_columns : list string)
  (scaled_X : list (list Q)) (categorical_scaler numerical_scaler : Pipeline) :
  data_transformation df numerical_columns categorical_columns
  = Ok (scaled_X, categorical_scaler, numerical_scaler) ->
  (categorical_columns <> [] -> Pipeline_fitted categorical_scaler = true)
  /\ (numerical_columns <> [] -> Pipeline_fitted numerical_scaler = true)
  /\ (forall c, In c (categorical_columns ++ numerical_columns) ->
        exists col X, pd.getitem df c = Ok col /\ pd.to_numpy (pd.values col) = Ok X).
Proof.
  unfold data_transformation. intros H.
  destruct (for_each categorical_columns _ _) as [[sx1 sc1]|] eqn:E1;
    cbn [rbind] in H; [|discriminate].
  destruct (for_each numerical_columns _ _) as [[sx2 sc2]|] eqn:E2;
    cbn [rbind] in H; [|discriminate].
  destruct (pd.to_matrix sx2); cbn [rbind] in H; [|discriminate].
  injection H as _ <- <-.
  apply scale_loop_fitted in E1 as (F1 & _ & N1).
  apply scale_loop_fitted in E2 as (F2 & _ & N2).
  repeat split; auto.
  intros c Hc. apply in_app_or in Hc as [Hc|Hc]; auto.
Qed.

(** ** Frames of numbers, and loops that go through *)

Lemma numeric_frame_setitem (nd : pd.DataFrame) (labels : list string)
  (x : string) (dt : pd.dtype) (Y : list Q) :
  numeric_frame nd labels -> Y <> [] ->
  numeric_frame (pd.setitem nd x dt (pd.of_numpy Y)) labels.
Proof.
  intros Hn HY c Hc. destruct (string_dec c x) as [->|Hne].
  - eexists _, Y. rewrite getitem_setitem_same. repeat split; auto.
  - destruct (Hn c Hc) as (col & X & Hg & Hv & HX).
    exists col, X. rewrite getitem_setitem_other by exact Hne. auto.
Qed.

Lemma DataFrame_of_matrix_getitem (m : list (list Q)) (labels : list string)
  (nd : pd.DataFrame) (c : string) :
  pd.DataFrame_of_matrix m labels = Ok nd -> In c labels ->
  exists j, pd.getitem nd c
            = Ok {| pd.name := c; pd.dtype_of := pd.float64;
                    pd.values := pd.of_numpy (map (fun row => nth j row 0) m) |}.
Proof.
  unfold pd.DataFrame_of_matrix. destruct (forallb _ m); [|discriminate].
  intros H; injection H as <-. unfold pd.getitem.
  generalize 0%nat. induction labels as [|l labels IH]; intros start Hin; [destruct Hin|].
  simpl. destruct (String.eqb l c) eqn:E.
  - apply String.eqb_eq in E. subst l. exists start.
    unfold pd.of_numpy. now rewrite map_map.
  - destruct Hin as [->|Hin]; [now rewrite String.eqb_refl in E|].
    exact (IH (S start) Hin).
Qed.

Lemma DataFrame_of_matrix_numeric (m : list (list Q)) (labels : list string)
  (nd : pd.DataFrame) :
  pd.DataFrame_of_matrix m labels = Ok nd -> m <> [] -> numeric_frame nd labels.
Proof.
  intros H Hm c Hc.
  destruct (DataFrame_of_matrix_getitem m labels nd c H Hc) as (j & Hj).
  eexists _, _. split; [exact Hj|]. split; [reflexivity|].
  destruct m; [congruence|discriminate].
Qed.

Lemma for_each_progress {A S : Type} (I : S -> Prop) (body : A -> S -> result S)
  (xs : list A) :
  (forall x s, In x xs -> I s -> exists s', body x s = Ok s' /\ I s') ->
  forall s, I s -> exists s', for_each xs body s = Ok s' /\ I s'.
Proof.
  induction xs as [|x xs IH]; intros Hb s Hs; simpl.
  - now exists s.
  - destruct (Hb x s (or_introl eq_refl) Hs) as (s1 & -> & H1). cbn [rbind].
    apply IH; auto. intros y t Hy. apply Hb. now right.
Qed.

Lemma for_each_raises {A S : Type} (I : S -> Prop) (body : A -> S -> result S)
  (xs : list A) (c : A) (e : exn) :
  In c xs ->
  (forall x s, In x xs -> I s -> (exists s', body x s = Ok s' /\ I s') \/ body x s = Raise e) ->
  (forall s, I s -> body c s = Raise e) ->
  forall s, I s -> for_each xs body s = Raise e.
Proof.
  induction xs as [|x xs IH]; intros Hin Hb Hc s Hs; simpl; [destruct Hin|].
  destruct (Hb x s (or_introl eq_refl) Hs) as [(s1 & E & H1)| E]; rewrite E; cbn [rbind];
    [|reflexivity].
  destruct Hin as [->|Hin].
  - rewrite (Hc s Hs) in E. discriminate.
  - apply IH; auto. intros y t Hy. apply Hb. now right.
Qed.

Lemma KBins_progress (n : nat) (Y : list Q) :
  (2 <= n)%nat -> Y <> [] ->
  exists codes, KBinsDiscretizer_fit_transform n Y = Ok codes
                /\ List.length codes = List.length Y.
Proof.
  intros Hn HY. unfold KBinsDiscretizer_fit_transform.
  destruct (Nat.ltb_spec n 2) as [Hlt|_]; [lia|].
  destruct Y as [|y Y]; [congruence|]. simpl.
  destruct (Qeq_bool _ _); eexists; (split; [reflexivity|]); simpl; now rewrite length_map.
Qed.

Lemma KBins_length (n : nat) (Y : list Q) (codes : list nat) :
  KBinsDiscretizer_fit_transform n Y = Ok codes -> List.length codes = List.length Y.
Proof.
  unfold KBinsDiscretizer_fit_transform. intros H. bind_inv H; subst codes;
    apply length_map.
Qed.

Lemma of_int_array_of_numpy (codes : list nat) :
  pd.of_int_array codes = pd.of_numpy (map (fun k => inject_Z (Z.of_nat k)) codes).
Proof. unfold pd.of_int_array, pd.of_numpy. now rewrite map_map. Qed.

Lemma decode_categorical_progress (df : pd.DataFrame) (categorical_scaler : Pipeline)
  (labels : list string) (c : string) (nd : pd.DataFrame) :
  Pipeline_fitted categorical_scaler = true ->
  (exists col X, pd.getitem df c = Ok col /\ pd.to_numpy (pd.values col) = Ok X) ->
  In c labels -> numeric_frame nd labels ->
  exists nd', decode_categorical df categorical_scaler c nd = Ok nd'
              /\ numeric_frame nd' labels.
Proof.
  intros Hf (col & orig & Hc & Ho) Hin Hn.
  unfold decode_categorical. rewrite Hc; cbn [rbind]. rewrite Ho; cbn [rbind].
  destruct (Nat.ltb_spec 1 (List.length (np.unique orig))) as [Hlt|_]; [|now exists nd].
  destruct (Hn c Hin) as (gcol & X & Hg & Hv & HX).
  rewrite Hg; cbn [rbind]. rewrite Hv, to_numpy_of_numpy; cbn [rbind].
  destruct (Pipeline_inverse_transform_fitted categorical_scaler X Hf HX) as (Y & -> & HL).
  cbn [rbind]. rewrite getitem_setitem_same; cbn [rbind pd.values].
  rewrite to_numpy_of_numpy; cbn [rbind].
  pose proof (nonempty_length X Y HL HX) as HY.
  destruct (KBins_progress (List.length (np.unique orig)) Y Hlt HY) as (codes & -> & HLc).
  cbn [rbind]. rewrite getitem_setitem_same; cbn [rbind pd.values].
  eexists. split; [reflexivity|].
  rewrite of_int_array_of_numpy.
  assert (Hcodes : map (fun k => inject_Z (Z.of_nat k)) codes <> []).
  { apply (nonempty_length Y); [now rewrite length_map|exact HY]. }
  repeat apply numeric_frame_setitem; auto.
Qed.

Lemma decode_numerical_progress (numerical_scaler : Pipeline)
  (labels : list string) (c : string) (nd : pd.DataFrame) :
  Pipeline_fitted numerical_scaler = true ->
  In c labels -> numeric_frame nd labels ->
  exists nd', decode_numerical numerical_scaler c nd = Ok nd'
              /\ numeric_frame nd' labels.
Proof.
  intros Hf Hin Hn. unfold decode_numerical.
  destruct (Hn c Hin) as (gcol & X & Hg & Hv & HX).
  rewrite Hg; cbn [rbind]. rewrite Hv, to_numpy_of_numpy; cbn [rbind].
  destruct (Pipeline_inverse_transform_fitted numerical_scaler X Hf HX) as (Y & -> & HL).
  cbn [rbind]. eexists. split; [reflexivity|].
  apply numeric_frame_setitem; auto. exact (nonempty_length X Y HL HX).
Qed.

Lemma replace2_of_numpy (dt : pd.dtype) (a0 a1 b0 b1 : Q) (X : list Q) :
  exists Y,
    map (pd.replace2 dt a0 a1 b0 b1) (pd.of_numpy X) = pd.of_numpy Y
    /\ List.length Y = List.length X.
Proof.
  induction X as [|x X (Y & E & HL)]; [now exists []|].
  assert (Hx : exists y, pd.replace2 dt a0 a1 b0 b1 (pd.VNum x) = pd.VNum y).
  { unfold pd.replace2, pd.replace1.
    destruct (pd.dtype_eqb dt pd.CategoricalDtype).
    - destruct (Qeq_bool x a0); [destruct (Qeq_bool b0 a1)|destruct (Qeq_bool x a1)];
        eauto.
    - destruct (Qeq_bool x a0); [|destruct (Qeq_bool x a1)]; eauto. }
  destruct Hx as (y & Ey). exists (y :: Y). simpl. rewrite Ey.
  rewrite E. split; [reflexivity|]. now rewrite HL.
Qed.

(** The third loop either goes through or stops on a missing second code. *)
Lemma remap_binary_step (df : pd.DataFrame)
  (labels : list string) (c : string) (nd : pd.DataFrame) :
  (exists col X, pd.getitem df c = Ok col /\ pd.to_numpy (pd.values col) = Ok X) ->
  In c labels -> numeric_frame nd labels ->
  (exists nd', remap_binary df c nd = Ok nd' /\ numeric_frame nd' labels)
  \/ remap_binary df c nd = Raise (IndexError "index out of bounds").
Proof.
  intros (col & orig & Hc & Ho) Hin Hn.
  unfold remap_binary. rewrite Hc; cbn [rbind]. rewrite Ho; cbn [rbind].
  destruct (Nat.eqb_spec (List.length (np.unique orig)) 2) as [E2|_];
    [|left; now exists nd].
  destruct (Hn c Hin) as (gcol & X & Hg & Hv & HX).
  rewrite Hg; cbn [rbind]. rewrite Hv, to_numpy_of_numpy; cbn [rbind].
  unfold np.getitem.
  destruct (np.unique X) as [|a0 [|a1 rest]]; simpl; auto.
  destruct (np.unique orig) as [|b0 [|b1 rest']]; simpl in *; try discriminate.
  left. eexists. split; [reflexivity|].
  destruct (replace2_of_numpy (pd.dtype_of gcol) a0 a1 b0 b1 X) as (Y & EY & HL).
  rewrite EY. apply numeric_frame_setitem; auto.
  apply (nonempty_length X); [exact HL|exact HX].
Qed.

(** ** Functions of numbers respect [==] *)

Lemma Qle_bool_compat (a b x y : Q) : a == b -> x == y -> Qle_bool a x = Qle_bool b y.
Proof.
  intros Hab Hxy.
  destruct (Qle_bool a x) eqn:E1, (Qle_bool b y) eqn:E2; auto.
  - apply Qle_bool_iff in E1. rewrite Hab, Hxy in E1. apply Qle_bool_iff in E1. congruence.
  - apply Qle_bool_iff in E2. rewrite <- Hab, <- Hxy in E2. apply Qle_bool_iff in E2.
    congruence.
Qed.

Lemma Qeq_bool_compat (a b x y : Q) : a == b -> x == y -> Qeq_bool a x = Qeq_bool b y.
Proof.
  intros Hab Hxy.
  destruct (Qeq_bool a x) eqn:E1, (Qeq_bool b y) eqn:E2; auto.
  - apply Qeq_bool_iff in E1. rewrite Hab, Hxy in E1. apply Qeq_bool_iff in E1. congruence.
  - apply Qeq_bool_iff in E2. rewrite <- Hab, <- Hxy in E2. apply Qeq_bool_iff in E2.
    congruence.
Qed.

Lemma interp_from_compat (x y x0 f0 : Q) (pts : list (Q * Q)) :
  x == y -> np.interp_from x x0 f0 pts == np.interp_from y x0 f0 pts.
Proof.
  intros Hxy. revert x0 f0. induction pts as [|[x1 f1] pts IH]; intros x0 f0; simpl.
  - reflexivity.
  - rewrite (Qle_bool_compat x1 x1 x y (Qeq_refl _) Hxy).
    destruct (Qle_bool x1 y); [apply IH|].
    rewrite (Qeq_bool_compat x0 x0 x y (Qeq_refl _) Hxy).
    destruct (Qeq_bool x0 y); [reflexivity|]. now rewrite Hxy.
Qed.

Lemma interp_compat (x y : Q) (xp fp : list Q) :
  x == y -> np.interp x xp fp == np.interp y xp fp.
Proof.
  intros Hxy. unfold np.interp. destruct (combine xp fp) as [|[x0 f0] pts]; [reflexivity|].
  unfold np.ltb. rewrite (Qle_bool_compat x0 x0 x y (Qeq_refl _) Hxy).
  destruct (Qle_bool x0 y); simpl; [now apply interp_from_compat|reflexivity].
Qed.

Lemma inverse_transform_col_compat (r q : list Q) (x y : Q) :
  x == y -> inverse_transform_col r q x == inverse_transform_col r q y.
Proof.
  intros Hxy. unfold inverse_transform_col.
  rewrite (Qeq_bool_compat x y 0 0 Hxy (Qeq_refl _)).
  destruct (Qeq_bool y 0); [reflexivity|].
  rewrite (Qeq_bool_compat x y 1 1 Hxy (Qeq_refl _)).
  destruct (Qeq_bool y 1); [reflexivity|]. now apply interp_compat.
Qed.

(** ** Constant columns *)

Lemma constant_map (f : Q -> Q) (X : list Q) :
  (forall x y, x == y -> f x == f y) -> constant X -> constant (map f X).
Proof.
  intros Hf HX a b Ha Hb.
  apply in_map_iff in Ha as (x & <- & Hx). apply in_map_iff in Hb as (y & <- & Hy).
  apply Hf, HX; auto.
Qed.

Lemma inverse_transform_constant (t : transformer) (X Y : list Q) :
  inverse_transform t X = Ok Y -> constant X -> constant Y.
Proof.
  destruct t as [s|q]; simpl.
  - unfold MinMaxScaler_inverse_transform.
    destruct (scale_min_ s) as [[sc mn]|]; [|discriminate].
    destruct (check_array X); cbn [rbind]; [|discriminate].
    intros H; injection H as <-. apply constant_map.
    intros x y Hxy. now rewrite Hxy.
  - unfold QuantileTransformer_inverse_transform.
    destruct (references_quantiles_ q) as [[r qs]|]; [|discriminate].
    destruct (check_array X); cbn [rbind]; [|discriminate].
    intros H; injection H as <-. apply constant_map.
    apply inverse_transform_col_compat.
Qed.

Lemma Pipeline_inverse_transform_constant (p : Pipeline) (X Y : list Q) :
  Pipeline_inverse_transform p X = Ok Y -> constant X -> constant Y.
Proof.
  unfold Pipeline_inverse_transform. revert X.
  induction (rev p) as [|t l IH]; intros X; simpl.
  - intros H; now injection H as <-.
  - destruct (inverse_transform t X) as [Z|] eqn:E; cbn [rbind]; [|discriminate].
    intros H HX. apply (IH Z H). exact (inverse_transform_constant t X Z E HX).
Qed.

Lemma fold_left_Qmin_constant (l : list Q) (a acc : Q) :
  (forall y, In y l -> y == a) -> acc == a -> fold_left Qmin l acc == a.
Proof.
  revert acc. induction l as [|y l IH]; intros acc Hl Hacc; simpl; [exact Hacc|].
  apply IH; [intros z Hz; apply Hl; now right|].
  rewrite Hacc, (Hl y (or_introl eq_refl)). apply Q.min_id.
Qed.

Lemma fold_left_Qmax_constant (l : list Q) (a acc : Q) :
  (forall y, In y l -> y == a) -> acc == a -> fold_left Qmax l acc == a.
Proof.
  revert acc. induction l as [|y l IH]; intros acc Hl Hacc; simpl; [exact Hacc|].
  apply IH; [intros z Hz; apply Hl; now right|].
  rewrite Hacc, (Hl y (or_introl eq_refl)). apply Q.max_id.
Qed.

(** A constant feature falls into the single bin 0. *)
Lemma KBins_constant (n : nat) (Y : list Q) (codes : list nat) :
  KBinsDiscretizer_fit_transform n Y = Ok codes -> constant Y ->
  codes = map (fun _ => 0%nat) Y.
Proof.
  unfold KBinsDiscretizer_fit_transform. intros H HY.
  destruct (n <? 2)%nat; [discriminate|].
  destruct Y as [|y Y]; [discriminate|]. simpl in H.
  assert (E : Qeq_bool (fold_left Qmin Y y) (fold_left Qmax Y y) = true).
  { apply Qeq_bool_iff.
    rewrite (fold_left_Qmin_constant Y y y), (fold_left_Qmax_constant Y y y);
      try reflexivity; intros z Hz; apply HY; simpl; auto. }
  rewrite E in H. now injection H as <-.
Qed.

Lemma unique_repeat {A : Type} (a : Q) (l : list A) :
  l <> [] -> np.unique (map (fun _ => a) l) = [a].
Proof.
  induction l as [|y l IH]; [congruence|]. intros _.
  destruct l as [|y' l]; [reflexivity|].
  change (np.insert_unique a (np.unique (map (fun _ => a) (y' :: l))) = [a]).
  rewrite IH by discriminate. simpl.
  now rewrite (proj1 (Qeq_alt a a) (Qeq_refl a)).
Qed.

Lemma unique_constant_codes (Y : list Q) :
  Y <> [] ->
  np.unique (map (fun k => inject_Z (Z.of_nat k)) (map (fun _ => 0%nat) Y)) = [0].
Proof. intros HY. rewrite map_map. simpl. now apply unique_repeat. Qed.

Lemma remap_binary_one_code (df : pd.DataFrame) (c : string) (col : pd.Series)
  (orig : list Q) (Y : list Q) (nd : pd.DataFrame) :
  pd.getitem df c = Ok col -> pd.to_numpy (pd.values col) = Ok orig ->
  List.length (np.unique orig) = 2%nat -> Y <> [] ->
  pd.getitem nd c
  = Ok {| pd.name := c; pd.dtype_of := pd.CategoricalDtype;
          pd.values := pd.of_int_array (map (fun _ => 0%nat) Y) |} ->
  remap_binary df c nd = Raise (IndexError "index out of bounds").
Proof.
  intros Hc Ho Hu HY Hg. unfold remap_binary.
  rewrite Hc; cbn [rbind]. rewrite Ho; cbn [rbind]. rewrite Hu. simpl Nat.eqb. cbv iota.
  rewrite Hg; cbn [rbind pd.values]. rewrite to_numpy_of_int_array; cbn [rbind].
  now rewrite (unique_constant_codes Y HY).
Qed.

(** ** The remapping of a binary column whose synthetic cells are all equal *)

Lemma constant_column_raises (df : pd.DataFrame) (x_synthetic : list (list Q))
  (categorical_columns numerical_columns : list string)
  (scaled_X : list (list Q)) (categorical_scaler numerical_scaler : Pipeline)
  (generated : pd.DataFrame) (c : string) (col gcol : pd.Series) (orig X : list Q) :
  NoDup categorical_columns -> ~ In c numerical_columns ->
  incl categorical_columns (pd.columns df) -> incl numerical_columns (pd.columns df) ->
  data_transformation df numerical_columns categorical_columns
  = Ok (scaled_X, categorical_scaler, numerical_scaler) ->
  pd.DataFrame_of_matrix x_synthetic (pd.columns df) = Ok generated ->
  x_synthetic <> [] ->
  In c categorical_columns ->
  pd.getitem df c = Ok col -> pd.to_numpy (pd.values col) = Ok orig ->
  List.length (np.unique orig) = 2%nat ->
  pd.getitem generated c = Ok gcol -> pd.to_numpy (pd.values gcol) = Ok X ->
  constant X ->
  (exists Y, Pipeline_inverse_transform categorical_scaler X = Ok Y
             /\ KBinsDiscretizer_fit_transform 2 Y = Ok (map (fun _ => 0%nat) Y))
  /\ generate_data df x_synthetic categorical_columns numerical_columns
       categorical_scaler numerical_scaler
     = Raise (IndexError "index out of bounds").
Proof.
  intros Hnd Hnum Hcat_incl Hnum_incl Hdt Hgen Hne Hin Hc Ho Hu Hg HX Hconst.
  destruct (data_transformation_inv df numerical_columns categorical_columns
              scaled_X categorical_scaler numerical_scaler Hdt) as (Fc & Fn & Hdf).
  assert (Fcs : Pipeline_fitted categorical_scaler = true).
  { apply Fc. intros ->. destruct Hin. }
  pose proof (DataFrame_of_matrix_numeric x_synthetic (pd.columns df) generated Hgen Hne)
    as N0.
  (* first loop *)
  destruct (for_each_progress (fun d => numeric_frame d (pd.columns df))
              (decode_categorical df categorical_scaler) categorical_columns
              (fun x s Hx Hs =>
                 decode_categorical_progress df categorical_scaler (pd.columns df) x s Fcs
                   (Hdf x (in_or_app _ _ x (or_introl Hx))) (Hcat_incl x Hx) Hs)
              generated N0) as (nd1 & H1 & N1).
  (* second loop *)
  assert (Fns : forall x, In x numerical_columns -> Pipeline_fitted numerical_scaler = true).
  { intros x Hx. apply Fn. intros E. rewrite E in Hx. destruct Hx. }
  destruct (for_each_progress (fun d => numeric_frame d (pd.columns df))
              (decode_numerical numerical_scaler) numerical_columns
              (fun x s Hx Hs =>
                 decode_numerical_progress numerical_scaler (pd.columns df) x s
                   (Fns x Hx) (Hnum_incl x Hx) Hs)
              nd1 N1) as (nd2 & H2 & N2).
  (* the column [c] after the first two loops *)
  destruct (for_each_once _ categorical_columns c generated nd1
              (decode_categorical_local df categorical_scaler) Hnd Hin H1)
    as (p & q & Sp & Hpq & Sq & _).
  assert (Hlen : (1 < List.length (np.unique orig))%nat) by lia.
  destruct (decode_categorical_multi df categorical_scaler c col orig p q Hc Ho Hlen Hpq)
    as (gcol' & X' & Y & codes & Hg' & HX' & HY & HK & Hq).
  unfold same_column in Sp, Sq.
  assert (gcol' = gcol) by congruence. subst gcol'.
  assert (X' = X) by congruence. subst X'.
  rewrite Hu in HK.
  pose proof (Pipeline_inverse_transform_constant categorical_scaler X Y HY Hconst) as HYc.
  pose proof (KBins_constant 2 Y codes HK HYc) as Hcodes. subst codes.
  assert (HYne : Y <> []).
  { destruct Y; [|discriminate].
    unfold KBinsDiscretizer_fit_transform in HK. simpl in HK. discriminate. }
  pose proof (for_each_untouched _ numerical_columns c nd1 nd2
                (decode_numerical_local numerical_scaler) Hnum H2) as S2.
  unfold same_column in S2.
  split; [now exists Y|].
  (* third loop *)
  unfold generate_data. rewrite Hgen; cbn [rbind]. rewrite H1; cbn [rbind].
  rewrite H2; cbn [rbind].
  rewrite (for_each_raises
             (fun d => numeric_frame d (pd.columns df)
                       /\ pd.getitem d c
                          = Ok {| pd.name := c; pd.dtype_of := pd.CategoricalDtype;
                                  pd.values := pd.of_int_array (map (fun _ => 0%nat) Y) |})
             (remap_binary df) categorical_columns c
             (IndexError "index out of bounds") Hin); [reflexivity| | |].
  - intros x s Hx [Ns Hs]. destruct (string_dec x c) as [->|Hne'].
    + right. exact (remap_binary_one_code df c col orig Y s Hc Ho Hu HYne Hs).
    + destruct (remap_binary_step df (pd.columns df) x s
                  (Hdf x (in_or_app _ _ x (or_introl Hx))) (Hcat_incl x Hx) Ns)
        as [(s' & Hs' & Ns')|Hr]; [left|now right].
      exists s'. repeat split; auto.
      destruct (remap_binary_local df x s s' Hs') as [_ Ho'].
      rewrite <- Hs. apply Ho'. congruence.
  - intros s [_ Hs]. exact (remap_binary_one_code df c col orig Y s Hc Ho Hu HYne Hs).
  - split; [exact N2|]. congruence.
Qed.

Lemma two_codes_present (codes : list nat) (a0 a1 : Q) (rest : list Q) :
  Forall (fun k => k = 0 \/ k = 1)%nat codes ->
  np.unique (map (fun k => inject_Z (Z.of_nat k)) codes) = a0 :: a1 :: rest ->
  In 0%nat codes /\ In 1%nat codes.
Proof.
  intros Hcodes Hu.
  pose proof (unique_two_lt _ a0 a1 rest Hu) as Hlt.
  assert (Hin : forall a, In a [a0; a1] ->
                  exists k, In k codes /\ a = inject_Z (Z.of_nat k)).
  { intros a Ha.
    assert (Ha' : In a (np.unique (map (fun k => inject_Z (Z.of_nat k)) codes)))
      by (rewrite Hu; simpl in *; tauto).
    apply unique_In in Ha'. apply in_map_iff in Ha' as (k & <- & Hk). now exists k. }
  destruct (Hin a0 (or_introl eq_refl)) as (k0 & Hk0 & E0).
  destruct (Hin a1 (or_intror (or_introl eq_refl))) as (k1 & Hk1 & E1).
  subst a0 a1.
  destruct (proj1 (Forall_forall _ _) Hcodes k0 Hk0) as [-> | ->],
           (proj1 (Forall_forall _ _) Hcodes k1 Hk1) as [-> | ->];
    auto; exfalso; revert Hlt; unfold Qlt; simpl; lia.
Qed.

(** C10.  Let [c] be a categorical column with exactly two distinct values
    in a frame with distinct labels, and take the scalers
    [data_transformation] returns for the frame.  Whenever [generate_data]
    returns a frame, the bin codes of the synthetic column [c] hold both 0
    and 1.  When the cells of the synthetic column [c] are all equal, every
    cell gets the bin code 0 and [generate_data] raises the [IndexError] of
    the second lookup in the distinct codes: no frame is returned. *)
Theorem binary_remap_needs_two_codes (df : pd.DataFrame) (x_synthetic : list (list Q))
  (scaled_X : list (list Q)) (categorical_scaler numerical_scaler : Pipeline)
  (generated : pd.DataFrame) (c : string) (col gcol : pd.Series) (orig X : list Q) :
  NoDup (pd.columns df) ->
  data_transformation df (fst (columns_type df)) (snd (columns_type df))
  = Ok (scaled_X, categorical_scaler, numerical_scaler) ->
  pd.DataFrame_of_matrix x_synthetic (pd.columns df) = Ok generated ->
  x_synthetic <> [] ->
  In c (snd (columns_type df)) ->
  pd.getitem df c = Ok col -> pd.to_numpy (pd.values col) = Ok orig ->
  List.length (np.unique orig) = 2%nat ->
  pd.getitem generated c = Ok gcol -> pd.to_numpy (pd.values gcol) = Ok X ->
  (forall newdf,
      generate_data df x_synthetic (snd (columns_type df)) (fst (columns_type df))
        categorical_scaler numerical_scaler = Ok newdf ->
      exists Y codes,
        Pipeline_inverse_transform categorical_scaler X = Ok Y
        /\ KBinsDiscretizer_fit_transform 2 Y = Ok codes
        /\ In 0%nat codes /\ In 1%nat codes)
  /\ (constant X ->
      (exists Y, Pipeline_inverse_transform categorical_scaler X = Ok Y
                 /\ KBinsDiscretizer_fit_transform 2 Y = Ok (map (fun _ => 0%nat) Y))
      /\ generate_data df x_synthetic (snd (columns_type df)) (fst (columns_type df))
           categorical_scaler numerical_scaler
         = Raise (IndexError "index out of bounds")).
Proof.
  intros Hnd Hdt Hgen Hne Hin Hc Ho Hu Hg HX.
  pose proof (columns_type_spec df Hnd) as Hspec.
  destruct (columns_type df) as [num cat] eqn:Ect. simpl in *.
  destruct Hspec as (Hperm & Hnd' & Hdisj & _).
  assert (Hcat : NoDup cat) by (apply NoDup_app_remove_l in Hnd'; exact Hnd').
  assert (Hnum : ~ In c num) by (intros H; exact (Hdisj c H Hin)).
  assert (Hci : incl cat (pd.columns df)).
  { intros x Hx. apply (Permutation_in x Hperm). apply in_or_app. now right. }
  assert (Hni : incl num (pd.columns df)).
  { intros x Hx. apply (Permutation_in x Hperm). apply in_or_app. now left. }
  split.
  - intros newdf Hok.
    destruct (np.unique orig) as [|b0 [|b1 [|]]] eqn:EU; simpl in Hu; try discriminate.
    destruct (binary_column_chain df x_synthetic cat num categorical_scaler
                numerical_scaler newdf c col orig b0 b1 Hok Hcat Hin Hnum Hc Ho EU)
      as (g' & gcol' & X' & Y & codes & a0 & a1 & rest
          & H0 & Hg' & HX' & HY & HK & HU & _).
    assert (g' = generated) by congruence. subst g'.
    assert (gcol' = gcol) by congruence. subst gcol'.
    assert (X' = X) by congruence. subst X'.
    exists Y, codes. repeat split; auto;
      apply (two_codes_present codes a0 a1 rest); auto;
      now apply KBins_two_codes in HK.
  - intros Hconst.
    exact (constant_column_raises df x_synthetic cat num scaled_X categorical_scaler
             numerical_scaler generated c col gcol orig X
             Hcat Hnum Hci Hni Hdt Hgen Hne Hin Hc Ho Hu Hg HX Hconst).
Qed.

(** A synthetic matrix whose column [c] is constant, on [frame_C1]. *)
Lemma binary_remap_needs_two_codes_witness :
  generate_data frame_C1 [[1; 0]; [-(1); 0]] ["c"%string] ["x"%string]
    (snd (fst fitted_C1)) (snd fitted_C1)
  = Raise (IndexError "index out of bounds").
Proof.
  refine (proj2 (proj2 (binary_remap_needs_two_codes frame_C1 [[1; 0]; [-(1); 0]]
                          (fst (fst fitted_C1)) (snd (fst fitted_C1)) (snd fitted_C1)
                          [ {| pd.name := "x"; pd.dtype_of := pd.float64;
                               pd.values := [pd.VNum 1; pd.VNum (-(1))] |};
                            {| pd.name := "c"; pd.dtype_of := pd.float64;
                               pd.values := [pd.VNum 0; pd.VNum 0] |} ]%string
                          "c"%string
                          {| pd.name := "c"; pd.dtype_of := pd.CategoricalDtype;
                             pd.values := [pd.VNum 5; pd.VNum 3; pd.VNum 3; pd.VNum 5] |}
                          {| pd.name := "c"; pd.dtype_of := pd.float64;
                             pd.values := [pd.VNum 0; pd.VNum 0] |}
                          [5; 3; 3; 5] [0; 0] _ _ _ _ _ _ _ _ _ _) _)).
  - repeat constructor; simpl; intuition discriminate.
  - vm_compute. reflexivity.
  - reflexivity.
  - discriminate.
  - simpl; auto.
  - reflexivity.
  - reflexivity.
  - reflexivity.
  - reflexivity.
  - reflexivity.
  - intros x y [<-|[<-|[]]] [<-|[<-|[]]]; reflexivity.
Defined.

(** ** Piecewise-linear interpolation *)






Lemma last_cons {A : Type} (l : list A) :
  forall a d : A, last (a :: l) d = last l a.
Proof.
  induction l as [|b l IH]; intros a d; [reflexivity|].
  change (last (b :: l) d = last (b :: l) a). now rewrite !IH.
Qed.





Lemma map_fst_combine (xp fp : list Q) :
  List.length xp = List.length fp -> map fst (combine xp fp) = xp.
Proof.
  revert fp. induction xp as [|x xp IH]; intros [|f fp] E; simpl in *; try discriminate;
    [reflexivity|]. now rewrite IH by congruence.
Qed.

Lemma map_snd_combine (xp fp : list Q) :
  List.length xp = List.length fp -> map snd (combine xp fp) = fp.
Proof.
  revert fp. induction xp as [|x xp IH]; intros [|f fp] E; simpl in *; try discriminate;
    [reflexivity|]. now rewrite IH by congruence.
Qed.



(** The interpolant on one segment. *)
Lemma segment_value_bounds (x0 x1 f0 f1 v : Q) :
  x0 < x1 -> f0 <= f1 -> x0 <= v -> v <= x1 ->
  f0 <= (f1 - f0) / (x1 - x0) * (v - x0) + f0 <= f1.
Proof.
  intros Hx Hf H0 H1.
  set (s := (f1 - f0) / (x1 - x0)).
  assert (Hs : s * (x1 - x0) == f1 - f0) by (unfold s; field; lra).
  assert (Hs0 : 0 <= s).
  { unfold s. apply Qle_shift_div_l; lra. }
  split; nra.
Qed.


Lemma interp_from_lower (pts : list (Q * Q)) :
  forall x0 f0 v,
    x0 <= v -> increasing (x0 :: map fst pts) -> nondecreasing (f0 :: map snd pts) ->
    f0 <= np.interp_from v x0 f0 pts.
Proof.
  induction pts as [|[x1 f1] pts IH]; intros x0 f0 v H0 Hx Hf; simpl; [lra|].
  inversion Hx as [|? ? Hx' Hxa]; subst. inversion Hf as [|? ? Hf' Hfa]; subst.
  simpl in *.
  assert (Hx01 : x0 < x1) by (inversion Hxa; auto).
  assert (Hf01 : f0 <= f1) by (inversion Hfa; auto).
  destruct (Qle_bool x1 v) eqn:E1.
  - apply Qle_bool_iff in E1. apply Qle_trans with f1; [exact Hf01|]. now apply IH.
  - apply Qle_bool_false in E1.
    destruct (Qeq_bool x0 v); [lra|].
    apply (segment_value_bounds x0 x1 f0 f1 v); lra.
Qed.



(** ** The quantile map and its inverse *)




Section QuantileNodes.

Variables q r : list Q.
Hypothesis same_length : List.length q = List.length r.
Hypothesis q_sorted : nondecreasing q.
Hypothesis r_sorted : increasing r.

Variables (l1 : list (Q * Q)) (a fa b fb : Q) (l2 : list (Q * Q)).
Hypothesis nodes : combine q r = l1 ++ (a, fa) :: (b, fb) :: l2.










End QuantileNodes.


Lemma last_In {A : Type} (l : list A) : forall a, In (last l a) (a :: l).
Proof.
  induction l as [|b l IH]; intros a; [now left|].
  rewrite last_cons. right. apply IH.
Qed.

Lemma StronglySorted_last {A : Type} (R : A -> A -> Prop) (l : list A) :
  forall a x, StronglySorted R (a :: l) -> In x (a :: l) -> x = last l a \/ R x (last l a).
Proof.
  induction l as [|b l IH]; intros a x Hs Hx.
  - destruct Hx as [<-|[]]. now left.
  - inversion Hs as [|? ? Hs' Hall]; subst. rewrite last_cons.
    destruct Hx as [<-|Hx]; [|now apply IH].
    right. apply (proj1 (Forall_forall _ _) Hall). apply last_In.
Qed.




(** ** Sorting, running maxima, percentiles *)

Lemma insert_In (x y : Q) (l : list Q) : In y (np.insert x l) <-> y = x \/ In y l.
Proof.
  induction l as [|a l IH]; simpl; [intuition|].
  destruct (Qle_bool x a); simpl; [intuition|].
  rewrite IH. intuition.
Qed.

Lemma sort_In (X : list Q) (y : Q) : In y (np.sort X) <-> In y X.
Proof.
  induction X as [|x X IH]; simpl; [tauto|].
  rewrite insert_In, IH. intuition.
Qed.

Lemma insert_length (x : Q) (l : list Q) :
  List.length (np.insert x l) = S (List.length l).
Proof.
  induction l as [|a l IH]; simpl; [reflexivity|].
  destruct (Qle_bool x a); simpl; [reflexivity|now rewrite IH].
Qed.

Lemma sort_length (X : list Q) : List.length (np.sort X) = List.length X.
Proof.
  induction X as [|x X IH]; simpl; [reflexivity|]. now rewrite insert_length, IH.
Qed.

Lemma insert_sorted (x : Q) (l : list Q) :
  nondecreasing l -> nondecreasing (np.insert x l).
Proof.
  induction l as [|a l IH]; simpl; intros Hs.
  - repeat constructor.
  - destruct (Qle_bool x a) eqn:E.
    + apply Qle_bool_iff in E. constructor; [exact Hs|].
      constructor; [exact E|].
      inversion Hs as [|? ? _ Hall]; subst.
      apply Forall_forall. intros y Hy.
      apply Qle_trans with a; [exact E|exact (proj1 (Forall_forall _ _) Hall y Hy)].
    + apply Qle_bool_false in E.
      inversion Hs as [|? ? Hs' Hall]; subst.
      constructor; [now apply IH|].
      apply Forall_forall. intros y Hy. apply insert_In in Hy as [->|Hy].
      * now apply Qlt_le_weak.
      * exact (proj1 (Forall_forall _ _) Hall y Hy).
Qed.

Lemma sort_sorted (X : list Q) : nondecreasing (np.sort X).
Proof.
  induction X as [|x X IH]; simpl; [constructor|now apply insert_sorted].
Qed.

Lemma sorted_hd_le (s : list Q) (x : Q) :
  nondecreasing s -> In x s -> nth 0 s 0 <= x.
Proof.
  intros Hs Hx. destruct s as [|a s]; [destruct Hx|]. simpl.
  inversion Hs as [|? ? _ Hall]; subst.
  destruct Hx as [<-|Hx]; [lra|exact (proj1 (Forall_forall _ _) Hall x Hx)].
Qed.

Lemma nth_last {A : Type} (l : list A) (d : A) : nth (List.length l - 1) l d = last l d.
Proof.
  induction l as [|a l IH]; [reflexivity|].
  destruct l as [|b l']; [reflexivity|].
  change (nth (S (List.length l') - 0) (a :: b :: l') d = last (b :: l') d).
  rewrite Nat.sub_0_r. simpl nth. rewrite <- IH. simpl. now rewrite Nat.sub_0_r.
Qed.

Lemma sorted_le_last (s : list Q) (x : Q) :
  nondecreasing s -> In x s -> x <= nth (List.length s - 1) s 0.
Proof.
  intros Hs Hx. rewrite nth_last. destruct s as [|a s]; [destruct Hx|].
  rewrite last_cons.
  destruct (StronglySorted_last Qle s a x Hs Hx) as [-> | H]; [lra|exact H].
Qed.

Lemma percentile_sorted_compat (s : list Q) (p p' : Q) :
  p == p' -> np.percentile_sorted s p == np.percentile_sorted s p'.
Proof.
  intros H. unfold np.percentile_sorted.
  assert (E : Qfloor (p * inject_Z (Z.of_nat (List.length s - 1)))
              = Qfloor (p' * inject_Z (Z.of_nat (List.length s - 1)))).
  { apply Qfloor_comp. now rewrite H. }
  rewrite E. now rewrite H.
Qed.

Lemma percentile_sorted_0 (s : list Q) : np.percentile_sorted s 0 == nth 0 s 0.
Proof.
  unfold np.percentile_sorted.
  assert (E : Qfloor (0 * inject_Z (Z.of_nat (List.length s - 1))) = 0%Z).
  { rewrite (Qfloor_comp _ (inject_Z 0)); [apply Qfloor_Z|ring]. }
  rewrite E. simpl Z.to_nat. ring.
Qed.

Lemma percentile_sorted_1 (s : list Q) :
  np.percentile_sorted s 1 == nth (List.length s - 1) s 0.
Proof.
  unfold np.percentile_sorted.
  assert (E : Qfloor (1 * inject_Z (Z.of_nat (List.length s - 1)))
              = Z.of_nat (List.length s - 1)).
  { rewrite (Qfloor_comp _ (inject_Z (Z.of_nat (List.length s - 1))));
      [apply Qfloor_Z|ring]. }
  rewrite E, Nat2Z.id.
  rewrite Nat.min_r by lia. ring.
Qed.

Lemma maximum_accumulate_from_spec (xs : list Q) :
  forall m,
    List.length (np.maximum_accumulate_from m xs) = List.length xs
    /\ nondecreasing (np.maximum_accumulate_from m xs)
    /\ (forall y, In y (np.maximum_accumulate_from m xs) -> m <= y)
    /\ (forall x, In x xs -> x <= last (np.maximum_accumulate_from m xs) m).
Proof.
  induction xs as [|x xs IH]; intros m; simpl.
  - repeat split; [constructor|intros y []|intros x []].
  - destruct (IH (Qmax m x)) as (L & S & Hge & Hlast).
    repeat split.
    + now rewrite L.
    + constructor; [exact S|]. apply Forall_forall. exact Hge.
    + intros y [<-|Hy]; [apply Q.le_max_l|].
      apply Qle_trans with (Qmax m x); [apply Q.le_max_l|now apply Hge].
    + intros y Hy.
      change (y <= last (Qmax m x :: np.maximum_accumulate_from (Qmax m x) xs) m).
      rewrite last_cons.
      destruct Hy as [E|Hy]; [subst y|now apply Hlast].
      apply Qle_trans with (Qmax m x); [apply Q.le_max_r|].
      destruct (last_In (np.maximum_accumulate_from (Qmax m x) xs) (Qmax m x)) as [<-|Hin];
        [lra|now apply Hge].
Qed.

Lemma maximum_accumulate_spec (xs : list Q) :
  List.length (np.maximum_accumulate xs) = List.length xs
  /\ nondecreasing (np.maximum_accumulate xs)
  /\ hd 0 (np.maximum_accumulate xs) = hd 0 xs
  /\ (forall x, In x xs -> x <= last (np.maximum_accumulate xs) 0).
Proof.
  destruct xs as [|x xs]; simpl.
  - repeat split; [constructor|intros x []].
  - destruct (maximum_accumulate_from_spec xs x) as (L & S & Hge & Hlast).
    repeat split.
    + now rewrite L.
    + constructor; [exact S|]. apply Forall_forall. exact Hge.
    + intros y Hy.
      change (y <= last (x :: np.maximum_accumulate_from x xs) 0).
      rewrite last_cons.
      destruct Hy as [E|Hy]; [subst y|now apply Hlast].
      destruct (last_In (np.maximum_accumulate_from x xs) x) as [<-|Hin];
        [lra|now apply Hge].
Qed.

(** ** Minimum, maximum and the range scaler *)

Lemma fold_left_Qmin_spec (l : list Q) :
  forall acc,
    fold_left Qmin l acc <= acc
    /\ (forall x, In x l -> fold_left Qmin l acc <= x)
    /\ (fold_left Qmin l acc == acc \/ exists x, In x l /\ fold_left Qmin l acc == x).
Proof.
  induction l as [|y l IH]; intros acc; simpl.
  - repeat split; [lra|intros x []|now left].
  - destruct (IH (Qmin acc y)) as (H1 & H2 & H3).
    pose proof (Q.le_min_l acc y). pose proof (Q.le_min_r acc y).
    repeat split.
    + lra.
    + intros x [<-|Hx]; [lra|now apply H2].
    + destruct H3 as [H3|(x & Hx & H3)].
      * destruct (Q.min_dec acc y) as [E|E].
        -- left. exact (Qeq_trans _ _ _ H3 E).
        -- right. exists y. split; [now left|exact (Qeq_trans _ _ _ H3 E)].
      * right. exists x. auto.
Qed.

Lemma fold_left_Qmax_spec (l : list Q) :
  forall acc,
    acc <= fold_left Qmax l acc
    /\ (forall x, In x l -> x <= fold_left Qmax l acc)
    /\ (fold_left Qmax l acc == acc \/ exists x, In x l /\ fold_left Qmax l acc == x).
Proof.
  induction l as [|y l IH]; intros acc; simpl.
  - repeat split; [lra|intros x []|now left].
  - destruct (IH (Qmax acc y)) as (H1 & H2 & H3).
    pose proof (Q.le_max_l acc y). pose proof (Q.le_max_r acc y).
    repeat split.
    + lra.
    + intros x [<-|Hx]; [lra|now apply H2].
    + destruct H3 as [H3|(x & Hx & H3)].
      * destruct (Q.max_dec acc y) as [E|E].
        -- left. exact (Qeq_trans _ _ _ H3 E).
        -- right. exists y. split; [now left|exact (Qeq_trans _ _ _ H3 E)].
      * right. exists x. auto.
Qed.

Lemma np_min_spec (X : list Q) (m : Q) :
  np.min X = Ok m ->
  (forall x, In x X -> m <= x) /\ exists x, In x X /\ m == x.
Proof.
  destruct X as [|x0 X]; simpl; [discriminate|]. intros H; injection H as <-.
  destruct (fold_left_Qmin_spec X x0) as (H1 & H2 & H3). split.
  - intros x [<-|Hx]; auto.
  - destruct H3 as [H3|(x & Hx & H3)]; [exists x0|exists x]; auto.
Qed.

Lemma np_max_spec (X : list Q) (m : Q) :
  np.max X = Ok m ->
  (forall x, In x X -> x <= m) /\ exists x, In x X /\ m == x.
Proof.
  destruct X as [|x0 X]; simpl; [discriminate|]. intros H; injection H as <-.
  destruct (fold_left_Qmax_spec X x0) as (H1 & H2 & H3). split.
  - intros x [<-|Hx]; auto.
  - destruct H3 as [H3|(x & Hx & H3)]; [exists x0|exists x]; auto.
Qed.


Lemma ltb_spec (x y : Q) : np.ltb x y = true <-> x < y.
Proof.
  unfold np.ltb. rewrite negb_true_iff. split.
  - intros H. apply Qnot_le_lt. intros Hle. apply Qle_bool_iff in Hle. congruence.
  - intros H. apply not_true_is_false. intros Hle. apply Qle_bool_iff in Hle. lra.
Qed.







(** ** [np.linspace] and the fitted quantiles *)

Lemma map_seq_increasing (f : nat -> Q) (n : nat) :
  (forall i j, (i < j)%nat -> f i < f j) ->
  forall a, increasing (map f (seq a n)).
Proof.
  intros Hf. induction n as [|n IH]; intros a; simpl; constructor; [apply IH|].
  apply Forall_forall. intros y Hy.
  apply in_map_iff in Hy as (j & <- & Hj). apply in_seq in Hj. apply Hf. lia.
Qed.

Lemma inject_nat_lt (i j : nat) :
  (i < j)%nat -> inject_Z (Z.of_nat i) < inject_Z (Z.of_nat j).
Proof. intros H. rewrite <- Zlt_Qlt. lia. Qed.

Lemma inject_nat_pos (d : nat) : 0 < inject_Z (Z.of_nat (S d)).
Proof. change 0 with (inject_Z 0). rewrite <- Zlt_Qlt. lia. Qed.

Lemma linspace_length (start stop : Q) (num : nat) :
  List.length (np.linspace start stop num) = num.
Proof.
  destruct num as [|[|d]]; simpl; try reflexivity.
  now rewrite length_map, length_seq.
Qed.

Lemma linspace_spec (start stop : Q) (num : nat) :
  start < stop -> (1 <= num)%nat ->
  increasing (np.linspace start stop num)
  /\ hd 0 (np.linspace start stop num) == start
  /\ ((2 <= num)%nat -> last (np.linspace start stop num) 0 == stop).
Proof.
  intros Hlt Hn. destruct num as [|[|d]]; [lia| |].
  - simpl. split; [|split].
    + repeat constructor.
    + reflexivity.
    + lia.
  - unfold np.linspace.
    set (step := (stop - start) / inject_Z (Z.of_nat (S d))).
    pose proof (inject_nat_pos d) as Hd.
    assert (Hstep : 0 < step) by (unfold step; apply Qlt_shift_div_l; lra).
    split; [|split].
    + apply map_seq_increasing. intros i j Hij.
      pose proof (inject_nat_lt i j Hij). nra.
    + simpl. ring.
    + intros _. rewrite seq_S, map_app. cbn [map]. rewrite last_last. simpl Nat.add.
      unfold step. field. lra.
Qed.

(** What [fit] leaves in a quantile transformer. *)
Lemma QuantileTransformer_fit_spec (self self' : QuantileTransformer) (X : list Q) :
  QuantileTransformer_fit self X = Ok self' ->
  X <> []
  /\ n_quantiles self' = n_quantiles self
  /\ exists references_ quantiles_,
       references_quantiles_ self' = Some (references_, quantiles_)
       /\ List.length quantiles_ = List.length references_
       /\ List.length references_
          = Nat.max 1 (Nat.min (n_quantiles self) (List.length X))
       /\ increasing references_ /\ nondecreasing quantiles_
       /\ hd 0 references_ == 0
       /\ ((2 <= List.length references_)%nat -> last references_ 0 == 1)
       /\ (forall x, In x X -> hd 0 quantiles_ <= x)
       /\ (exists x, In x X /\ hd 0 quantiles_ == x)
       /\ ((2 <= List.length references_)%nat ->
           forall x, In x X -> x <= last quantiles_ 0).
Proof.
  unfold QuantileTransformer_fit. destruct (n_quantiles self <? 1)%nat; [discriminate|].
  destruct X as [|x0 X0]; [discriminate|]. cbn [check_array rbind].
  set (X := x0 :: X0). intros H; injection H as <-.
  cbn [n_quantiles references_quantiles_].
  split; [discriminate|]. split; [reflexivity|].
  set (n := Nat.max 1 (Nat.min (n_quantiles self) (List.length X))).
  assert (Hn : (1 <= n)%nat) by (unfold n; lia).
  destruct (linspace_spec 0 1 n ltac:(lra) Hn) as (Hinc & Hhd & Hlast).
  pose proof (linspace_length 0 1 n) as Hlen.
  set (refs := np.linspace 0 1 n) in *.
  set (pct := map (np.percentile_sorted (np.sort X)) refs).
  destruct (maximum_accumulate_spec pct) as (L & S & Hh & Hl).
  assert (Hpl : List.length pct = List.length refs) by (unfold pct; apply length_map).
  exists refs, (np.maximum_accumulate pct). split; [reflexivity|].
  split; [rewrite L; exact Hpl|]. split; [exact Hlen|].
  split; [exact Hinc|]. split; [exact S|]. split; [exact Hhd|].
  split; [intros H2; apply Hlast; lia|].
  assert (Hrefs : refs <> []) by (intros E; rewrite E in Hlen; simpl in Hlen; lia).
  split.
  - intros x Hx. rewrite Hh.
    destruct refs as [|r0 refs'] eqn:Er; [congruence|]. unfold pct. simpl hd.
    simpl in Hhd. rewrite (percentile_sorted_compat _ r0 0 Hhd), percentile_sorted_0.
    apply sorted_hd_le; [apply (sort_sorted X)|now apply (sort_In X)].
  - split.
    { exists (nth 0 (np.sort X) 0). split.
      - apply (sort_In X). apply nth_In. rewrite sort_length. simpl. lia.
      - rewrite Hh. destruct refs as [|r0 refs'] eqn:Er; [congruence|]. unfold pct.
        simpl hd. simpl in Hhd.
        now rewrite (percentile_sorted_compat _ r0 0 Hhd), percentile_sorted_0. }
    intros H2 x Hx.
    apply Qle_trans with (np.percentile_sorted (np.sort X) (last refs 0)).
    + rewrite (percentile_sorted_compat _ (last refs 0) 1) by (apply Hlast; lia).
      rewrite percentile_sorted_1.
      apply sorted_le_last; [apply (sort_sorted X)|now apply (sort_In X)].
    + apply Hl. unfold pct. apply in_map.
      destruct refs as [|r0 refs']; [congruence|].
      rewrite last_cons. apply last_In.
Qed.



(** ** Binning is blind to increasing affine maps *)










(** ** The categorical scaler and the bins of the original column *)



(** ** What [data_transformation] computes *)

Lemma setitem_columns_In (df : pd.DataFrame) (c : string) (dt : pd.dtype)
  (vs : list pd.value) :
  In c (pd.columns df) -> pd.columns (pd.setitem df c dt vs) = pd.columns df.
Proof.
  intros H. apply in_map_iff in H as (s & Hs & Hin).
  destruct (pd.getitem df c) as [s'|] eqn:E; [now apply setitem_columns with s'|].
  exfalso. unfold pd.getitem in E.
  destruct (find _ df) eqn:Ef; [discriminate|].
  apply (find_none _ _ Ef) in Hin. rewrite Hs, String.eqb_refl in Hin. discriminate.
Qed.

(** A loop of [data_transformation] over distinct labels: each visited
    column is replaced by its image under a fresh fit of the scaler, and the
    scaler that is left is the one fitted on the last label. *)
Lemma scale_loop_spec (df : pd.DataFrame) (init : Pipeline) (cs : list string) :
  forall (sx : pd.DataFrame) (sc : Pipeline) (sx' : pd.DataFrame) (sc' : Pipeline),
    NoDup cs -> map unfit sc = init -> pd.columns sx = pd.columns df ->
    for_each cs (scale_column df) (sx, sc) = Ok (sx', sc') ->
    pd.columns sx' = pd.columns df
    /\ (forall c, ~ In c cs -> pd.getitem sx' c = pd.getitem sx c)
    /\ (forall c, In c cs ->
          exists col X p Y,
            pd.getitem df c = Ok col /\ pd.to_numpy (pd.values col) = Ok X
            /\ Pipeline_fit_transform init X = Ok (p, Y)
            /\ pd.getitem sx' c
               = Ok {| pd.name := c; pd.dtype_of := pd.float64;
                       pd.values := pd.of_numpy Y |})
    /\ (forall cs0 last, cs = cs0 ++ [last] ->
          exists col X Y,
            pd.getitem df last = Ok col /\ pd.to_numpy (pd.values col) = Ok X
            /\ Pipeline_fit_transform init X = Ok (sc', Y)).
Proof.
  induction cs as [|c cs IH]; intros sx sc sx' sc' Hnd Hinit Hcols H.
  - simpl in H. injection H as <- <-. repeat split; auto.
    + intros c [].
    + intros cs0 last E. destruct cs0; discriminate E.
  - simpl in H.
    destruct (pd.getitem df c) as [col|] eqn:Ec; cbn [rbind] in H; [|discriminate].
    destruct (pd.to_numpy (pd.values col)) as [X|] eqn:EX; cbn [rbind] in H; [|discriminate].
    destruct (Pipeline_fit_transform sc X) as [[sc1 Y]|] eqn:Ef; cbn [rbind] in H;
      [|discriminate].
    inversion Hnd as [|? ? Hc Hnd']; subst.
    pose proof (Pipeline_fit_transform_fitted sc sc1 X Y Ef) as (_ & U1 & _).
    rewrite Pipeline_fit_transform_unfit in Ef.
    assert (Hin : In c (pd.columns sx)).
    { rewrite Hcols. apply getitem_Ok in Ec as [Hi <-]. now apply in_map. }
    pose proof (setitem_columns_In sx c pd.float64 (pd.of_numpy Y) Hin) as Hc1.
    destruct (IH _ _ _ _ Hnd' U1 (eq_trans Hc1 Hcols) H) as (C & O & V & L).
    split; [exact C|]. split; [|split].
    + intros c0 Hc0. rewrite O by (intros F; apply Hc0; now right).
      apply getitem_setitem_other. intros ->. apply Hc0. now left.
    + intros c0 [<-|Hc0]; [|now apply V].
      exists col, X, sc1, Y. repeat split; auto.
      rewrite (O c Hc). apply getitem_setitem_same.
    + intros cs0 last E. destruct cs0 as [|c0 cs0]; simpl in E.
      * injection E as -> ->. simpl in H. injection H as _ <-. now exists col, X, Y.
      * injection E as -> ->. now apply (L cs0 last).
Qed.

Lemma columns_to_numpy_spec (df : pd.DataFrame) (cols : list (list Q)) :
  pd.columns_to_numpy df = Ok cols ->
  Forall2 (fun s xs => pd.values s = pd.of_numpy xs) df cols.
Proof.
  revert cols. induction df as [|s df IH]; intros cols H; simpl in H.
  - injection H as <-. constructor.
  - destruct (pd.to_numpy (pd.values s)) as [xs|] eqn:E; cbn [rbind] in H; [|discriminate].
    destruct (pd.columns_to_numpy df) as [rest|]; cbn [rbind] in H; [|discriminate].
    injection H as <-. constructor; [now apply to_numpy_values|now apply IH].
Qed.

Lemma map_nth_seq {A : Type} (l : list A) (d : A) :
  map (fun i => nth i l d) (seq 0 (List.length l)) = l.
Proof.
  induction l as [|a l IH]; [reflexivity|].
  simpl. f_equal. rewrite <- seq_shift, map_map. exact IH.
Qed.

(** The matrix of a rectangular numeric frame, read back as a frame, holds
    the same columns (as float columns). *)
Lemma to_matrix_round_trip (sx : pd.DataFrame) (m : list (list Q)) :
  pd.to_matrix sx = Ok m ->
  (forall s, In s sx -> List.length (pd.values s) = pd.len sx) ->
  pd.DataFrame_of_matrix m (pd.columns sx)
  = Ok (map (fun s => {| pd.name := pd.name s; pd.dtype_of := pd.float64;
                         pd.values := pd.values s |}) sx).
Proof.
  unfold pd.to_matrix. intros H Hrect.
  destruct (pd.columns_to_numpy sx) as [cols|] eqn:Ec; cbn [rbind] in H; [|discriminate].
  injection H as <-.
  pose proof (columns_to_numpy_spec sx cols Ec) as Hcols.
  pose proof (Forall2_length Hcols) as HL.
  unfold pd.DataFrame_of_matrix.
  assert (Hrows : forallb (fun row => Nat.eqb (List.length row) (List.length (pd.columns sx)))
                    (map (fun i => map (fun col => nth i col 0) cols) (seq 0 (pd.len sx)))
                  = true).
  { apply forallb_forall. intros row Hrow.
    apply in_map_iff in Hrow as (i & <- & _).
    unfold pd.columns. rewrite !length_map. apply Nat.eqb_eq. congruence. }
  rewrite Hrows. f_equal.
  set (F := fun jc : nat * string =>
              {| pd.name := snd jc; pd.dtype_of := pd.float64;
                 pd.values := map (fun row => pd.VNum (nth (fst jc) row 0))
                                (map (fun i => map (fun col => nth i col 0) cols)
                                   (seq 0 (pd.len sx))) |}).
  set (G := fun s => {| pd.name := pd.name s; pd.dtype_of := pd.float64;
                        pd.values := pd.values s |}).
  set (d := {| pd.name := ""%string; pd.dtype_of := pd.float64; pd.values := [] |}).
  apply (nth_ext _ _ (F (0%nat, ""%string)) (G d)).
  { unfold pd.columns. now rewrite !length_map, length_combine, length_seq, length_map,
      Nat.min_id. }
  intros j Hj.
  rewrite length_map, length_combine, length_seq in Hj.
  unfold pd.columns in Hj. rewrite length_map, Nat.min_id in Hj.
  rewrite (map_nth F), (map_nth G).
  rewrite combine_nth by (unfold pd.columns; now rewrite length_seq, length_map).
  rewrite seq_nth by (unfold pd.columns; rewrite length_map; exact Hj).
  unfold pd.columns.
  change ""%string with (pd.name d). rewrite (map_nth pd.name).
  unfold F, G. simpl. f_equal.
  (* the cells of column [j] *)
  assert (Hs : In (nth j sx d) sx) by (apply nth_In; exact Hj).
  assert (Hv : pd.values (nth j sx d) = pd.of_numpy (nth j cols [])).
  { clear - Hcols Hj. revert j Hj. induction Hcols as [|s xs sx cols Hsx _ IH]; intros j Hj.
    - simpl in Hj. lia.
    - destruct j as [|j]; simpl; [exact Hsx|]. apply IH. simpl in Hj. lia. }
  rewrite map_map. rewrite Hv. unfold pd.of_numpy.
  assert (Hlen : List.length (nth j cols []) = pd.len sx).
  { rewrite <- (Hrect _ Hs), Hv. unfold pd.of_numpy. now rewrite length_map. }
  rewrite <- Hlen.
  transitivity (map pd.VNum (map (fun i => nth i (nth j cols []) 0)
                               (seq 0 (List.length (nth j cols []))))).
  - rewrite map_map. apply map_ext. intros i. f_equal.
    rewrite (nth_indep _ 0 ((fun col : list Q => nth i col 0) []))
      by (rewrite length_map; congruence).
    now rewrite (map_nth (fun col : list Q => nth i col 0)).
  - now rewrite map_nth_seq.
Qed.

(** ** Columns through [generate_data], continued *)

Lemma remap_binary_other (df : pd.DataFrame)
  (c : string) (col : pd.Series) (orig : list Q) (nd nd' : pd.DataFrame) :
  pd.getitem df c = Ok col -> pd.to_numpy (pd.values col) = Ok orig ->
  List.length (np.unique orig) <> 2%nat ->
  remap_binary df c nd = Ok nd' -> nd' = nd.
Proof.
  intros Hc Ho Hu. unfold remap_binary. rewrite Hc; cbn [rbind]. rewrite Ho; cbn [rbind].
  destruct (Nat.eqb_spec (List.length (np.unique orig)) 2) as [E|_]; [congruence|].
  congruence.
Qed.

(** A categorical column with more than two values: the bin codes written
    by the first loop are what [generate_data] returns. *)
Lemma multi_column_chain (df : pd.DataFrame) (x_synthetic : list (list Q))
  (categorical_columns numerical_columns : list string)
  (categorical_scaler numerical_scaler : Pipeline) (newdf : pd.DataFrame)
  (c : string) (col : pd.Series) (orig : list Q) :
  generate_data df x_synthetic categorical_columns numerical_columns
    categorical_scaler numerical_scaler = Ok newdf ->
  NoDup categorical_columns -> In c categorical_columns -> ~ In c numerical_columns ->
  pd.getitem df c = Ok col -> pd.to_numpy (pd.values col) = Ok orig ->
  (2 < List.length (np.unique orig))%nat ->
  exists generated gcol X Y codes,
    pd.DataFrame_of_matrix x_synthetic (pd.columns df) = Ok generated
    /\ pd.getitem generated c = Ok gcol
    /\ pd.to_numpy (pd.values gcol) = Ok X
    /\ Pipeline_inverse_transform categorical_scaler X = Ok Y
    /\ KBinsDiscretizer_fit_transform (List.length (np.unique orig)) Y = Ok codes
    /\ pd.getitem newdf c
       = Ok {| pd.name := c; pd.dtype_of := pd.CategoricalDtype;
               pd.values := pd.of_int_array codes |}.
Proof.
  intros H Hnd Hin Hnum Hc Ho Hu.
  apply generate_data_Ok_inv in H as (nd0 & nd1 & nd2 & H0 & H1 & H2 & H3).
  destruct (for_each_once _ categorical_columns c nd0 nd1
              (decode_categorical_local df categorical_scaler) Hnd Hin H1)
    as (p & q & Sp & Hpq & Sq & _).
  assert (Hlen : (1 < List.length (np.unique orig))%nat) by lia.
  destruct (decode_categorical_multi df categorical_scaler c col orig p q Hc Ho Hlen Hpq)
    as (gcol & X & Y & codes & Hg & HX & HY & HK & Hq).
  pose proof (for_each_untouched _ numerical_columns c nd1 nd2
                (decode_numerical_local numerical_scaler) Hnum H2) as S2.
  assert (S3 : same_column c nd2 newdf).
  { apply (for_each_invariant (fun d => same_column c nd2 d)
             (remap_binary df) categorical_columns)
        with (s := nd2); [|exact H3|reflexivity].
    intros x s s' _ Hb Hs. destruct (string_dec x c) as [->|Hne].
    - rewrite (remap_binary_other df c col orig s s'); auto. lia.
    - destruct (remap_binary_local df x s s' Hb) as [_ E].
      unfold same_column in *. rewrite <- Hs. apply E. congruence. }
  unfold same_column in *.
  exists nd0, gcol, X, Y, codes. repeat split; auto; congruence.
Qed.

(** A numerical column: what the second loop writes is what
    [generate_data] returns. *)
Lemma numerical_column_chain (df : pd.DataFrame) (x_synthetic : list (list Q))
  (categorical_columns numerical_columns : list string)
  (categorical_scaler numerical_scaler : Pipeline) (newdf : pd.DataFrame) (c : string) :
  generate_data df x_synthetic categorical_columns numerical_columns
    categorical_scaler numerical_scaler = Ok newdf ->
  NoDup numerical_columns -> In c numerical_columns -> ~ In c categorical_columns ->
  exists generated gcol X Y,
    pd.DataFrame_of_matrix x_synthetic (pd.columns df) = Ok generated
    /\ pd.getitem generated c = Ok gcol
    /\ pd.to_numpy (pd.values gcol) = Ok X
    /\ Pipeline_inverse_transform numerical_scaler X = Ok Y
    /\ pd.getitem newdf c
       = Ok {| pd.name := c; pd.dtype_of := pd.float64; pd.values := pd.of_numpy Y |}.
Proof.
  intros H Hnd Hin Hcat.
  apply generate_data_Ok_inv in H as (nd0 & nd1 & nd2 & H0 & H1 & H2 & H3).
  pose proof (for_each_untouched _ categorical_columns c nd0 nd1
                (decode_categorical_local df categorical_scaler) Hcat H1) as S1.
  destruct (for_each_once _ numerical_columns c nd1 nd2
              (decode_numerical_local numerical_scaler) Hnd Hin H2)
    as (p & q & Sp & Hpq & Sq & _).
  pose proof (for_each_untouched _ categorical_columns c nd2 newdf
                (remap_binary_local df) Hcat H3) as S3.
  unfold decode_numerical in Hpq.
  destruct (pd.getitem p c) as [gcol|] eqn:Eg; cbn [rbind] in Hpq; [|discriminate].
  destruct (pd.to_numpy (pd.values gcol)) as [X|] eqn:EX; cbn [rbind] in Hpq; [|discriminate].
  destruct (Pipeline_inverse_transform numerical_scaler X) as [Y|] eqn:EY;
    cbn [rbind] in Hpq; [|discriminate].
  injection Hpq as <-.
  unfold same_column in *.
  exists nd0, gcol, X, Y. repeat split; auto; try congruence.
  rewrite S3, Sq. apply getitem_setitem_same.
Qed.

Lemma getitem_map_float (sx : pd.DataFrame) (c : string) (s : pd.Series) :
  pd.getitem sx c = Ok s ->
  pd.getitem (map (fun s => {| pd.name := pd.name s; pd.dtype_of := pd.float64;
                               pd.values := pd.values s |}) sx) c
  = Ok {| pd.name := pd.name s; pd.dtype_of := pd.float64; pd.values := pd.values s |}.
Proof.
  unfold pd.getitem. induction sx as [|a sx IH]; simpl; [discriminate|].
  destruct (String.eqb (pd.name a) c); [intros H; now injection H as ->|exact IH].
Qed.

Lemma to_numpy_length (vs : list pd.value) (xs : list Q) :
  pd.to_numpy vs = Ok xs -> List.length xs = List.length vs.
Proof.
  intros H. apply to_numpy_values in H. subst vs. unfold pd.of_numpy.
  now rewrite length_map.
Qed.

Lemma fit_transform_nonempty (t t' : transformer) (X Y : list Q) :
  fit_transform t X = Ok (t', Y) -> X <> [].
Proof.
  destruct t as [s|q]; simpl; intros H.
  - destruct (MinMaxScaler_fit s X) as [s'|] eqn:E; [|discriminate].
    now apply MinMaxScaler_fit_inv in E as (_ & HX & _).
  - destruct (QuantileTransformer_fit q X) as [q'|] eqn:E; [|discriminate].
    now apply QuantileTransformer_fit_spec in E as (HX & _).
Qed.

Lemma initial_scaler_nonempty (init p : Pipeline) (X Y : list Q) :
  init <> [] -> Pipeline_fit_transform init X = Ok (p, Y) -> X <> [].
Proof.
  destruct init as [|t init]; [congruence|]. intros _ H. simpl in H.
  destruct (fit_transform t X) as [[t' Y1]|] eqn:E; [|discriminate].
  exact (fit_transform_nonempty t t' X Y1 E).
Qed.

(** The scaled matrix, read back as a frame: every column is the image of
    the original column under a fresh fit of its scaler; the scalers that
    are returned are fitted on the last categorical and the last numerical
    column. *)
Lemma data_transformation_spec (df : pd.DataFrame)
  (numerical_columns categorical_columns : list string)
  (scaled_X : list (list Q)) (categorical_scaler numerical_scaler : Pipeline) :
  NoDup (pd.columns df) -> NoDup categorical_columns -> NoDup numerical_columns ->
  (forall c, In c categorical_columns -> ~ In c numerical_columns) ->
  (forall c, In c (pd.columns df) -> In c categorical_columns \/ In c numerical_columns) ->
  (forall s, In s df -> List.length (pd.values s) = pd.len df) ->
  data_transformation df numerical_columns categorical_columns
  = Ok (scaled_X, categorical_scaler, numerical_scaler) ->
  let fitted_on (init : Pipeline) (c : string) (generated : pd.DataFrame) :=
    exists col X p Y,
      pd.getitem df c = Ok col /\ pd.to_numpy (pd.values col) = Ok X
      /\ Pipeline_fit_transform init X = Ok (p, Y)
      /\ pd.getitem generated c
         = Ok {| pd.name := c; pd.dtype_of := pd.float64; pd.values := pd.of_numpy Y |} in
  let last_fit (init : Pipeline) (cs : list string) (scaler : Pipeline) :=
    forall cs0 last, cs = cs0 ++ [last] ->
      exists col X Y,
        pd.getitem df last = Ok col /\ pd.to_numpy (pd.values col) = Ok X
        /\ Pipeline_fit_transform init X = Ok (scaler, Y) in
  let n_quantiles := if (99 <? pd.len df)%nat then 100%nat else pd.len df in
  exists generated,
    pd.DataFrame_of_matrix scaled_X (pd.columns df) = Ok generated
    /\ (forall c, In c categorical_columns ->
          fitted_on initial_categorical_scaler c generated)
    /\ (forall c, In c numerical_columns ->
          fitted_on (initial_numerical_scaler n_quantiles) c generated)
    /\ last_fit initial_categorical_scaler categorical_columns categorical_scaler
    /\ last_fit (initial_numerical_scaler n_quantiles) numerical_columns numerical_scaler
    /\ (pd.columns df = [] \/ scaled_X <> []).
Proof.
  intros Hnd Hcat Hnum Hdisj Hcover Hrect H fitted_on last_fit nq.
  unfold data_transformation in H. fold nq in H.
  destruct (for_each categorical_columns _ _) as [[sx1 sc1]|] eqn:E1;
    cbn [rbind] in H; [|discriminate].
  destruct (for_each numerical_columns _ _) as [[sx2 sc2]|] eqn:E2;
    cbn [rbind] in H; [|discriminate].
  destruct (pd.to_matrix sx2) as [m|] eqn:Em; cbn [rbind] in H; [|discriminate].
  injection H as <- <- <-.
  destruct (scale_loop_spec df initial_categorical_scaler categorical_columns
              df initial_categorical_scaler sx1 sc1 Hcat eq_refl eq_refl E1)
    as (C1 & O1 & V1 & L1).
  destruct (scale_loop_spec df (initial_numerical_scaler nq) numerical_columns
              sx1 (initial_numerical_scaler nq) sx2 sc2 Hnum eq_refl C1 E2)
    as (C2 & O2 & V2 & L2).
  (* every column of the scaled frame *)
  assert (Hcol : forall c, In c (pd.columns df) ->
            exists col X Y,
              pd.getitem df c = Ok col /\ pd.to_numpy (pd.values col) = Ok X
              /\ X <> [] /\ List.length Y = List.length X
              /\ pd.getitem sx2 c
                 = Ok {| pd.name := c; pd.dtype_of := pd.float64;
                         pd.values := pd.of_numpy Y |}).
  { intros c Hc. destruct (Hcover c Hc) as [Hc'|Hc'].
    - destruct (V1 c Hc') as (col & X & p & Y & Hg & HX & Hf & Hs).
      exists col, X, Y. repeat split; auto.
      + eapply initial_scaler_nonempty; [|exact Hf]. discriminate.
      + now apply Pipeline_fit_transform_fitted in Hf as (_ & _ & HL).
      + rewrite (O2 c (Hdisj c Hc')). exact Hs.
    - destruct (V2 c Hc') as (col & X & p & Y & Hg & HX & Hf & Hs).
      exists col, X, Y. repeat split; auto.
      + eapply initial_scaler_nonempty; [|exact Hf]. discriminate.
      + now apply Pipeline_fit_transform_fitted in Hf as (_ & _ & HL). }
  assert (Hnd2 : NoDup (pd.columns sx2)) by (rewrite C2; exact Hnd).
  assert (Hlen : forall s, In s sx2 ->
            List.length (pd.values s) = pd.len df /\ (1 <= pd.len df)%nat).
  { intros s Hs.
    pose proof (getitem_In sx2 s Hnd2 Hs) as Hg.
    assert (Hc : In (pd.name s) (pd.columns df)) by (rewrite <- C2; now apply in_map).
    destruct (Hcol _ Hc) as (col & X & Y & Hgc & HX & HXne & HL & Hs2).
    assert (Es : s = {| pd.name := pd.name s; pd.dtype_of := pd.float64;
                        pd.values := pd.of_numpy Y |}) by congruence.
    rewrite Es. simpl. unfold pd.of_numpy. rewrite length_map, HL.
    rewrite (to_numpy_length _ _ HX).
    apply getitem_Ok in Hgc as [Hin _]. rewrite (Hrect col Hin).
    split; [reflexivity|].
    rewrite <- (Hrect col Hin), <- (to_numpy_length _ _ HX).
    destruct X; [congruence|simpl; lia]. }
  assert (Hlen2 : pd.len sx2 = pd.len df).
  { destruct sx2 as [|s sx2'] eqn:Es.
    - simpl. unfold pd.columns in C2. simpl in C2.
      destruct df; [reflexivity|discriminate].
    - simpl. apply Hlen. now left. }
  assert (Hrect2 : forall s, In s sx2 -> List.length (pd.values s) = pd.len sx2).
  { intros s Hs. rewrite Hlen2. now apply Hlen. }
  pose proof (to_matrix_round_trip sx2 m Em Hrect2) as Hrt. rewrite C2 in Hrt.
  eexists. split; [exact Hrt|].
  assert (Hgen : forall c Y,
            pd.getitem sx2 c = Ok {| pd.name := c; pd.dtype_of := pd.float64;
                                     pd.values := pd.of_numpy Y |} ->
            pd.getitem (map (fun s => {| pd.name := pd.name s; pd.dtype_of := pd.float64;
                                         pd.values := pd.values s |}) sx2) c
            = Ok {| pd.name := c; pd.dtype_of := pd.float64; pd.values := pd.of_numpy Y |}).
  { intros c Y Hg. now rewrite (getitem_map_float sx2 c _ Hg). }
  split; [|split; [|split; [exact L1|split; [exact L2|]]]].
  - intros c Hc. destruct (V1 c Hc) as (col & X & p & Y & Hg & HX & Hf & Hs).
    exists col, X, p, Y. repeat split; auto.
    apply Hgen. rewrite (O2 c (Hdisj c Hc)). exact Hs.
  - intros c Hc. destruct (V2 c Hc) as (col & X & p & Y & Hg & HX & Hf & Hs).
    exists col, X, p, Y. repeat split; auto.
  - destruct sx2 as [|s sx2'] eqn:Es.
    + left. rewrite <- C2. reflexivity.
    + right. unfold pd.to_matrix in Em.
      destruct (pd.columns_to_numpy (s :: sx2')) as [cols|]; cbn [rbind] in Em;
        [|discriminate].
      injection Em as <-.
      destruct (Hlen s (or_introl eq_refl)) as [Hl H1].
      rewrite Hl. destruct (pd.len df); [lia|discriminate].
Qed.

(** ** Bin codes stay below the number of bins *)

Lemma removelast_length_pred {A : Type} (l : list A) :
  List.length (removelast l) = (List.length l - 1)%nat.
Proof.
  induction l as [|a [|b l] IH]; [reflexivity|reflexivity|].
  change (removelast (a :: b :: l)) with (a :: removelast (b :: l)).
  cbn [List.length] in *. rewrite IH. lia.
Qed.

Lemma searchsorted_inner_edges (lo hi : Q) (n : nat) (x : Q) :
  (2 <= n)%nat ->
  (np.searchsorted_right (removelast (tl (np.linspace lo hi (S n)))) x < n)%nat.
Proof.
  intros Hn. unfold np.searchsorted_right.
  eapply Nat.le_lt_trans; [apply filter_length_le|].
  rewrite removelast_length_pred, length_tl, linspace_length. lia.
Qed.

Lemma KBins_codes_bound (n : nat) (X : list Q) (codes : list nat) :
  KBinsDiscretizer_fit_transform n X = Ok codes -> Forall (fun k => k < n)%nat codes.
Proof.
  unfold KBinsDiscretizer_fit_transform.
  destruct (Nat.ltb_spec n 2) as [|Hn]; [discriminate|].
  destruct (check_array X) as [[]|]; cbn [rbind]; [|discriminate].
  destruct (np.min X) as [lo|]; cbn [rbind]; [|discriminate].
  destruct (np.max X) as [hi|]; cbn [rbind]; [|discriminate].
  destruct (Qeq_bool lo hi); intros H; injection H as <-; apply Forall_forall;
    intros k Hk; apply in_map_iff in Hk as (x & <- & _); [lia|].
  exact (searchsorted_inner_edges lo hi n x Hn).
Qed.

(** ** Round trip: [data_transformation], then [generate_data] on the scaled
    matrix *)


Section RoundTrip.

Variable df : pd.DataFrame.
Variables (scaled_X : list (list Q)) (categorical_scaler numerical_scaler : Pipeline).

Let numerical_columns := fst (columns_type df).
Let categorical_columns := snd (columns_type df).

Hypothesis distinct_labels : NoDup (pd.columns df).
Hypothesis rectangular : forall s, In s df -> List.length (pd.values s) = pd.len df.
Hypothesis transformed :
  data_transformation df numerical_columns categorical_columns
  = Ok (scaled_X, categorical_scaler, numerical_scaler).

Lemma round_trip_lists :
  NoDup categorical_columns /\ NoDup numerical_columns
  /\ (forall c, In c categorical_columns -> ~ In c numerical_columns)
  /\ (forall c, In c (pd.columns df) ->
        In c categorical_columns \/ In c numerical_columns).
Proof.
  pose proof (columns_type_spec df distinct_labels) as H.
  unfold numerical_columns, categorical_columns.
  destruct (columns_type df) as [num cat]. simpl.
  destruct H as (Hperm & Hnd & Hdisj & _).
  repeat split.
  - now apply NoDup_app_remove_l in Hnd.
  - now apply NoDup_app_remove_r in Hnd.
  - intros c Hc Hn. exact (Hdisj c Hn Hc).
  - intros c Hc. apply (Permutation_in c (Permutation_sym Hperm)) in Hc.
    apply in_app_or in Hc. tauto.
Qed.



End RoundTrip.

(** ** The round trip goes through *)





Section RoundTripReturns.

Variable df : pd.DataFrame.
Variables (scaled_X : list (list Q)) (categorical_scaler numerical_scaler : Pipeline).

Let numerical_columns := fst (columns_type df).
Let categorical_columns := snd (columns_type df).

Hypothesis distinct_labels : NoDup (pd.columns df).
Hypothesis rectangular : forall s, In s df -> List.length (pd.values s) = pd.len df.
Hypothesis transformed :
  data_transformation df numerical_columns categorical_columns
  = Ok (scaled_X, categorical_scaler, numerical_scaler).


End RoundTripReturns.

(** ** [data_transformation] goes through on frames of numbers *)

Lemma MinMax_fit_transform_progress (s : MinMaxScaler) (X : list Q) :
  Qle_bool (snd (feature_range s)) (fst (feature_range s)) = false -> X <> [] ->
  exists t' Y, fit_transform (MinMax s) X = Ok (t', Y).
Proof.
  destruct s as [[lo hi] cl sm]. cbn [feature_range fst snd]. intros H HX.
  destruct X as [|x X]; [congruence|].
  unfold fit_transform, MinMaxScaler_fit. cbn [feature_range]. rewrite H.
  cbn [check_array rbind np.min np.max].
  unfold MinMaxScaler_transform. cbn [scale_min_ check_array rbind feature_range].
  eexists. eexists. reflexivity.
Qed.

Lemma Quantile_fit_transform_progress (q : QuantileTransformer) (X : list Q) :
  (1 <= n_quantiles q)%nat -> X <> [] ->
  exists t' Y, fit_transform (Quantile q) X = Ok (t', Y).
Proof.
  destruct q as [n rq]. cbn [n_quantiles]. intros H HX.
  destruct X as [|x X]; [congruence|].
  unfold fit_transform, QuantileTransformer_fit. cbn [n_quantiles].
  destruct (Nat.ltb_spec n 1) as [Hlt|_]; [lia|].
  cbn [check_array rbind].
  unfold QuantileTransformer_transform. cbn [references_quantiles_ check_array rbind].
  eexists. eexists. reflexivity.
Qed.

Lemma initial_categorical_scaler_progress (X : list Q) :
  X <> [] -> exists p Y, Pipeline_fit_transform initial_categorical_scaler X = Ok (p, Y).
Proof.
  intros HX. unfold initial_categorical_scaler. cbn [Pipeline_fit_transform].
  destruct (MinMax_fit_transform_progress
              {| feature_range := (- (1), 1); clip := true; scale_min_ := None |} X
              eq_refl HX) as (t' & Y & ->).
  cbn [rbind]. eexists. eexists. reflexivity.
Qed.

Lemma initial_numerical_scaler_progress (n : nat) (X : list Q) :
  (1 <= n)%nat -> X <> [] ->
  exists p Y, Pipeline_fit_transform (initial_numerical_scaler n) X = Ok (p, Y).
Proof.
  intros Hn HX. unfold initial_numerical_scaler. cbn [Pipeline_fit_transform].
  destruct (Quantile_fit_transform_progress
              {| n_quantiles := n; references_quantiles_ := None |} X Hn HX)
    as (t' & Y & E).
  rewrite E. cbn [rbind].
  destruct (fit_transform_fitted _ _ _ _ E) as (_ & _ & HL).
  destruct (MinMax_fit_transform_progress
              {| feature_range := (- (1), 1); clip := true; scale_min_ := None |} Y
              eq_refl (nonempty_length X Y HL HX)) as (t'' & Z & ->).
  cbn [rbind]. eexists. eexists. reflexivity.
Qed.

Lemma setitem_In (df : pd.DataFrame) (c : string) (dt : pd.dtype) (vs : list pd.value)
  (s : pd.Series) :
  In s (pd.setitem df c dt vs) ->
  In s df \/ s = {| pd.name := c; pd.dtype_of := dt; pd.values := vs |}.
Proof.
  unfold pd.setitem.
  destruct (existsb _ df).
  - intros H. apply in_map_iff in H as (s0 & E & Hs0).
    destruct (String.eqb (pd.name s0) c); [now right|left; now subst].
  - intros H. apply in_app_or in H as [H|[<-|[]]]; auto.
Qed.

Lemma cells_of_numpy (vs : list pd.value) :
  (forall v, In v vs -> exists x, v = pd.VNum x) -> exists X, vs = pd.of_numpy X.
Proof.
  induction vs as [|v vs IH]; intros H.
  - now exists [].
  - destruct (H v (or_introl eq_refl)) as (x & ->).
    destruct IH as (X & ->); [intros w Hw; apply H; now right|].
    now exists (x :: X).
Qed.

Lemma columns_to_numpy_progress (sx : pd.DataFrame) :
  (forall s, In s sx -> exists X, pd.values s = pd.of_numpy X) ->
  exists cols, pd.columns_to_numpy sx = Ok cols.
Proof.
  induction sx as [|s sx IH]; intros H; simpl.
  - now exists [].
  - destruct (H s (or_introl eq_refl)) as (X & ->).
    rewrite to_numpy_of_numpy. cbn [rbind].
    destruct IH as (cols & ->); [intros t Ht; apply H; now right|].
    cbn [rbind]. eexists. reflexivity.
Qed.

Lemma scale_loop_progress (df : pd.DataFrame) (init : Pipeline) (cs : list string) :
  (forall X, X <> [] -> exists p Y, Pipeline_fit_transform init X = Ok (p, Y)) ->
  (forall c, In c cs ->
     exists col X, pd.getitem df c = Ok col /\ pd.values col = pd.of_numpy X /\ X <> []) ->
  forall (sx : pd.DataFrame) (sc : Pipeline),
    map unfit sc = map unfit init ->
    (forall s, In s sx -> exists X, pd.values s = pd.of_numpy X) ->
    exists sx' sc',
      for_each cs (scale_column df) (sx, sc) = Ok (sx', sc')
      /\ forall s, In s sx' -> exists X, pd.values s = pd.of_numpy X.
Proof.
  intros Hinit Hcs sx sc Hsc Hsx.
  destruct (for_each_progress
              (fun st : pd.DataFrame * Pipeline =>
                 map unfit (snd st) = map unfit init
                 /\ forall s, In s (fst st) -> exists X, pd.values s = pd.of_numpy X)
              (scale_column df) cs) with (s := (sx, sc)) as ([sx' sc'] & E & _ & H).
  - intros c [fx fc] Hc [Hu Hn]. cbn [fst snd] in Hu, Hn.
    destruct (Hcs c Hc) as (col & X & Hg & HX & Hne).
    unfold scale_column. rewrite Hg. cbn [rbind]. rewrite HX, to_numpy_of_numpy.
    cbn [rbind].
    rewrite (Pipeline_fit_transform_unfit fc), Hu, <- (Pipeline_fit_transform_unfit init).
    destruct (Hinit X Hne) as (p & Y & E). rewrite E. cbn [rbind].
    eexists. split; [reflexivity|]. cbn [fst snd]. split.
    + apply Pipeline_fit_transform_fitted in E. tauto.
    + intros s Hs. apply setitem_In in Hs as [Hs| ->]; [now apply Hn|].
      now exists Y.
  - now split.
  - exists sx', sc'. split; [exact E|exact H].
Qed.

Lemma data_transformation_progress (df : pd.DataFrame) :
  NoDup (pd.columns df) ->
  (forall s, In s df -> List.length (pd.values s) = pd.len df) ->
  (forall s v, In s df -> In v (pd.values s) -> exists x, v = pd.VNum x) ->
  (1 <= pd.len df)%nat ->
  exists scaled_X categorical_scaler numerical_scaler,
    data_transformation df (fst (columns_type df)) (snd (columns_type df))
    = Ok (scaled_X, categorical_scaler, numerical_scaler).
Proof.
  intros Hnd Hrect Hnum Hlen.
  assert (Hcol : forall c, In c (pd.columns df) ->
            exists col X, pd.getitem df c = Ok col /\ pd.values col = pd.of_numpy X
                          /\ X <> []).
  { intros c Hc. apply in_map_iff in Hc as (s & <- & Hs).
    destruct (cells_of_numpy (pd.values s) (fun v => Hnum s v Hs)) as (X & HX).
    exists s, X. split; [now apply getitem_In|]. split; [exact HX|].
    intros ->. pose proof (Hrect s Hs) as HL. rewrite HX in HL. simpl in HL. lia. }
  pose proof (columns_type_spec df Hnd) as Hspec.
  destruct (columns_type df) as [num cat]. cbn [fst snd].
  destruct Hspec as (Hperm & _).
  assert (Hci : forall c, In c cat -> In c (pd.columns df)).
  { intros x Hx. apply (Permutation_in x Hperm), in_or_app. now right. }
  assert (Hni : forall c, In c num -> In c (pd.columns df)).
  { intros x Hx. apply (Permutation_in x Hperm), in_or_app. now left. }
  unfold data_transformation.
  set (nq := if (99 <? pd.len df)%nat then 100%nat else pd.len df).
  assert (Hnq : (1 <= nq)%nat) by (unfold nq; destruct (99 <? pd.len df)%nat; lia).
  destruct (scale_loop_progress df initial_categorical_scaler cat
              initial_categorical_scaler_progress (fun c Hc => Hcol c (Hci c Hc))
              df initial_categorical_scaler eq_refl)
    as (sx1 & sc1 & E1 & H1).
  { intros s Hs. exact (cells_of_numpy (pd.values s) (fun v => Hnum s v Hs)). }
  unfold initial_categorical_scaler in E1. unfold make_pipeline. rewrite E1.
  cbn [rbind].
  destruct (scale_loop_progress df (initial_numerical_scaler nq) num
              (fun X => initial_numerical_scaler_progress nq X Hnq)
              (fun c Hc => Hcol c (Hni c Hc))
              sx1 (initial_numerical_scaler nq) eq_refl H1)
    as (sx2 & sc2 & E2 & H2).
  unfold initial_numerical_scaler in E2. rewrite E2. cbn [rbind].
  unfold pd.to_matrix.
  destruct (columns_to_numpy_progress sx2 H2) as (cols & ->). cbn [rbind].
  eexists. eexists. eexists. reflexivity.
Qed.

(** ** Round trip, C3 *)




(** * Further properties of the module *)

(** ** The scaled matrix *)

Lemma In_combine_seq {A : Type} (l : list A) (d : A) (j start : nat) :
  (j < List.length l)%nat ->
  In ((start + j)%nat, nth j l d) (combine (seq start (List.length l)) l).
Proof.
  revert j start. induction l as [|a l IH]; intros j start Hj; simpl in Hj; [lia|].
  destruct j as [|j]; simpl.
  - left. f_equal. lia.
  - right. replace (start + S j)%nat with (S start + j)%nat by lia.
    apply IH. lia.
Qed.

Lemma DataFrame_of_matrix_rows (m : list (list Q)) (labels : list string)
  (nd : pd.DataFrame) :
  pd.DataFrame_of_matrix m labels = Ok nd ->
  forall row, In row m -> List.length row = List.length labels.
Proof.
  unfold pd.DataFrame_of_matrix.
  destruct (forallb _ m) eqn:E; [|discriminate]. intros _ row Hrow.
  rewrite forallb_forall in E. now apply Nat.eqb_eq, E.
Qed.

Lemma DataFrame_of_matrix_entry (m : list (list Q)) (labels : list string)
  (nd : pd.DataFrame) (row : list Q) (x : Q) :
  pd.DataFrame_of_matrix m labels = Ok nd -> In row m -> In x row ->
  exists s, In s nd /\ In (pd.VNum x) (pd.values s).
Proof.
  intros H Hrow Hx.
  pose proof (DataFrame_of_matrix_rows m labels nd H row Hrow) as Hlen.
  unfold pd.DataFrame_of_matrix in H.
  destruct (forallb _ m); [|discriminate]. injection H as <-.
  destruct (In_nth row x 0 Hx) as (j & Hj & <-).
  exists {| pd.name := nth j labels ""%string; pd.dtype_of := pd.float64;
            pd.values := map (fun r => pd.VNum (nth j r 0)) m |}.
  split.
  - apply in_map_iff. exists (j, nth j labels ""%string). split; [reflexivity|].
    apply (In_combine_seq labels ""%string j 0). lia.
  - cbn [pd.values]. apply in_map_iff. now exists row.
Qed.

Lemma initial_categorical_scaler_range (X : list Q) (p : Pipeline) (Y : list Q) :
  Pipeline_fit_transform initial_categorical_scaler X = Ok (p, Y) ->
  forall y, In y Y -> - (1) <= y <= 1.
Proof.
  unfold initial_categorical_scaler. cbn [Pipeline_fit_transform]. intros H.
  destruct (fit_transform _ X) as [[t' Y1]|] eqn:E; cbn [rbind] in H; [|discriminate].
  injection H as _ <-.
  now apply MinMax_fit_transform_range in E.
Qed.

Lemma initial_numerical_scaler_range (n : nat) (X : list Q) (p : Pipeline) (Y : list Q) :
  Pipeline_fit_transform (initial_numerical_scaler n) X = Ok (p, Y) ->
  forall y, In y Y -> - (1) <= y <= 1.
Proof.
  unfold initial_numerical_scaler. cbn [Pipeline_fit_transform]. intros H.
  destruct (fit_transform (Quantile _) X) as [[t1 Y1]|]; cbn [rbind] in H; [|discriminate].
  destruct (fit_transform (MinMax _) Y1) as [[t2 Y2]|] eqn:E; cbn [rbind] in H;
    [|discriminate].
  injection H as _ <-.
  now apply MinMax_fit_transform_range in E.
Qed.

(** X1.  Every entry of the matrix that [data_transformation] returns lies
    between -1 and 1, both included. *)
Theorem scaled_matrix_range (df : pd.DataFrame) (scaled_X : list (list Q))
  (categorical_scaler numerical_scaler : Pipeline) :
  NoDup (pd.columns df) ->
  (forall s, In s df -> List.length (pd.values s) = pd.len df) ->
  data_transformation df (fst (columns_type df)) (snd (columns_type df))
  = Ok (scaled_X, categorical_scaler, numerical_scaler) ->
  forall row x, In row scaled_X -> In x row -> - (1) <= x <= 1.
Proof.
  intros Hnd Hrect Hdt row x Hrow Hx.
  destruct (round_trip_lists df scaled_X categorical_scaler numerical_scaler Hnd Hdt)
    as (Hcat & Hnum & Hdisj & Hcover).
  destruct (data_transformation_spec df _ _ scaled_X categorical_scaler numerical_scaler
              Hnd Hcat Hnum Hdisj Hcover Hrect Hdt)
    as (g & Hg & Vcat & Vnum & _).
  destruct (DataFrame_of_matrix_entry scaled_X (pd.columns df) g row x Hg Hrow Hx)
    as (s & Hs & Hv).
  assert (Hgs : pd.getitem g (pd.name s) = Ok s).
  { apply getitem_In; [|exact Hs].
    now rewrite (DataFrame_of_matrix_columns _ _ _ Hg). }
  assert (Hc : In (pd.name s) (pd.columns df)).
  { rewrite <- (DataFrame_of_matrix_columns _ _ _ Hg). now apply in_map. }
  assert (Hin : forall Y, pd.getitem g (pd.name s)
                          = Ok {| pd.name := pd.name s; pd.dtype_of := pd.float64;
                                  pd.values := pd.of_numpy Y |} -> In x Y).
  { intros Y HY. rewrite Hgs in HY. injection HY as HY. rewrite HY in Hv.
    cbn [pd.values] in Hv. apply in_map_iff in Hv as (y & Ey & Hy).
    now injection Ey as <-. }
  destruct (Hcover _ Hc) as [Hc'|Hc'].
  - destruct (Vcat _ Hc') as (col & X & p & Y & _ & _ & Hf & HY).
    exact (initial_categorical_scaler_range X p Y Hf x (Hin Y HY)).
  - destruct (Vnum _ Hc') as (col & X & p & Y & _ & _ & Hf & HY).
    exact (initial_numerical_scaler_range _ X p Y Hf x (Hin Y HY)).
Qed.

(** The scaled matrix of [frame_C3]. *)
Lemma scaled_matrix_range_witness :
  Forall (Forall (fun x => - (1) <= x <= 1)) (fst (fst fitted_C3)).
Proof.
  apply Forall_forall. intros row Hrow. apply Forall_forall. intros x Hx.
  revert row x Hrow Hx.
  apply (scaled_matrix_range frame_C3 (fst (fst fitted_C3)) (snd (fst fitted_C3))
           (snd fitted_C3)).
  - repeat constructor; simpl; intuition discriminate.
  - intros s [<-|[<-|[<-|[]]]]; reflexivity.
  - vm_compute. reflexivity.
Defined.

Lemma data_transformation_shape (df : pd.DataFrame) (scaled_X : list (list Q))
  (categorical_scaler numerical_scaler : Pipeline) :
  NoDup (pd.columns df) ->
  (forall s, In s df -> List.length (pd.values s) = pd.len df) ->
  data_transformation df (fst (columns_type df)) (snd (columns_type df))
  = Ok (scaled_X, categorical_scaler, numerical_scaler) ->
  List.length scaled_X = pd.len df
  /\ forall row, In row scaled_X -> List.length row = List.length (pd.columns df).
Proof.
  intros Hnd Hrect Hdt.
  destruct (round_trip_lists df scaled_X categorical_scaler numerical_scaler Hnd Hdt)
    as (Hcat & Hnum & Hdisj & Hcover).
  destruct (data_transformation_spec df _ _ scaled_X categorical_scaler numerical_scaler
              Hnd Hcat Hnum Hdisj Hcover Hrect Hdt)
    as (g & Hg & Vcat & Vnum & _).
  split; [|exact (DataFrame_of_matrix_rows scaled_X (pd.columns df) g Hg)].
  destruct df as [|s0 df'] eqn:Edf.
  - cbn in Hdt. now injection Hdt as <- _ _.
  - rewrite <- Edf in *.
    assert (Hs0 : In s0 df) by (rewrite Edf; now left).
    assert (Hc : In (pd.name s0) (pd.columns df)) by now apply in_map.
    destruct (DataFrame_of_matrix_getitem scaled_X (pd.columns df) g _ Hg Hc)
      as (j & Hj).
    assert (Hlen : forall col X p Y init,
               pd.getitem df (pd.name s0) = Ok col ->
               pd.to_numpy (pd.values col) = Ok X ->
               Pipeline_fit_transform init X = Ok (p, Y) ->
               pd.getitem g (pd.name s0)
               = Ok {| pd.name := pd.name s0; pd.dtype_of := pd.float64;
                       pd.values := pd.of_numpy Y |} ->
               List.length scaled_X = pd.len df).
    { intros col X p Y init Hcol HX Hf HY.
      rewrite Hj in HY. injection HY as HY.
      apply (f_equal (@List.length _)) in HY. unfold pd.of_numpy in HY.
      rewrite !length_map in HY. rewrite HY.
      apply Pipeline_fit_transform_fitted in Hf as (_ & _ & ->).
      rewrite (to_numpy_length _ _ HX).
      apply Hrect. now apply getitem_Ok in Hcol as [Hi _]. }
    destruct (Hcover _ Hc) as [Hc'|Hc'].
    + destruct (Vcat _ Hc') as (col & X & p & Y & Hcol & HX & Hf & HY).
      exact (Hlen col X p Y _ Hcol HX Hf HY).
    + destruct (Vnum _ Hc') as (col & X & p & Y & Hcol & HX & Hf & HY).
      exact (Hlen col X p Y _ Hcol HX Hf HY).
Qed.

(** X2.  The matrix that [data_transformation] returns has one row for each
    row of the frame and, in each row, one entry for each column. *)
Theorem scaled_matrix_shape (df : pd.DataFrame) (scaled_X : list (list Q))
  (categorical_scaler numerical_scaler : Pipeline) :
  NoDup (pd.columns df) ->
  (forall s, In s df -> List.length (pd.values s) = pd.len df) ->
  data_transformation df (fst (columns_type df)) (snd (columns_type df))
  = Ok (scaled_X, categorical_scaler, numerical_scaler) ->
  List.length scaled_X = pd.len df
  /\ forall row, In row scaled_X -> List.length row = List.length (pd.columns df).
Proof. exact (data_transformation_shape df scaled_X categorical_scaler numerical_scaler). Qed.

(** X3.  The two scalers that [data_transformation] returns are what a
    fresh pipeline becomes when it is fitted on one column alone: the last
    categorical column, and the last numerical column.  The fits on the
    columns before them are overwritten. *)
Theorem returned_scalers_fit_last_column (df : pd.DataFrame) (scaled_X : list (list Q))
  (categorical_scaler numerical_scaler : Pipeline) :
  NoDup (pd.columns df) ->
  (forall s, In s df -> List.length (pd.values s) = pd.len df) ->
  data_transformation df (fst (columns_type df)) (snd (columns_type df))
  = Ok (scaled_X, categorical_scaler, numerical_scaler) ->
  (forall before c, snd (columns_type df) = before ++ [c] ->
     exists col X Y,
       pd.getitem df c = Ok col /\ pd.to_numpy (pd.values col) = Ok X
       /\ Pipeline_fit_transform initial_categorical_scaler X = Ok (categorical_scaler, Y))
  /\ (forall before c, fst (columns_type df) = before ++ [c] ->
        exists col X Y,
          pd.getitem df c = Ok col /\ pd.to_numpy (pd.values col) = Ok X
          /\ Pipeline_fit_transform
               (initial_numerical_scaler
                  (if (99 <? pd.len df)%nat then 100%nat else pd.len df)) X
             = Ok (numerical_scaler, Y)).
Proof.
  intros Hnd Hrect Hdt.
  destruct (round_trip_lists df scaled_X categorical_scaler numerical_scaler Hnd Hdt)
    as (Hcat & Hnum & Hdisj & Hcover).
  destruct (data_transformation_spec df _ _ scaled_X categorical_scaler numerical_scaler
              Hnd Hcat Hnum Hdisj Hcover Hrect Hdt)
    as (g & _ & _ & _ & Lcat & Lnum & _).
  split; [exact Lcat|exact Lnum].
Qed.

(** On [frame_C3] the categorical scaler is fitted on [k], the last
    categorical column, and not on [b]. *)
Lemma returned_scalers_fit_last_column_witness :
  exists col X Y,
    pd.getitem frame_C3 "k" = Ok col /\ pd.to_numpy (pd.values col) = Ok X
    /\ Pipeline_fit_transform initial_categorical_scaler X = Ok (snd (fst fitted_C3), Y).
Proof.
  refine (proj1 (returned_scalers_fit_last_column frame_C3 (fst (fst fitted_C3))
                   (snd (fst fitted_C3)) (snd fitted_C3) _ _ _) ["b"%string] "k"%string _).
  - repeat constructor; simpl; intuition discriminate.
  - intros s [<-|[<-|[<-|[]]]]; reflexivity.
  - vm_compute. reflexivity.
  - reflexivity.
Defined.

(** The scaled matrix of [frame_C3]: three rows of three entries. *)
Lemma scaled_matrix_shape_witness :
  List.length (fst (fst fitted_C3)) = pd.len frame_C3
  /\ forall row, In row (fst (fst fitted_C3)) ->
       List.length row = List.length (pd.columns frame_C3).
Proof.
  apply (scaled_matrix_shape frame_C3 (fst (fst fitted_C3)) (snd (fst fitted_C3))
           (snd fitted_C3)).
  - repeat constructor; simpl; intuition discriminate.
  - intros s [<-|[<-|[<-|[]]]]; reflexivity.
  - vm_compute. reflexivity.
Defined.

(** ** The trace of a run that returns *)

Lemma train_gan_Ok_inv (G : GAN_class) (epochs batch_size : nat)
  (X : list (list Q)) (n : nat) (lr d : Q) (w : world G) (tr : list event)
  (G_loss D_loss : Q) (g : gan G) (s1 : world G * list event) :
  train_gan G epochs batch_size X n lr d (w, tr) = (Ok (G_loss, D_loss, g), s1) ->
  exists w1 w2,
    GAN_init G n lr d w = (Ok g, w1)
    /\ GAN_train G g X epochs batch_size w1 = (Ok (G_loss, D_loss), w2)
    /\ s1 = (w2, tr ++ [Construct n lr d; Train epochs batch_size]).
Proof.
  unfold train_gan. destruct X as [|a0 X']; [discriminate|].
  destruct (negb _); [discriminate|].
  unfold bind, call, ret. cbn [fst snd].
  destruct (GAN_init G n lr d w) as [[g0|e] w1] eqn:Einit; cbn iota beta;
    [|discriminate].
  cbn [fst snd].
  destruct (GAN_train G g0 (a0 :: X') epochs batch_size w1) as [[[gl dl]|e] w2] eqn:Etrain;
    cbn iota beta; [|discriminate].
  intros H. injection H as <- <- <- <-.
  exists w1, w2. split; [reflexivity|]. split; [exact Etrain|].
  now rewrite <- app_assoc.
Qed.

(** X4.  A run of [synthetic_data] that returns a frame has constructed the
    generator with as many features as the frame has columns and with the
    given dropout and learning rate, and trained it on the scaled matrix
    with the given epochs and batch size.  If the generator loss of that
    training is at most 1, the run then asks for [samples] rows and makes no
    other call.  If the loss is above 1, it constructs and trains a second
    generator, with a tenth of the learning rate, asks for [samples] rows and
    makes no other call, whatever the second loss is. *)
Theorem returned_run_trace (G : GAN_class) (epochs batch_size : nat)
  (df : pd.DataFrame) (samples : nat) (initial_lr dropout : Q)
  (w w' : world G) (tr tr' : list event) (newdf : pd.DataFrame) :
  synthetic_data G epochs batch_size df samples initial_lr dropout (w, tr)
  = (Ok newdf, (w', tr')) ->
  let n := List.length (pd.columns df) in
  exists scaled_X categorical_scaler numerical_scaler g w1 G_loss D_loss w2,
    data_transformation df (fst (columns_type df)) (snd (columns_type df))
    = Ok (scaled_X, categorical_scaler, numerical_scaler)
    /\ GAN_init G n initial_lr dropout w = (Ok g, w1)
    /\ GAN_train G g scaled_X epochs batch_size w1 = (Ok (G_loss, D_loss), w2)
    /\ ((G_loss <= 1
         /\ tr' = tr ++ [Construct n initial_lr dropout; Train epochs batch_size;
                         Sample samples])
        \/ (1 < G_loss
            /\ tr' = tr ++ [Construct n initial_lr dropout; Train epochs batch_size;
                            Construct n (initial_lr / 10) dropout;
                            Train epochs batch_size; Sample samples])).
Proof.
  unfold synthetic_data.
  destruct (0 <? list_sum (pd.isnull_sum df))%nat; [discriminate|].
  unfold bind at 1.
  destruct (string_check_state (world G) df (pd.columns df) (w, tr)) as [r0 ->].
  destruct r0 as [[]|e]; [|discriminate].
  unfold columns_type. cbv zeta. cbv iota. cbn [fst snd].
  unfold bind at 1. unfold lift at 1.
  destruct (data_transformation _ _ _) as [[[X cs] ns]|e]; [|discriminate].
  unfold bind at 1.
  destruct (train_gan G epochs batch_size X _ initial_lr dropout (w, tr))
    as [[[[gl dl] g]|e] s1] eqn:E1; [|discriminate].
  apply train_gan_Ok_inv in E1 as (w1 & w2 & Hinit & Htrain & ->).
  unfold bind at 1.
  assert (Htail : forall (g0 : gan G) (s0 : world G * list event),
            bind (call (Sample samples) (GAN_create_fake_samples G g0 samples))
              (fun x : list (list Q) * list Q =>
                 let (x_synthetic, _) := x in
                 (newdf <~ lift (generate_data df x_synthetic
                                   (pd.select_dtypes_include_categorical df)
                                   (pd.select_dtypes_exclude_categorical df) cs ns) ;;
                  newdf <~ lift (for_each (pd.select_dtypes_exclude_categorical df)
                                   (rescale_numerical df) newdf) ;;
                  ret newdf)%run) s0
            = (Ok newdf, (w', tr')) ->
            tr' = snd s0 ++ [Sample samples]).
  { intros g0 [w0 tr0]. unfold bind, call, lift, ret. cbn [fst snd].
    destruct (GAN_create_fake_samples G g0 samples w0) as [[[xs ys]|e] w3];
      [|discriminate].
    destruct (generate_data _ _ _ _ _ _) as [nd|e]; [|discriminate].
    destruct (for_each _ _ nd) as [nd'|e]; [|discriminate].
    intros H. now injection H as _ _ <-. }
  intros H. exists X, cs, ns, g, w1, gl, dl, w2.
  split; [reflexivity|]. split; [exact Hinit|]. split; [exact Htrain|].
  unfold np.ltb in H. destruct (Qle_bool gl 1) eqn:Egl; cbn [negb] in H.
  - left. split; [now apply Qle_bool_iff|].
    unfold ret at 1 in H. apply Htail in H. cbn [snd] in H.
    rewrite H, <- app_assoc. reflexivity.
  - right. split; [now apply Qle_bool_false|].
    destruct (train_gan G epochs batch_size X _ (initial_lr / 10) dropout _)
      as [[[[gl2 dl2] g2]|e] s2] eqn:E2; [|discriminate].
    apply train_gan_Ok_inv in E2 as (w3 & w4 & _ & _ & ->).
    apply Htail in H. cbn [snd] in H.
    rewrite H, <- !app_assoc. reflexivity.
Qed.

(** A run on [frame_C1] with a generator whose loss is one half. *)
Lemma returned_run_trace_witness :
  let G := constant_GAN (1 # 2) [[1; -(1)]; [-(1); 1]; [0; 1]] in
  let n := List.length (pd.columns frame_C1) in
  exists scaled_X categorical_scaler numerical_scaler g w1 G_loss D_loss w2,
    data_transformation frame_C1 (fst (columns_type frame_C1))
      (snd (columns_type frame_C1))
    = Ok (scaled_X, categorical_scaler, numerical_scaler)
    /\ GAN_init G n (2 # 10000) (1 # 2) tt = (Ok g, w1)
    /\ GAN_train G g scaled_X 10 48 w1 = (Ok (G_loss, D_loss), w2)
    /\ ((G_loss <= 1
         /\ [Construct 2 (2 # 10000) (1 # 2); Train 10 48; Sample 3]
            = [] ++ [Construct n (2 # 10000) (1 # 2); Train 10 48; Sample 3])
        \/ (1 < G_loss
            /\ [Construct 2 (2 # 10000) (1 # 2); Train 10 48; Sample 3]
               = [] ++ [Construct n (2 # 10000) (1 # 2); Train 10 48;
                        Construct n ((2 # 10000) / 10) (1 # 2);
                        Train 10 48; Sample 3])).
Proof.
  intros G.
  eapply (returned_run_trace G 10 48 frame_C1 3 (2 # 10000) (1 # 2) tt tt []).
  vm_compute. reflexivity.
Defined.

(** ** Frames without rows *)

(** X5.  A frame with distinct labels and at least one column, whose
    columns hold no cell, is rejected before any generator is constructed,
    though not by the two tests for missing values and strings: the look-up
    of the first row raises an [IndexError]. *)
Theorem frame_without_rows_rejected (G : GAN_class) (epochs batch_size : nat)
  (df : pd.DataFrame) (samples : nat) (initial_lr dropout : Q)
  (w : world G) (tr : list event) :
  df <> [] -> NoDup (pd.columns df) ->
  (forall s, In s df -> pd.values s = []) ->
  synthetic_data G epochs batch_size df samples initial_lr dropout (w, tr)
  = (Raise (IndexError "single positional indexer is out-of-bounds"), (w, tr)).
Proof.
  intros Hdf _ Hempty. unfold synthetic_data.
  rewrite isnull_sum_zero.
  2:{ intros s v Hs Hv. rewrite (Hempty s Hs) in Hv. destruct Hv. }
  destruct df as [|s0 df']; [congruence|].
  cbn [pd.columns map for_each_run]. unfold bind at 1. unfold bind at 1.
  unfold lift at 1. unfold pd.iloc0.
  rewrite (Hempty s0 (or_introl eq_refl)). reflexivity.
Qed.

(** A frame with one column and no row. *)
Lemma frame_without_rows_rejected_witness :
  synthetic_data (constant_GAN (1 # 2) []) 10 48 frame_without_rows
    5 (2 # 10000) (1 # 2) (tt, [])
  = (Raise (IndexError "single positional indexer is out-of-bounds"), (tt, [])).
Proof.
  apply (frame_without_rows_rejected (constant_GAN (1 # 2) []) 10 48 frame_without_rows
           5 (2 # 10000) (1 # 2) tt []).
  - discriminate.
  - repeat constructor; simpl; tauto.
  - intros s [<-|[]]. reflexivity.
Defined.

(** ** Constant numerical columns *)

Lemma for_each_Ok_In {A S : Type} (body : A -> S -> result S) (xs : list A) (c : A) :
  In c xs -> forall s s', for_each xs body s = Ok s' -> exists p q, body c p = Ok q.
Proof.
  induction xs as [|x xs IH]; intros Hin s s' H; [destruct Hin|].
  simpl in H. destruct (body x s) as [s1|e] eqn:E; cbn [rbind] in H; [|discriminate].
  destruct Hin as [->|Hin]; [now exists s, s1|].
  exact (IH Hin s1 s' H).
Qed.

(** X6.  If a numerical column of the input holds one value only, its
    least and its greatest value are equal, the range scaler of the last
    loop refuses that target range, and [synthetic_data] returns no frame,
    whatever the generator does. *)
Theorem constant_numerical_column_rejected (G : GAN_class) (epochs batch_size : nat)
  (df : pd.DataFrame) (samples : nat) (initial_lr dropout : Q)
  (s : world G * list event) (c : string) (col : pd.Series) (orig : list Q) (lo hi : Q) :
  In c (fst (columns_type df)) ->
  pd.getitem df c = Ok col -> pd.to_numpy (pd.values col) = Ok orig ->
  np.min orig = Ok lo -> np.max orig = Ok hi -> lo == hi ->
  forall newdf s',
    synthetic_data G epochs batch_size df samples initial_lr dropout s <> (Ok newdf, s').
Proof.
  intros Hin Hc Ho Hlo Hhi Heq newdf s' H.
  apply synthetic_data_Ok_inv in H as (X & cs & ns & xs & nd0 & _ & _ & Hloop).
  destruct (for_each_Ok_In (rescale_numerical df) _ c Hin nd0 newdf Hloop)
    as (p & q & Hbody).
  unfold rescale_numerical in Hbody.
  rewrite Hc in Hbody; cbn [rbind] in Hbody. rewrite Ho in Hbody; cbn [rbind] in Hbody.
  rewrite Hlo in Hbody; cbn [rbind] in Hbody. rewrite Hhi in Hbody; cbn [rbind] in Hbody.
  destruct (pd.getitem p c) as [ncol|e]; cbn [rbind] in Hbody; [|discriminate].
  destruct (pd.to_numpy (pd.values ncol)) as [Xc|e]; cbn [rbind] in Hbody; [|discriminate].
  destruct (fit_transform _ Xc) as [[t' Y]|e] eqn:E; cbn [rbind] in Hbody; [|discriminate].
  apply MinMax_fit_transform_range in E as (Hlt & _).
  rewrite Heq in Hlt. exact (Qlt_irrefl hi Hlt).
Qed.

(** On [frame_constant] the generator is trained and sampled, and the last
    loop raises. *)
Lemma constant_numerical_column_rejected_witness :
  let G := constant_GAN (1 # 2) [[1]; [-(1)]; [0]] in
  synthetic_data G 10 48 frame_constant 3 (2 # 10000) (1 # 2) (tt, [])
  = (Raise (ValueError "Minimum of desired feature range must be smaller than maximum."),
     (tt, [Construct 1 (2 # 10000) (1 # 2); Train 10 48; Sample 3]))
  /\ forall newdf s',
       synthetic_data G 10 48 frame_constant 3 (2 # 10000) (1 # 2) (tt, [])
       <> (Ok newdf, s').
Proof.
  intros G. split; [vm_compute; reflexivity|].
  apply (constant_numerical_column_rejected G 10 48 frame_constant 3 (2 # 10000) (1 # 2)
           (tt, []) "x"%string
           {| pd.name := "x"; pd.dtype_of := pd.float64;
              pd.values := [pd.VNum 4; pd.VNum 4; pd.VNum 4] |}
           [4; 4; 4] 4 4).
  - simpl; auto.
  - reflexivity.
  - reflexivity.
  - reflexivity.
  - reflexivity.
  - reflexivity.
Defined.

(** ** What [generate_data] returns *)

Lemma inverse_transform_length (t : transformer) (X Y : list Q) :
  inverse_transform t X = Ok Y -> List.length Y = List.length X.
Proof.
  destruct t as [s|q]; simpl.
  - unfold MinMaxScaler_inverse_transform.
    destruct (scale_min_ s) as [[sc mn]|]; [|discriminate].
    destruct (check_array X); cbn [rbind]; [|discriminate].
    intros H; injection H as <-. apply length_map.
  - unfold QuantileTransformer_inverse_transform.
    destruct (references_quantiles_ q) as [[rf qs]|]; [|discriminate].
    destruct (check_array X); cbn [rbind]; [|discriminate].
    intros H; injection H as <-. apply length_map.
Qed.

Lemma Pipeline_inverse_transform_length (p : Pipeline) (X Y : list Q) :
  Pipeline_inverse_transform p X = Ok Y -> List.length Y = List.length X.
Proof.
  unfold Pipeline_inverse_transform. generalize (rev p) as ts. intros ts. revert X.
  induction ts as [|t ts IH]; intros X H; simpl in H.
  - now injection H as <-.
  - destruct (inverse_transform t X) as [X1|e] eqn:E; cbn [rbind] in H; [|discriminate].
    rewrite (IH X1 H). exact (inverse_transform_length t X X1 E).
Qed.

Lemma setitem_lengths (nd : pd.DataFrame) (c : string) (dt : pd.dtype)
  (vs : list pd.value) (n : nat) :
  (forall s, In s nd -> List.length (pd.values s) = n) -> List.length vs = n ->
  forall s, In s (pd.setitem nd c dt vs) -> List.length (pd.values s) = n.
Proof.
  intros Hnd Hvs s Hs. apply setitem_In in Hs as [Hs| ->]; [now apply Hnd|exact Hvs].
Qed.

Lemma getitem_to_numpy_length (nd : pd.DataFrame) (c : string) (col : pd.Series)
  (X : list Q) (n : nat) :
  (forall s, In s nd -> List.length (pd.values s) = n) ->
  pd.getitem nd c = Ok col -> pd.to_numpy (pd.values col) = Ok X -> List.length X = n.
Proof.
  intros Hnd Hc HX. rewrite (to_numpy_length _ _ HX).
  apply Hnd. now apply getitem_Ok in Hc as [Hin _].
Qed.

(** X7.  Every column of the frame that [generate_data] returns has as many
    cells as the synthetic matrix has rows. *)
Theorem generate_data_row_count (df : pd.DataFrame) (x_synthetic : list (list Q))
  (categorical_columns numerical_columns : list string)
  (categorical_scaler numerical_scaler : Pipeline) (newdf : pd.DataFrame) :
  generate_data df x_synthetic categorical_columns numerical_columns
    categorical_scaler numerical_scaler = Ok newdf ->
  forall s, In s newdf -> List.length (pd.values s) = List.length x_synthetic.
Proof.
  intros H.
  apply generate_data_Ok_inv in H as (nd0 & nd1 & nd2 & H0 & H1 & H2 & H3).
  set (n := List.length x_synthetic).
  set (P := fun nd : pd.DataFrame => forall s, In s nd -> List.length (pd.values s) = n).
  assert (P0 : P nd0).
  { unfold pd.DataFrame_of_matrix in H0.
    destruct (forallb _ x_synthetic); [|discriminate]. injection H0 as <-.
    intros s Hs. apply in_map_iff in Hs as (jc & <- & _).
    cbn [pd.values]. apply length_map. }
  assert (P1 : P nd1).
  { refine (for_each_invariant P _ categorical_columns _ nd0 nd1 H1 P0).
    intros c d d' _ Hb Pd. unfold decode_categorical in Hb.
    bind_inv Hb; [|now subst].
    subst d'. unfold P.
    match goal with
    | E1 : pd.getitem d c = Ok ?a, E2 : pd.to_numpy (pd.values ?a) = Ok ?X,
      E3 : Pipeline_inverse_transform _ ?X = Ok ?Y |- _ =>
        pose proof (getitem_to_numpy_length d c a X n Pd E1 E2) as LX;
        pose proof (Pipeline_inverse_transform_length _ X Y E3) as LY
    end.
    match goal with
    | E : KBinsDiscretizer_fit_transform _ ?Z = Ok ?codes,
      EZ : pd.to_numpy (pd.values ?b) = Ok ?Z,
      Eb : pd.getitem (pd.setitem d c pd.float64 (pd.of_numpy ?Y)) c = Ok ?b |- _ =>
        rewrite getitem_setitem_same in Eb; injection Eb as <-;
        cbn [pd.values] in EZ; rewrite to_numpy_of_numpy in EZ; injection EZ as <-;
        pose proof (KBins_length _ _ _ E) as LK
    end.
    match goal with
    | E : pd.getitem (pd.setitem _ c pd.int64 _) c = Ok ?b |- _ =>
        rewrite getitem_setitem_same in E; injection E as <-
    end.
    cbn [pd.values].
    repeat apply setitem_lengths; try exact Pd;
      unfold pd.of_numpy, pd.of_int_array; rewrite length_map; congruence. }
  assert (P2 : P nd2).
  { refine (for_each_invariant P _ numerical_columns _ nd1 nd2 H2 P1).
    intros c d d' _ Hb Pd. unfold decode_numerical in Hb.
    bind_inv Hb. subst d'.
    match goal with
    | E1 : pd.getitem d c = Ok ?a, E2 : pd.to_numpy (pd.values ?a) = Ok ?X,
      E3 : Pipeline_inverse_transform _ ?X = Ok ?Y |- _ =>
        pose proof (getitem_to_numpy_length d c a X n Pd E1 E2) as LX;
        pose proof (Pipeline_inverse_transform_length _ X Y E3) as LY
    end.
    unfold P. apply setitem_lengths; [exact Pd|].
    unfold pd.of_numpy. rewrite length_map. congruence. }
  refine (for_each_invariant P _ categorical_columns _ nd2 newdf H3 P2).
  intros c d d' _ Hb Pd. unfold remap_binary in Hb.
  bind_inv Hb; [|now subst].
  subst d'. unfold P. apply setitem_lengths; [exact Pd|].
  rewrite length_map. apply Pd.
  match goal with
  | E : pd.getitem d c = Ok _ |- _ => now apply getitem_Ok in E as [Hin _]
  end.
Qed.

(** Three synthetic rows for [frame_C3]. *)
Lemma generate_data_row_count_witness :
  exists newdf,
    generate_data frame_C3 samples_C3 ["b"; "k"]%string ["x"%string]
      (snd (fst fitted_C3)) (snd fitted_C3) = Ok newdf
    /\ forall s, In s newdf -> List.length (pd.values s) = List.length samples_C3.
Proof.
  eexists. split.
  - vm_compute. reflexivity.
  - apply (generate_data_row_count frame_C3 samples_C3 ["b"; "k"]%string ["x"%string]
             (snd (fst fitted_C3)) (snd fitted_C3)).
    vm_compute. reflexivity.
Defined.

(** X8.  A categorical column with more than two distinct values in the
    input comes out of [generate_data] as a categorical column of bin
    codes, each of them below the number [n] of distinct values: the cells
    are numbers among [0 .. n-1], whatever the original values were. *)
Theorem multi_valued_column_codes (df : pd.DataFrame) (x_synthetic : list (list Q))
  (categorical_columns numerical_columns : list string)
  (categorical_scaler numerical_scaler : Pipeline) (newdf : pd.DataFrame)
  (c : string) (col : pd.Series) (orig : list Q) :
  generate_data df x_synthetic categorical_columns numerical_columns
    categorical_scaler numerical_scaler = Ok newdf ->
  NoDup categorical_columns -> In c categorical_columns -> ~ In c numerical_columns ->
  pd.getitem df c = Ok col -> pd.to_numpy (pd.values col) = Ok orig ->
  (2 < List.length (np.unique orig))%nat ->
  exists codes,
    pd.getitem newdf c
    = Ok {| pd.name := c; pd.dtype_of := pd.CategoricalDtype;
            pd.values := pd.of_int_array codes |}
    /\ Forall (fun k => k < List.length (np.unique orig))%nat codes.
Proof.
  intros H Hnd Hin Hnum Hc Ho Hn.
  destruct (multi_column_chain df x_synthetic categorical_columns numerical_columns
              categorical_scaler numerical_scaler newdf c col orig
              H Hnd Hin Hnum Hc Ho Hn)
    as (g & gcol & X & Y & codes & _ & _ & _ & _ & HK & Hnew).
  exists codes. split; [exact Hnew|].
  exact (KBins_codes_bound _ Y codes HK).
Qed.

(** The column [k] of [frame_C3] has the three values 1, 2, 4. *)
Lemma multi_valued_column_codes_witness :
  exists newdf,
    generate_data frame_C3 samples_C3 ["b"; "k"]%string ["x"%string]
      (snd (fst fitted_C3)) (snd fitted_C3) = Ok newdf
    /\ exists codes,
         pd.getitem newdf "k"
         = Ok {| pd.name := "k"; pd.dtype_of := pd.CategoricalDtype;
                 pd.values := pd.of_int_array codes |}
         /\ Forall (fun k => (k < List.length (np.unique [1; 2; 4]%Q))%nat) codes.
Proof.
  eexists. split.
  - vm_compute. reflexivity.
  - apply (multi_valued_column_codes frame_C3 samples_C3 ["b"; "k"]%string ["x"%string]
             (snd (fst fitted_C3)) (snd fitted_C3) _ "k"%string
             {| pd.name := "k"; pd.dtype_of := pd.CategoricalDtype;
                pd.values := [pd.VNum 1; pd.VNum 2; pd.VNum 4] |} [1; 2; 4]).
    + vm_compute. reflexivity.
    + repeat constructor; simpl; intuition discriminate.
    + simpl; auto.
    + simpl; intros [H|[]]; discriminate H.
    + reflexivity.
    + reflexivity.
    + vm_compute. lia.
Defined.

(** ** The last loop of [synthetic_data] *)

Lemma rescale_numerical_dtype (df : pd.DataFrame) (c : string) (d d' : pd.DataFrame) :
  rescale_numerical df c d = Ok d' ->
  exists ncol, pd.getitem d' c = Ok ncol /\ pd.dtype_of ncol = pd.float64.
Proof.
  unfold rescale_numerical. intros H. bind_inv H. subst d'.
  rewrite getitem_setitem_same. eexists. split; reflexivity.
Qed.

(** X9.  In a frame that [synthetic_data] returns every numerical column
    has dtype [float64], whatever its dtype in the input. *)
Theorem numerical_output_float64 (G : GAN_class) (epochs batch_size : nat)
  (df : pd.DataFrame) (samples : nat) (initial_lr dropout : Q)
  (s s' : world G * list event) (newdf : pd.DataFrame) (c : string) :
  synthetic_data G epochs batch_size df samples initial_lr dropout s = (Ok newdf, s') ->
  In c (fst (columns_type df)) ->
  exists ncol, pd.getitem newdf c = Ok ncol /\ pd.dtype_of ncol = pd.float64.
Proof.
  intros H Hin.
  apply synthetic_data_Ok_inv in H as (X & cs & ns & xs & nd0 & _ & _ & Hloop).
  exact (for_each_establishes
           (fun r => exists ncol, r = Ok ncol /\ pd.dtype_of ncol = pd.float64)
           (rescale_numerical df) _ c (rescale_numerical_local df)
           (rescale_numerical_dtype df c) Hin nd0 newdf Hloop).
Qed.

(** The column [age] of [frame_C8] is [int64] in the input. *)
Lemma numerical_output_float64_witness :
  exists newdf s',
    synthetic_data (constant_GAN (1 # 2) [[1; -(1); 0]; [-(1); 1; 1]; [0; 1; -(1)]]) 10 48
      frame_C8 3 (2 # 10000) (1 # 2) (tt, []) = (Ok newdf, s')
    /\ exists ncol, pd.getitem newdf "age" = Ok ncol /\ pd.dtype_of ncol = pd.float64.
Proof.
  eexists _, _. split.
  - vm_compute. reflexivity.
  - eapply (numerical_output_float64
              (constant_GAN (1 # 2) [[1; -(1); 0]; [-(1); 1; 1]; [0; 1; -(1)]]) 10 48
              frame_C8 3 (2 # 10000) (1 # 2) (tt, [])).
    + vm_compute. reflexivity.
    + simpl; auto.
Defined.

(** What a successful run went through: the generator that is asked for
    samples is one the run has constructed and trained on the scaled
    matrix. *)
Lemma synthetic_data_Ok_sampled (G : GAN_class) (epochs batch_size : nat)
  (df : pd.DataFrame) (samples : nat) (initial_lr dropout : Q)
  (w w' : world G) (tr tr' : list event) (newdf : pd.DataFrame) :
  synthetic_data G epochs batch_size df samples initial_lr dropout (w, tr)
  = (Ok newdf, (w', tr')) ->
  exists scaled_X categorical_scaler numerical_scaler lr g wa wb G_loss D_loss w0 tr0
         x_synthetic y_synthetic newdf0,
    data_transformation df (fst (columns_type df)) (snd (columns_type df))
    = Ok (scaled_X, categorical_scaler, numerical_scaler)
    /\ (lr = initial_lr \/ lr = initial_lr / 10)
    /\ GAN_init G (List.length (pd.columns df)) lr dropout wa = (Ok g, wb)
    /\ GAN_train G g scaled_X epochs batch_size wb = (Ok (G_loss, D_loss), w0)
    /\ GAN_create_fake_samples G g samples w0 = (Ok (x_synthetic, y_synthetic), w')
    /\ tr' = tr0 ++ [Sample samples]
    /\ generate_data df x_synthetic (snd (columns_type df)) (fst (columns_type df))
         categorical_scaler numerical_scaler = Ok newdf0
    /\ for_each (fst (columns_type df)) (rescale_numerical df) newdf0 = Ok newdf.
Proof.
  unfold synthetic_data.
  destruct (0 <? list_sum (pd.isnull_sum df))%nat; [discriminate|].
  unfold bind at 1.
  destruct (string_check_state (world G) df (pd.columns df) (w, tr)) as [r0 ->].
  destruct r0 as [[]|e]; [|discriminate].
  unfold columns_type. cbv zeta. cbv iota. cbn [fst snd].
  unfold bind at 1. unfold lift at 1.
  destruct (data_transformation _ _ _) as [[[X cs] ns]|e]; [|discriminate].
  unfold bind at 1.
  destruct (train_gan G epochs batch_size X _ initial_lr dropout (w, tr))
    as [[[[gl dl] g]|e] s1] eqn:E1; [|discriminate].
  apply train_gan_Ok_inv in E1 as (w1 & w2 & Hinit & Htrain & ->).
  unfold bind at 1.
  assert (Htail : forall (g0 : gan G) (w0 : world G) (tr0 : list event),
            bind (call (Sample samples) (GAN_create_fake_samples G g0 samples))
              (fun x : list (list Q) * list Q =>
                 let (x_synthetic, _) := x in
                 (newdf <~ lift (generate_data df x_synthetic
                                   (pd.select_dtypes_include_categorical df)
                                   (pd.select_dtypes_exclude_categorical df) cs ns) ;;
                  newdf <~ lift (for_each (pd.select_dtypes_exclude_categorical df)
                                   (rescale_numerical df) newdf) ;;
                  ret newdf)%run) (w0, tr0)
            = (Ok newdf, (w', tr')) ->
            exists xs ys nd,
              GAN_create_fake_samples G g0 samples w0 = (Ok (xs, ys), w')
              /\ tr' = tr0 ++ [Sample samples]
              /\ generate_data df xs (pd.select_dtypes_include_categorical df)
                   (pd.select_dtypes_exclude_categorical df) cs ns = Ok nd
              /\ for_each (pd.select_dtypes_exclude_categorical df)
                   (rescale_numerical df) nd = Ok newdf).
  { intros g0 w0 tr0. unfold bind, call, lift, ret. cbn [fst snd].
    destruct (GAN_create_fake_samples G g0 samples w0) as [[[xs ys]|e] w3];
      [|discriminate].
    destruct (generate_data _ _ _ _ _ _) as [nd|e] eqn:Eg; [|discriminate].
    destruct (for_each _ _ nd) as [nd'|e] eqn:Er; [|discriminate].
    intros H. injection H as <- <- <-. now exists xs, ys, nd. }
  intros H. unfold np.ltb in H. destruct (Qle_bool gl 1) eqn:Egl; cbn [negb] in H.
  - unfold ret at 1 in H. apply Htail in H as (xs & ys & nd & Hs & Htr & Hgen & Hloop).
    exists X, cs, ns, initial_lr, g, w, w1, gl, dl, w2.
    eexists. exists xs, ys, nd.
    split; [reflexivity|]. split; [now left|]. split; [exact Hinit|].
    split; [exact Htrain|]. split; [exact Hs|]. split; [exact Htr|].
    split; [exact Hgen|exact Hloop].
  - destruct (train_gan G epochs batch_size X _ (initial_lr / 10) dropout _)
      as [[[[gl2 dl2] g2]|e] s2] eqn:E2; [|discriminate].
    apply train_gan_Ok_inv in E2 as (w3 & w4 & Hinit2 & Htrain2 & ->).
    apply Htail in H as (xs & ys & nd & Hs & Htr & Hgen & Hloop).
    exists X, cs, ns, (initial_lr / 10), g2, w2, w3, gl2, dl2, w4.
    eexists. exists xs, ys, nd.
    split; [reflexivity|]. split; [now right|]. split; [exact Hinit2|].
    split; [exact Htrain2|]. split; [exact Hs|]. split; [exact Htr|].
    split; [exact Hgen|exact Hloop].
Qed.

(** X10.  The last loop of [synthetic_data] rewrites numerical columns only.
    A run that returns a frame has constructed a generator, with the
    learning rate given or a tenth of it, trained it on the scaled matrix
    and then called its [create_fake_samples] for [samples] rows, the last
    call of the run.  Every column of the returned frame that is not
    numerical is the column that [generate_data] produced from the samples
    [x_synthetic] which that call returned, with the scalers of
    [data_transformation]. *)
Theorem rescale_leaves_other_columns (G : GAN_class) (epochs batch_size : nat)
  (df : pd.DataFrame) (samples : nat) (initial_lr dropout : Q)
  (s s' : world G * list event) (newdf : pd.DataFrame) :
  synthetic_data G epochs batch_size df samples initial_lr dropout s = (Ok newdf, s') ->
  exists scaled_X categorical_scaler numerical_scaler lr g wa wb G_loss D_loss w0 tr0
         x_synthetic y_synthetic generated,
    data_transformation df (fst (columns_type df)) (snd (columns_type df))
    = Ok (scaled_X, categorical_scaler, numerical_scaler)
    /\ (lr = initial_lr \/ lr = initial_lr / 10)
    /\ GAN_init G (List.length (pd.columns df)) lr dropout wa = (Ok g, wb)
    /\ GAN_train G g scaled_X epochs batch_size wb = (Ok (G_loss, D_loss), w0)
    /\ GAN_create_fake_samples G g samples w0 = (Ok (x_synthetic, y_synthetic), fst s')
    /\ snd s' = tr0 ++ [Sample samples]
    /\ generate_data df x_synthetic (snd (columns_type df)) (fst (columns_type df))
         categorical_scaler numerical_scaler = Ok generated
    /\ forall c, ~ In c (fst (columns_type df)) ->
         pd.getitem newdf c = pd.getitem generated c.
Proof.
  destruct s as [w tr], s' as [w' tr']. intros H.
  apply synthetic_data_Ok_sampled in H
    as (X & cs & ns & lr & g & wa & wb & gl & dl & w0 & tr0 & xs & ys & nd0
        & Hdt & Hlr & Hinit & Htrain & Hs & Htr & Hgen & Hloop).
  exists X, cs, ns, lr, g, wa, wb, gl, dl, w0, tr0, xs, ys, nd0.
  split; [exact Hdt|]. split; [exact Hlr|]. split; [exact Hinit|].
  split; [exact Htrain|]. split; [exact Hs|]. split; [exact Htr|].
  split; [exact Hgen|].
  intros c Hc.
  exact (for_each_untouched (rescale_numerical df) _ c nd0 newdf
           (rescale_numerical_local df) Hc Hloop).
Qed.

(** A run on [frame_C1]: the generator returns the rows (1, -1), (-1, 1),
    (0, 1), and the categorical column [c] of the frame returned is the one
    [generate_data] makes of these rows. *)
Lemma rescale_leaves_other_columns_witness :
  let G := constant_GAN (1 # 2) [[1; -(1)]; [-(1); 1]; [0; 1]] in
  exists newdf s',
    synthetic_data G 10 48 frame_C1 3 (2 # 10000) (1 # 2) (tt, []) = (Ok newdf, s')
    /\ exists scaled_X categorical_scaler numerical_scaler lr g wa wb G_loss D_loss w0 tr0
              x_synthetic y_synthetic generated,
         data_transformation frame_C1 (fst (columns_type frame_C1))
           (snd (columns_type frame_C1))
         = Ok (scaled_X, categorical_scaler, numerical_scaler)
         /\ (lr = 2 # 10000 \/ lr = (2 # 10000) / 10)
         /\ GAN_init G (List.length (pd.columns frame_C1)) lr (1 # 2) wa = (Ok g, wb)
         /\ GAN_train G g scaled_X 10 48 wb = (Ok (G_loss, D_loss), w0)
         /\ GAN_create_fake_samples G g 3 w0 = (Ok (x_synthetic, y_synthetic), fst s')
         /\ snd s' = tr0 ++ [Sample 3]
         /\ generate_data frame_C1 x_synthetic (snd (columns_type frame_C1))
              (fst (columns_type frame_C1)) categorical_scaler numerical_scaler
            = Ok generated
         /\ forall c, ~ In c (fst (columns_type frame_C1)) ->
              pd.getitem newdf c = pd.getitem generated c.
Proof.
  intros G. eexists _, _. split.
  - vm_compute. reflexivity.
  - eapply (rescale_leaves_other_columns G 10 48 frame_C1 3 (2 # 10000) (1 # 2) (tt, [])).
    vm_compute. reflexivity.
Defined.

(** ** Frames that get past the two tests *)

Lemma string_check_passes (W : Type) (df : pd.DataFrame) (cols : list string)
  (s : W * list event) :
  (forall c, In c cols -> exists v, pd.iloc0 df c = Ok v /\ is_str v = false) ->
  for_each_run cols
    (fun c => (v <~ lift (pd.iloc0 df c) ;;
               if is_str v then raise (ValueError (string_message c))
               else ret tt)%run) s
  = (Ok tt, s).
Proof.
  induction cols as [|c cols IH]; intros H; [reflexivity|].
  cbn [for_each_run]. unfold bind at 1. unfold bind at 1. unfold lift at 1.
  destruct (H c (or_introl eq_refl)) as (v & -> & ->).
  unfold ret at 1. apply IH. intros c' Hc'. apply H. now right.
Qed.

Lemma first_row_cells (df : pd.DataFrame) :
  NoDup (pd.columns df) ->
  (forall s, In s df -> exists v vs, pd.values s = v :: vs /\ is_str v = false) ->
  forall c, In c (pd.columns df) -> exists v, pd.iloc0 df c = Ok v /\ is_str v = false.
Proof.
  intros Hnd Hfirst c Hc. apply in_map_iff in Hc as (s & <- & Hs).
  destruct (Hfirst s Hs) as (v & vs & Hv & Hstr).
  exists v. split; [|exact Hstr].
  apply (iloc0_In df s v vs Hnd Hs Hv).
  intros s0 H0. destruct df as [|s1 df']; [discriminate|].
  injection H0 as ->. destruct (Hfirst s0 (or_introl eq_refl)) as (v0 & vs0 & -> & _).
  discriminate.
Qed.

Lemma trace_grows_ret {W A : Type} (a : A) : trace_grows (@ret W A a).
Proof. intros s. exists []. now rewrite app_nil_r. Qed.

Lemma trace_grows_lift {W A : Type} (r : result A) : trace_grows (@lift W A r).
Proof. intros s. exists []. now rewrite app_nil_r. Qed.

Lemma trace_grows_call {W A : Type} (ev : event) (op : W -> result A * W) :
  trace_grows (call ev op).
Proof. intros [w tr]. unfold call. cbn [fst snd]. destruct (op w). now exists [ev]. Qed.

Lemma trace_grows_bind {W A B : Type} (m : run W A) (k : A -> run W B) :
  trace_grows m -> (forall a, trace_grows (k a)) -> trace_grows (bind m k).
Proof.
  intros Hm Hk s. unfold bind. destruct (Hm s) as (t & Ht).
  destruct (m s) as [[a|e] s1]; cbn [snd] in Ht.
  - destruct (Hk a s1) as (t' & Ht'). exists (t ++ t').
    now rewrite Ht', Ht, app_assoc.
  - now exists t.
Qed.

Lemma trace_grows_train_gan (G : GAN_class) (epochs batch_size : nat)
  (X : list (list Q)) (n : nat) (lr d : Q) :
  trace_grows (train_gan G epochs batch_size X n lr d).
Proof.
  intros [w tr].
  destruct (train_gan_trace G epochs batch_size X n lr d w tr) as (r & w' & t & -> & _).
  now exists t.
Qed.

(** A matrix with at least one row and rows of one length passes the
    checks of [train_gan]: the generator is constructed. *)
Lemma train_gan_constructs (G : GAN_class) (epochs batch_size : nat)
  (X : list (list Q)) (n m : nat) (lr d : Q) (w : world G) (tr : list event) :
  X <> [] -> (forall row, In row X -> List.length row = m) ->
  exists r w' t,
    train_gan G epochs batch_size X n lr d (w, tr)
    = (r, (w', tr ++ Construct n lr d :: t)).
Proof.
  intros HX Hrows. unfold train_gan. destruct X as [|a0 X']; [congruence|].
  assert (E : forallb (fun a => Nat.eqb (List.length a) (List.length a0)) X' = true).
  { apply forallb_forall. intros a Ha. apply Nat.eqb_eq.
    rewrite (Hrows a (or_intror Ha)). symmetry. apply Hrows. now left. }
  rewrite E. cbn [negb].
  unfold bind at 1. unfold call at 1. cbn [fst snd].
  destruct (GAN_init G n lr d w) as [[g|e] w1].
  - destruct (trace_grows_bind
                (call (Train epochs batch_size)
                   (GAN_train G g (a0 :: X') epochs batch_size))
                (fun x : Q * Q => let (G_loss, D_loss) := x in ret (G_loss, D_loss, g))
                (trace_grows_call _ _)
                (fun x => match x with (gl, dl) => trace_grows_ret _ end)
                (w1, tr ++ [Construct n lr d])) as (t & Ht).
    cbn [snd] in Ht.
    match goal with |- exists r w' t0, ?m = _ => destruct m as [r [w' tr']] end.
    cbn [snd] in Ht. subst tr'. exists r, w', t.
    now rewrite <- app_assoc.
  - exists (Raise e), w1, []. reflexivity.
Qed.

(** X11.  A frame of numbers with distinct labels and at least one row, all
    columns of the same length, passes every check before training: the run
    constructs the generator, with as many features as the frame has
    columns and with the learning rate and the dropout it was given. *)
Theorem valid_frame_reaches_generator (G : GAN_class) (epochs batch_size : nat)
  (df : pd.DataFrame) (samples : nat) (initial_lr dropout : Q)
  (w : world G) (tr : list event) :
  NoDup (pd.columns df) ->
  (forall s, In s df -> List.length (pd.values s) = pd.len df) ->
  (forall s v, In s df -> In v (pd.values s) -> exists x, v = pd.VNum x) ->
  (1 <= pd.len df)%nat ->
  exists r w' rest,
    synthetic_data G epochs batch_size df samples initial_lr dropout (w, tr)
    = (r, (w', tr ++ Construct (List.length (pd.columns df)) initial_lr dropout :: rest)).
Proof.
  intros Hnd Hrect Hnum Hlen.
  destruct (data_transformation_progress df Hnd Hrect Hnum Hlen)
    as (X & cs & ns & Hdt).
  destruct (data_transformation_shape df X cs ns Hnd Hrect Hdt) as (HXlen & HXrows).
  assert (HX : X <> []) by (intros ->; simpl in HXlen; lia).
  unfold synthetic_data.
  rewrite isnull_sum_zero.
  2:{ intros s v Hs Hv. now destruct (Hnum s v Hs Hv) as (x & ->). }
  unfold bind at 1. rewrite string_check_passes.
  2:{ apply (first_row_cells df Hnd). intros s Hs.
      pose proof (Hrect s Hs) as HL.
      destruct (pd.values s) as [|v vs] eqn:Ev; [simpl in HL; lia|].
      exists v, vs. split; [reflexivity|].
      destruct (Hnum s v Hs) as (x & ->); [rewrite Ev; now left|reflexivity]. }
  revert Hdt. unfold columns_type. cbv zeta. cbn [fst snd]. intros Hdt.
  unfold bind at 1. unfold lift at 1. rewrite Hdt.
  match goal with
  | |- exists r w' rest, bind ?m ?k _ = _ =>
      assert (Hk : forall a, trace_grows (k a))
  end.
  { intros [[gl dl] g].
    apply trace_grows_bind.
    - destruct (np.ltb 1 gl); [apply trace_grows_train_gan|apply trace_grows_ret].
    - intros [[gl2 dl2] g2]. apply trace_grows_bind; [apply trace_grows_call|].
      intros [xs ys]. apply trace_grows_bind; [apply trace_grows_lift|].
      intros nd. apply trace_grows_bind; [apply trace_grows_lift|].
      intros nd'. apply trace_grows_ret. }
  unfold bind at 1.
  destruct (train_gan_constructs G epochs batch_size X (List.length (pd.columns df))
              (List.length (pd.columns df)) initial_lr dropout w tr HX HXrows)
    as (r1 & w1 & t1 & ->).
  destruct r1 as [x|e].
  - destruct (Hk x (w1, tr ++ Construct (List.length (pd.columns df)) initial_lr dropout
                            :: t1)) as (t2 & Ht2).
    cbn [snd] in Ht2.
    match goal with |- exists r w' rest, ?m = _ => destruct m as [r [w' tr']] end.
    cbn [snd] in Ht2. subst tr'. exists r, w', (t1 ++ t2).
    now rewrite <- app_assoc.
  - now exists (Raise e), w1, t1.
Qed.

(** [frame_C1] is a frame of numbers with four rows. *)
Lemma valid_frame_reaches_generator_witness :
  exists r w' rest,
    synthetic_data (constant_GAN (1 # 2) [[1; -(1)]; [-(1); 1]; [0; 1]]) 10 48
      frame_C1 3 (2 # 10000) (1 # 2) (tt, [])
    = (r, (w', [] ++ Construct (List.length (pd.columns frame_C1)) (2 # 10000) (1 # 2)
                 :: rest)).
Proof.
  apply (valid_frame_reaches_generator
           (constant_GAN (1 # 2) [[1; -(1)]; [-(1); 1]; [0; 1]]) 10 48
           frame_C1 3 (2 # 10000) (1 # 2) tt []).
  - repeat constructor; simpl; intuition discriminate.
  - intros s [<-|[<-|[]]]; reflexivity.
  - intros s v [<-|[<-|[]]] Hv; simpl in Hv;
      repeat (destruct Hv as [<-|Hv]; [eexists; reflexivity|]); destruct Hv.
  - simpl. lia.
Defined.

(** ** Decoded numerical columns and the last numerical column *)

Lemma percentile_sorted_upper (s : list Q) (p M : Q) :
  s <> [] -> 0 <= p <= 1 -> (forall x, In x s -> x <= M) ->
  np.percentile_sorted s p <= M.
Proof.
  intros Hs Hp HM. unfold np.percentile_sorted.
  set (n1 := (List.length s - 1)%nat).
  set (vidx := p * inject_Z (Z.of_nat n1)).
  assert (Hlen : (n1 < List.length s)%nat).
  { unfold n1. destruct s; [congruence|simpl; lia]. }
  assert (Hn1 : 0 <= inject_Z (Z.of_nat n1)).
  { change 0 with (inject_Z 0). rewrite <- Zle_Qle. lia. }
  assert (Hv : 0 <= vidx <= inject_Z (Z.of_nat n1)) by (unfold vidx; nra).
  assert (Hf0 : (0 <= Qfloor vidx)%Z).
  { change 0%Z with (Qfloor (inject_Z 0)) at 1. rewrite Qfloor_Z.
    rewrite <- (Qfloor_Z 0). apply Qfloor_resp_le. exact (proj1 Hv). }
  assert (Hf1 : (Qfloor vidx <= Z.of_nat n1)%Z).
  { rewrite <- (Qfloor_Z (Z.of_nat n1)). apply Qfloor_resp_le. exact (proj2 Hv). }
  assert (Hlo : (Z.to_nat (Qfloor vidx) < List.length s)%nat) by lia.
  assert (Hg : 0 <= vidx - inject_Z (Qfloor vidx) <= 1).
  { pose proof (Qfloor_le vidx). pose proof (Qlt_floor vidx) as Hlt.
    rewrite inject_Z_plus in Hlt. change (inject_Z 1) with 1 in Hlt. lra. }
  set (gamma := vidx - inject_Z (Qfloor vidx)) in *.
  assert (Ha : nth (Z.to_nat (Qfloor vidx)) s 0 <= M) by (apply HM, nth_In; exact Hlo).
  assert (Hb : nth (Nat.min (S (Z.to_nat (Qfloor vidx))) n1) s 0 <= M)
    by (apply HM, nth_In; lia).
  set (a := nth (Z.to_nat (Qfloor vidx)) s 0) in *.
  set (b := nth (Nat.min (S (Z.to_nat (Qfloor vidx))) n1) s 0) in *.
  nra.
Qed.

Lemma linspace_unit (n : nat) (r : Q) : In r (np.linspace 0 1 n) -> 0 <= r <= 1.
Proof.
  unfold np.linspace. destruct n as [|[|d]].
  - intros [].
  - intros [<-|[]]. lra.
  - intros H. apply in_map_iff in H as (k & <- & Hk). apply in_seq in Hk.
    pose proof (inject_nat_pos d) as HD.
    assert (HK : 0 <= inject_Z (Z.of_nat k) <= inject_Z (Z.of_nat (S d))).
    { split; [change 0 with (inject_Z 0)|]; rewrite <- Zle_Qle; lia. }
    set (D := inject_Z (Z.of_nat (S d))) in *.
    set (K := inject_Z (Z.of_nat k)) in *.
    assert (E : 0 + K * ((1 - 0) / D) == K / D) by (field; lra).
    rewrite E. split; [apply Qle_shift_div_l; lra|apply Qle_shift_div_r; lra].
Qed.

Lemma maximum_accumulate_from_upper (xs : list Q) (M : Q) :
  (forall x, In x xs -> x <= M) ->
  forall m, m <= M -> forall y, In y (np.maximum_accumulate_from m xs) -> y <= M.
Proof.
  induction xs as [|x xs IH]; intros Hxs m Hm y Hy; simpl in Hy; [destruct Hy|].
  assert (Hmax : Qmax m x <= M).
  { apply Q.max_lub; [exact Hm|]. apply Hxs. now left. }
  destruct Hy as [<-|Hy]; [exact Hmax|].
  apply (IH (fun z Hz => Hxs z (or_intror Hz)) (Qmax m x) Hmax y Hy).
Qed.

Lemma maximum_accumulate_upper (xs : list Q) (M : Q) :
  (forall x, In x xs -> x <= M) ->
  forall y, In y (np.maximum_accumulate xs) -> y <= M.
Proof.
  destruct xs as [|x xs]; intros Hxs y Hy; simpl in Hy; [destruct Hy|].
  destruct Hy as [<-|Hy]; [apply Hxs; now left|].
  exact (maximum_accumulate_from_upper xs M (fun z Hz => Hxs z (or_intror Hz)) x
           (Hxs x (or_introl eq_refl)) y Hy).
Qed.

Lemma sort_nonempty (X : list Q) : X <> [] -> np.sort X <> [].
Proof.
  intros HX E. apply (f_equal (@List.length _)) in E. rewrite sort_length in E.
  destruct X; [congruence|discriminate E].
Qed.

(** No fitted quantile exceeds an upper bound of the column. *)
Lemma QuantileTransformer_fit_upper (self self' : QuantileTransformer) (X : list Q)
  (references_ quantiles_ : list Q) (M : Q) :
  QuantileTransformer_fit self X = Ok self' ->
  references_quantiles_ self' = Some (references_, quantiles_) ->
  (forall x, In x X -> x <= M) ->
  forall q, In q quantiles_ -> q <= M.
Proof.
  unfold QuantileTransformer_fit.
  destruct (n_quantiles self <? 1)%nat; [discriminate|].
  destruct X as [|x0 X0]; [discriminate|]. cbn [check_array rbind].
  intros H E HM. injection H as <-. cbn [references_quantiles_] in E.
  injection E as _ <-.
  apply maximum_accumulate_upper. intros y Hy.
  apply in_map_iff in Hy as (r & <- & Hr).
  apply percentile_sorted_upper.
  - apply (sort_nonempty (x0 :: X0)). discriminate.
  - exact (linspace_unit _ r Hr).
  - intros x Hx. apply HM. now apply (sort_In (x0 :: X0)).
Qed.

Lemma nondecreasing_last (f0 : Q) (l : list Q) :
  nondecreasing (f0 :: l) -> f0 <= last l f0.
Proof.
  intros H.
  destruct (StronglySorted_last Qle l f0 f0 H (or_introl eq_refl)) as [<-|Hle];
    [lra|exact Hle].
Qed.

Lemma interp_from_upper (pts : list (Q * Q)) :
  forall x0 f0 v,
    x0 <= v -> increasing (x0 :: map fst pts) -> nondecreasing (f0 :: map snd pts) ->
    np.interp_from v x0 f0 pts <= last (map snd pts) f0.
Proof.
  induction pts as [|[x1 f1] pts IH]; intros x0 f0 v Hv Hx Hf; [simpl; lra|].
  cbn [np.interp_from]. cbn [map fst snd] in Hx, Hf |- *. rewrite last_cons.
  inversion Hx as [|? ? Hx' Hall]; subst. inversion Hf as [|? ? Hf' Hfall]; subst.
  assert (H01 : x0 < x1) by (inversion Hall; assumption).
  assert (Hf01 : f0 <= f1) by (inversion Hfall; assumption).
  pose proof (nondecreasing_last f1 (map snd pts) Hf') as Hlast.
  destruct (Qle_bool x1 v) eqn:E1.
  - apply Qle_bool_iff in E1. now apply IH.
  - apply Qle_bool_false in E1.
    destruct (Qeq_bool x0 v); [lra|].
    destruct (segment_value_bounds x0 x1 f0 f1 v H01 Hf01 Hv) as [_ Hup]; lra.
Qed.

Lemma interp_bounds (xp fp : list Q) (v : Q) :
  List.length xp = List.length fp -> increasing xp -> nondecreasing fp ->
  hd 0 fp <= np.interp v xp fp <= last fp 0.
Proof.
  intros HL Hx Hf. unfold np.interp.
  destruct xp as [|x0 xp], fp as [|f0 fp]; try discriminate; simpl; [lra|].
  injection HL as HL.
  pose proof (nondecreasing_last f0 fp Hf) as Hlast.
  assert (Elast : match fp with [] => f0 | _ :: _ => last fp 0 end = last fp f0).
  { destruct fp as [|f1 fp]; [reflexivity|]. now rewrite !last_cons. }
  rewrite Elast.
  unfold np.ltb. destruct (Qle_bool x0 v) eqn:E; cbn [negb]; [|lra].
  apply Qle_bool_iff in E.
  rewrite <- (map_fst_combine xp fp HL) in Hx.
  rewrite <- (map_snd_combine xp fp HL) in Hf.
  split.
  - exact (interp_from_lower (combine xp fp) x0 f0 v E Hx Hf).
  - pose proof (interp_from_upper (combine xp fp) x0 f0 v E Hx Hf) as Hup.
    now rewrite (map_snd_combine xp fp HL) in Hup.
Qed.

Lemma inverse_transform_col_bounds (references_ quantiles_ : list Q) (x : Q) :
  List.length references_ = List.length quantiles_ ->
  increasing references_ -> nondecreasing quantiles_ -> quantiles_ <> [] ->
  hd 0 quantiles_ <= inverse_transform_col references_ quantiles_ x <= last quantiles_ 0.
Proof.
  intros HL Hr Hq Hne. unfold inverse_transform_col.
  assert (Hends : hd 0 quantiles_ <= last quantiles_ 0).
  { destruct quantiles_ as [|q0 qs]; [congruence|]. simpl hd. rewrite last_cons.
    exact (nondecreasing_last q0 qs Hq). }
  destruct (Qeq_bool x 0); [lra|].
  destruct (Qeq_bool x 1); [lra|].
  exact (interp_bounds references_ quantiles_ x HL Hr Hq).
Qed.

(** Whatever is passed through the inverse of the fitted numerical scaler
    comes out between the least and the greatest value of the column the
    scaler was fitted on. *)
Lemma numerical_scaler_inverse_range (n : nat) (XL YL : list Q)
  (numerical_scaler : Pipeline) (lo hi : Q) :
  Pipeline_fit_transform (initial_numerical_scaler n) XL = Ok (numerical_scaler, YL) ->
  np.min XL = Ok lo -> np.max XL = Ok hi ->
  forall X Z, Pipeline_inverse_transform numerical_scaler X = Ok Z ->
    forall z, In z Z -> lo <= z <= hi.
Proof.
  unfold initial_numerical_scaler. cbn [Pipeline_fit_transform fit_transform].
  intros H Hlo Hhi.
  destruct (QuantileTransformer_fit _ XL) as [q'|] eqn:Ef; cbn [rbind] in H;
    [|discriminate].
  destruct (QuantileTransformer_transform q' XL) as [Y1|]; cbn [rbind] in H;
    [|discriminate].
  destruct (MinMaxScaler_fit _ Y1) as [s'|]; cbn [rbind] in H; [|discriminate].
  destruct (MinMaxScaler_transform s' Y1) as [Y2|]; cbn [rbind] in H; [|discriminate].
  injection H as <- _.
  destruct (QuantileTransformer_fit_spec _ q' XL Ef)
    as (HX & _ & refs & qs & Er & HL & Hlen & Hinc & Hnd & _ & _ & _ & Hmin & _).
  destruct (np_min_spec XL lo Hlo) as (Hlo' & _).
  destruct (np_max_spec XL hi Hhi) as (Hhi' & _).
  assert (Hqs : qs <> []).
  { intros ->. simpl in HL. lia. }
  assert (Hhd : lo <= hd 0 qs).
  { destruct Hmin as (x & Hx & E). rewrite E. now apply Hlo'. }
  assert (Hlast : last qs 0 <= hi).
  { apply (QuantileTransformer_fit_upper _ q' XL refs qs hi Ef Er Hhi').
    destruct qs as [|q0 qs']; [congruence|]. rewrite last_cons. apply last_In. }
  intros X Z. unfold Pipeline_inverse_transform. cbn [rev app for_each inverse_transform].
  destruct (MinMaxScaler_inverse_transform s' X) as [X1|]; cbn [rbind]; [|discriminate].
  unfold QuantileTransformer_inverse_transform. rewrite Er.
  destruct (check_array X1) as [[]|]; cbn [rbind]; [|discriminate].
  intros HZ z Hz. injection HZ as <-.
  apply in_map_iff in Hz as (x & <- & _).
  pose proof (inverse_transform_col_bounds refs qs x (eq_sym HL) Hinc Hnd Hqs). lra.
Qed.

(** X16.  With the scalers that [data_transformation] returns, every
    numerical column of the frame that [generate_data] returns lies between
    the least and the greatest value of the last numerical column of the
    input, whatever the synthetic matrix holds and whichever numerical
    column is decoded: the one numerical scaler keeps the quantiles of the
    last column it was fitted on. *)
Theorem decoded_numerical_range (df : pd.DataFrame)
  (scaled_X x_synthetic : list (list Q)) (categorical_scaler numerical_scaler : Pipeline)
  (newdf : pd.DataFrame) (before : list string) (last_c : string) (col : pd.Series)
  (orig : list Q) (lo hi : Q) (c : string) :
  NoDup (pd.columns df) ->
  (forall s, In s df -> List.length (pd.values s) = pd.len df) ->
  data_transformation df (fst (columns_type df)) (snd (columns_type df))
  = Ok (scaled_X, categorical_scaler, numerical_scaler) ->
  generate_data df x_synthetic (snd (columns_type df)) (fst (columns_type df))
    categorical_scaler numerical_scaler = Ok newdf ->
  fst (columns_type df) = before ++ [last_c] ->
  pd.getitem df last_c = Ok col -> pd.to_numpy (pd.values col) = Ok orig ->
  np.min orig = Ok lo -> np.max orig = Ok hi ->
  In c (fst (columns_type df)) ->
  exists Y,
    pd.getitem newdf c
    = Ok {| pd.name := c; pd.dtype_of := pd.float64; pd.values := pd.of_numpy Y |}
    /\ forall y, In y Y -> lo <= y <= hi.
Proof.
  intros Hnd Hrect Hdt Hgen Elast Hc Ho Hlo Hhi Hin.
  destruct (round_trip_lists df scaled_X categorical_scaler numerical_scaler Hnd Hdt)
    as (Hcat & Hnum & Hdisj & Hcover).
  destruct (data_transformation_spec df _ _ scaled_X categorical_scaler numerical_scaler
              Hnd Hcat Hnum Hdisj Hcover Hrect Hdt)
    as (_ & _ & _ & _ & _ & Lnum & _).
  destruct (Lnum before last_c Elast) as (colL & XL & YL & HcL & HXL & HfL).
  assert (colL = col) by congruence. subst colL.
  assert (XL = orig) by congruence. subst XL.
  assert (Hncat : ~ In c (snd (columns_type df))).
  { intros H. exact (Hdisj c H Hin). }
  destruct (numerical_column_chain df x_synthetic _ _ categorical_scaler numerical_scaler
              newdf c Hgen Hnum Hin Hncat)
    as (g & gcol & X & Y & _ & _ & _ & HY & Hnew).
  exists Y. split; [exact Hnew|].
  exact (numerical_scaler_inverse_range _ orig YL numerical_scaler lo hi HfL Hlo Hhi X Y HY).
Qed.

(** In [frame_C3_shared] the column [a] holds 0, 1, 2 and the last
    numerical column, [b], holds 100, 200, 400. *)
Lemma decoded_numerical_range_witness :
  exists newdf,
    generate_data frame_C3_shared samples_C3_shared ["k"%string] ["a"; "b"]%string
      (snd (fst fitted_C3_shared)) (snd fitted_C3_shared) = Ok newdf
    /\ exists Y,
         pd.getitem newdf "a"
         = Ok {| pd.name := "a"; pd.dtype_of := pd.float64; pd.values := pd.of_numpy Y |}
         /\ forall y, In y Y -> 100 <= y <= 400.
Proof.
  eexists. split.
  - vm_compute. reflexivity.
  - apply (decoded_numerical_range frame_C3_shared (fst (fst fitted_C3_shared))
             samples_C3_shared (snd (fst fitted_C3_shared)) (snd fitted_C3_shared) _
             ["a"%string] "b"%string
             {| pd.name := "b"; pd.dtype_of := pd.float64;
                pd.values := [pd.VNum 100; pd.VNum 200; pd.VNum 400] |}
             [100; 200; 400] 100 400 "a"%string).
    + repeat constructor; simpl; intuition discriminate.
    + intros s [<-|[<-|[<-|[]]]]; reflexivity.
    + vm_compute. reflexivity.
    + vm_compute. reflexivity.
    + reflexivity.
    + reflexivity.
    + reflexivity.
    + reflexivity.
    + reflexivity.
    + simpl; auto.
Defined.

(** ** Binary columns, end to end *)

(** X17.  In a frame that [synthetic_data] returns for an input with
    distinct labels, every cell of a categorical column with exactly two
    distinct input values holds one of these two values, and the column is
    categorical. *)
Theorem binary_output_values (G : GAN_class) (epochs batch_size : nat)
  (df : pd.DataFrame) (samples : nat) (initial_lr dropout : Q)
  (s s' : world G * list event) (newdf : pd.DataFrame)
  (c : string) (col : pd.Series) (orig : list Q) (b0 b1 : Q) :
  NoDup (pd.columns df) ->
  synthetic_data G epochs batch_size df samples initial_lr dropout s = (Ok newdf, s') ->
  In c (snd (columns_type df)) ->
  pd.getitem df c = Ok col -> pd.to_numpy (pd.values col) = Ok orig ->
  np.unique orig = [b0; b1] ->
  exists ncol,
    pd.getitem newdf c = Ok ncol
    /\ pd.dtype_of ncol = pd.CategoricalDtype
    /\ forall v, In v (pd.values ncol) -> v = pd.VNum b0 \/ v = pd.VNum b1.
Proof.
  intros Hnd H Hin Hc Ho Hu.
  apply synthetic_data_Ok_inv in H as (X & cs & ns & xs & nd0 & Hdt & Hgen & Hloop).
  destruct (round_trip_lists df X cs ns Hnd Hdt) as (Hcat & Hnum & Hdisj & _).
  destruct (binary_column_chain df xs _ _ cs ns nd0 c col orig b0 b1
              Hgen Hcat Hin (Hdisj c Hin) Hc Ho Hu)
    as (g & gcol & Xc & Y & codes & a0 & a1 & rest & _ & _ & _ & _ & HK & HU & Hnew).
  pose proof (for_each_untouched (rescale_numerical df) _ c nd0 newdf
                (rescale_numerical_local df) (Hdisj c Hin) Hloop) as Hsame.
  unfold same_column in Hsame. rewrite Hnew in Hsame.
  eexists. split; [exact Hsame|]. split; [reflexivity|].
  cbn [pd.values].
  rewrite (replace2_code a0 a1 b0 b1 _ rest codes eq_refl)
    by (auto; now apply KBins_two_codes in HK).
  intros v Hv. apply in_map_iff in Hv as (k & <- & _).
  destruct (k =? 0)%nat, (Qeq_bool b0 1); auto.
Qed.

(** The binary column [c] of [frame_C1] holds 5 and 3. *)
Lemma binary_output_values_witness :
  exists newdf s',
    synthetic_data (constant_GAN (1 # 2) [[1; -(1)]; [-(1); 1]; [0; 1]]) 10 48
      frame_C1 3 (2 # 10000) (1 # 2) (tt, []) = (Ok newdf, s')
    /\ exists ncol,
         pd.getitem newdf "c" = Ok ncol
         /\ pd.dtype_of ncol = pd.CategoricalDtype
         /\ forall v, In v (pd.values ncol) -> v = pd.VNum 3 \/ v = pd.VNum 5.
Proof.
  eexists _, _. split.
  - vm_compute. reflexivity.
  - eapply (binary_output_values
              (constant_GAN (1 # 2) [[1; -(1)]; [-(1); 1]; [0; 1]]) 10 48
              frame_C1 3 (2 # 10000) (1 # 2) (tt, []) _ _ "c"%string
              {| pd.name := "c"; pd.dtype_of := pd.CategoricalDtype;
                 pd.values := [pd.VNum 5; pd.VNum 3; pd.VNum 3; pd.VNum 5] |}
              [5; 3; 3; 5] 3 5).
    + repeat constructor; simpl; intuition discriminate.
    + vm_compute. reflexivity.
    + simpl; auto.
    + reflexivity.
    + reflexivity.
    + reflexivity.
Defined.
